(** * Diplomacy index dashboard: the aggregation and ranking pipeline

    A shallow embedding of [app3.py].  The sheet read by [pd.read_excel]
    is a list of [RawPost] rows, one per diplomatic post; a cell the
    sheet leaves empty is read as NaN, here [None].  The pandas
    primitives the script calls ([groupby], [size], [pivot_table],
    [rank], [merge], [sort_values], [value_counts], [unstack],
    [drop_duplicates]) are written out as list functions, with what each
    of them does to NaN. *)

From Stdlib Require Import String Ascii Bool List ZArith QArith Lia.
From Stdlib Require Import Permutation Sorted Finite DecimalString DecimalZ DecimalPos.
From Stdlib Require OrderedTypeEx.
Import ListNotations.

Local Open Scope string_scope.
Local Open Scope list_scope.
Local Open Scope Z_scope.

(** ** Outcomes

    A step of the script either yields a value or stops: [st.stop()]
    after the required-column check, or an exception raised by pandas. *)

Inductive failure : Type :=
| StreamlitStop   (* st.error(...); st.stop() of the required-column check *)
| ValueError      (* raised by DataFrame.__setitem__ *)
| KeyError        (* raised by DataFrame.__getitem__ *)
| TypeError.      (* raised by sorted() on a name and a NaN *)

Inductive outcome (A : Type) : Type :=
| Ok (a : A)
| Raise (e : failure).

Arguments Ok {A} a.
Arguments Raise {A} e.

Definition bind {A B : Type} (m : outcome A) (k : A -> outcome B) : outcome B :=
  match m with
  | Ok a => k a
  | Raise e => Raise e
  end.

Notation "x <- m ;; k" := (bind m (fun x => k))
  (at level 61, m at next level, right associativity).

(** ** Python's [str] on integers, used for column labels *)

Definition str (z : Z) : string := NilZero.string_of_int (Z.to_int z).

(** ** Rows *)

(** One row of [df_detail].  Every cell may be empty in the sheet:
    [pd.read_excel] then holds NaN, here [None]. *)
Record RawPost : Type := {
  COUNTRY : option string;
  Year : option Z;
  POST_TYPE_TITLE : option string;
  POST_COUNTRY : option string;
  OVERALL_RANK : option Z;
  POPULATION : option Q;
  GDP : option Q
}.

(** One row of [df_long]: columns Name, Year (here [LYear]), Posts. *)
Record LongRow : Type := {
  Name : string;
  LYear : Z;
  Posts : Z
}.

(** ** Cells

    [column == value] is false at a NaN cell, whatever the value;
    [notna] tells the cells that hold a value, and [dropna] keeps their
    values. *)

Definition str_is (cell : option string) (v : string) : bool :=
  match cell with
  | Some x => String.eqb x v
  | None => false
  end.

Definition int_is (cell : option Z) (v : Z) : bool :=
  match cell with
  | Some x => x =? v
  | None => false
  end.

Definition notna {A : Type} (cell : option A) : bool :=
  match cell with
  | Some _ => true
  | None => false
  end.

Fixpoint dropna {A : Type} (cells : list (option A)) : list A :=
  match cells with
  | [] => []
  | Some x :: cells' => x :: dropna cells'
  | None :: cells' => dropna cells'
  end.

(** ** Generic list helpers *)

Definition sumZ (l : list Z) : Z := fold_right Z.add 0 l.

Fixpoint assoc {K V : Type} (eqb : K -> K -> bool) (k : K) (l : list (K * V))
  : option V :=
  match l with
  | [] => None
  | (k', v) :: l' => if eqb k k' then Some v else assoc eqb k l'
  end.

(** The distinct values of a list. *)
Fixpoint unique {A : Type} (eqb : A -> A -> bool) (l : list A) : list A :=
  match l with
  | [] => []
  | x :: l' => if existsb (eqb x) l' then unique eqb l' else x :: unique eqb l'
  end.

(** ** Sorting of keys and labels

    Insertion sort by a boolean order.  It orders group keys and labels,
    which are distinct, and the values [rank] scans, where only the
    values show. *)

Section InsertionSort.
Context {A : Type} (leb : A -> A -> bool).

Fixpoint insert_by (x : A) (l : list A) : list A :=
  match l with
  | [] => [x]
  | y :: l' => if leb x y then x :: l else y :: insert_by x l'
  end.

Fixpoint sort_by (l : list A) : list A :=
  match l with
  | [] => []
  | x :: l' => insert_by x (sort_by l')
  end.

End InsertionSort.

(** ** Grouping

    [groupby(keys)] leaves out the rows with a NaN in one of the keys
    ([dropna=True] is its default), collects the rows of each key, the
    rows of a group in input order, and lists the groups by ascending
    key. *)

Fixpoint with_key {A K : Type} (key : A -> option K) (rows : list A)
  : list (K * A) :=
  match rows with
  | [] => []
  | r :: rows' =>
      match key r with
      | Some k => (k, r) :: with_key key rows'
      | None => with_key key rows'
      end
  end.

Section GroupBy.
Context {K V : Type} (eqb : K -> K -> bool) (leb : K -> K -> bool).

Fixpoint add_to_group (k : K) (v : V) (gs : list (K * list V))
  : list (K * list V) :=
  match gs with
  | [] => [(k, [v])]
  | (k', vs) :: gs' =>
      if eqb k k' then (k', v :: vs) :: gs'
      else (k', vs) :: add_to_group k v gs'
  end.

Fixpoint collect (rows : list (K * V)) : list (K * list V) :=
  match rows with
  | [] => []
  | (k, v) :: rest => add_to_group k v (collect rest)
  end.

Definition groupby (rows : list (K * V)) : list (K * list V) :=
  sort_by (fun g h => leb (fst g) (fst h)) (collect rows).

(** [.size()]: the number of rows of each group. *)
Definition size (gs : list (K * list V)) : list (K * Z) :=
  map (fun g => (fst g, Z.of_nat (List.length (snd g)))) gs.

Definition group_total (gs : list (K * list V)) : Z :=
  sumZ (map (fun g => Z.of_nat (List.length (snd g))) gs).

End GroupBy.

(** Keys of [groupby(['COUNTRY', 'Year'])]: exact match on both parts,
    ordered by country, then by year. *)

Definition key_eqb (a b : string * Z) : bool :=
  String.eqb (fst a) (fst b) && Z.eqb (snd a) (snd b).

Definition key_leb (a b : string * Z) : bool :=
  match String.compare (fst a) (fst b) with
  | Lt => true
  | Eq => Z.leb (snd a) (snd b)
  | Gt => false
  end.

Definition country_year (r : RawPost) : option (string * Z) :=
  match COUNTRY r, Year r with
  | Some c, Some y => Some (c, y)
  | _, _ => None
  end.

(** ** [load_and_prepare_data]: the long form (lines 28-30)

    [size()] yields integers, so [pd.to_numeric(..., errors='coerce')] of
    line 30 returns the column as it is and [dropna()] removes nothing:
    the assignment leaves Posts unchanged. *)

Definition df_long_of (df_detail : list RawPost) : list LongRow :=
  map (fun g => {| Name := fst (fst g); LYear := snd (fst g); Posts := snd g |})
      (size (groupby key_eqb key_leb (with_key country_year df_detail))).

Definition same_pair (c : string) (y : Z) (r : RawPost) : bool :=
  str_is (COUNTRY r) c && int_is (Year r) y.

(** ** [pivot_table(index, columns, values)]

    The default [aggfunc] is the mean of each (index, column) group.  Row
    and column labels are the distinct values, ascending; a pair with no
    group is NaN.  A frame is a list of labelled rows of labelled cells,
    every row with a cell for every column. *)

Definition mean (vs : list Z) : Q := sumZ vs # Pos.of_nat (List.length vs).

Definition frame (I C : Type) : Type := list (I * list (C * option Q)).

Section PivotTable.
Context {I C : Type}.
Context (ieqb ileb : I -> I -> bool) (ceqb cleb : C -> C -> bool).

Definition pair_eqb (a b : I * C) : bool :=
  ieqb (fst a) (fst b) && ceqb (snd a) (snd b).

Definition pivot_table (rows : list ((I * C) * Z)) : frame I C :=
  let agg := map (fun g => (fst g, mean (snd g))) (collect pair_eqb rows) in
  let index := sort_by ileb (unique ieqb (map (fun r => fst (fst r)) rows)) in
  let columns := sort_by cleb (unique ceqb (map (fun r => snd (fst r)) rows)) in
  map (fun i => (i, map (fun c => (c, assoc pair_eqb (i, c) agg)) columns)) index.

(** The cell at a row label and a column label: [None] when the frame has
    no such row or no such column, [Some None] when the cell is NaN. *)
Definition cell_at (f : frame I C) (i : I) (c : C) : option (option Q) :=
  match assoc ieqb i f with
  | Some row => assoc ceqb c row
  | None => None
  end.

End PivotTable.

(** ** [load_and_prepare_data]: the wide pivot (lines 32-33)

    [reset_index()] turns the index into the column Name, kept here as
    the row label; line 33 replaces every column label by its [str].

    The labels are the years as the column Year holds them.  A column
    of years without an empty cell is read as integers (int64), and
    [str] writes a year as the integer.  With an empty cell the column
    is read as floats (float64), the long form inherits them, and [str]
    writes a year with a trailing [.0], as it does for every whole float
    below 10^16. *)

Inductive dtype : Type := int64 | float64.

Definition Year_dtype (df_detail : list RawPost) : dtype :=
  if forallb (fun r => notna (Year r)) df_detail then int64 else float64.

Definition str_label (d : dtype) (y : Z) : string :=
  match d with
  | int64 => str y
  | float64 => String.append (str y) ".0"
  end.

Definition df_wide_of (d : dtype) (df_long : list LongRow) : frame string string :=
  map (fun row => (fst row,
                   map (fun cell => (str_label d (fst cell), snd cell)) (snd row)))
      (pivot_table String.eqb String.leb Z.eqb Z.leb
         (map (fun r => ((Name r, LYear r), Posts r)) df_long)).

(** ** [load_and_prepare_data]: the required columns (lines 23-26)

    What [pd.read_excel] returns: the column labels of the sheet and its
    rows.  The rows are only read once the check of the labels has
    passed; a cell of a column that the sheet does not have is never
    read. *)

Record Sheet : Type := {
  sheet_columns : list string;
  sheet_rows : list RawPost
}.

Definition required_cols : list string := ["COUNTRY"; "Year"; "OVERALL RANK"].

Definition load_and_prepare_data (sheet : Sheet)
  : outcome (frame string string * list LongRow * list RawPost) :=
  if forallb (fun col => existsb (String.eqb col) (sheet_columns sheet))
             required_cols
  then
    let df_detail := sheet_rows sheet in
    let df_long := df_long_of df_detail in
    let df_wide := df_wide_of (Year_dtype df_detail) df_long in
    Ok (df_wide, df_long, df_detail)
  else Raise StreamlitStop.

(** ** [calculate_rank_analysis] (lines 39-49) *)

(** [Series.rank(ascending=False, method='min')]: the values are scanned
    in descending order; the value at position [pos] (from 1) gets rank
    [pos], unless it equals the value before it, whose rank it shares.
    Every row then reads the rank of its value. *)
Fixpoint assign_min (prev : option (Z * Z)) (pos : Z) (sorted : list Z)
  : list (Z * Z) :=
  match sorted with
  | [] => []
  | v :: rest =>
      let r := match prev with
               | Some (pv, pr) => if v =? pv then pr else pos
               | None => pos
               end in
      (v, r) :: assign_min (Some (v, r)) (pos + 1) rest
  end.

Definition descending (vals : list Z) : list Z :=
  sort_by (fun a b => b <=? a) vals.

Definition rank_desc_min (vals : list Z) : list Z :=
  let table := assign_min None 1 (descending vals) in
  map (fun v => match assoc Z.eqb v table with
                | Some r => r
                | None => 0
                end) vals.

(** [df[df['Year'] == year]] on the long form. *)
Definition year_rows (df : list LongRow) (year : Z) : list LongRow :=
  filter (fun r => LYear r =? year) df.

(** The rows of a year with their new column Rank. *)
Definition ranked (rows : list LongRow) : list (LongRow * Z) :=
  combine rows (rank_desc_min (map Posts rows)).

(** [df_start[['Name', 'Rank']]]. *)
Definition name_rank (rows : list LongRow) : list (string * Z) :=
  map (fun x => (Name (fst x), snd x)) (ranked rows).

(** [pd.merge(left, right, on='Name', suffixes=(sl, sr))]: an inner join,
    the rows in the order of the left keys.  The join column is kept
    once; the column Rank is on both sides, so the left one is renamed
    to Rank followed by [sl] and the right one to Rank followed by [sr].
    pandas does not compare the two new labels with each other. *)
Record RankFrame : Type := {
  rf_labels : string * string;
  rf_rows : list (string * Z * Z)
}.

Definition merge_on_name (left right : list (string * Z)) (sl sr : string)
  : RankFrame :=
  {| rf_labels := (String.append "Rank" sl, String.append "Rank" sr);
     rf_rows :=
       flat_map (fun l =>
                   map (fun r => (fst l, snd l, snd r))
                       (filter (fun r => String.eqb (fst r) (fst l)) right))
                left |}.

(** [df_merged[label]]: every column that carries the label.  One column
    is a Series, several are a DataFrame with a repeated label, none is
    a KeyError.  (The labels asked for start with Rank_, so the column
    Name is never among them.) *)
Definition columns_named (f : RankFrame) (label : string) : list (list Z) :=
  (if String.eqb label (fst (rf_labels f))
   then [map (fun r => snd (fst r)) (rf_rows f)] else [])
  ++ (if String.eqb label (snd (rf_labels f))
      then [map (fun r => snd r) (rf_rows f)] else []).

Definition getitem (f : RankFrame) (label : string) : outcome (list (list Z)) :=
  match columns_named f label with
  | [] => Raise KeyError
  | cols => Ok cols
  end.

(** Subtraction of two selections with the same labels: column by
    column, row by row. *)
Definition sub_columns (a b : list (list Z)) : list (list Z) :=
  map (fun ab => map (fun xy => fst xy - snd xy) (combine (fst ab) (snd ab)))
      (combine a b).

(** [df_merged['Rank_Change'] = value] for a new label: a Series becomes
    the column; a DataFrame of several columns cannot be set to a single
    column, a ValueError. *)
Definition new_column (value : list (list Z)) : outcome (list Z) :=
  match value with
  | [col] => Ok col
  | _ => Raise ValueError
  end.

Record ChangeRow : Type := {
  cr_Name : string;
  Rank_start : Z;
  Rank_end : Z;
  Rank_Change : Z
}.

(** Lines 41-46: [df_merged] with its column Rank_Change. *)
Definition rank_change_table (df : list LongRow) (start_year end_year : Z)
  : outcome (list ChangeRow) :=
  let df_start := year_rows df start_year in
  let df_end := year_rows df end_year in
  let df_merged := merge_on_name (name_rank df_start) (name_rank df_end)
                     (String.append "_" (str start_year))
                     (String.append "_" (str end_year)) in
  a <- getitem df_merged (String.append "Rank_" (str start_year)) ;;
  b <- getitem df_merged (String.append "Rank_" (str end_year)) ;;
  change <- new_column (sub_columns a b) ;;
  Ok (map (fun rc => {| cr_Name := fst (fst (fst rc));
                        Rank_start := snd (fst (fst rc));
                        Rank_end := snd (fst rc);
                        Rank_Change := snd rc |})
          (combine (rf_rows df_merged) change)).

(** The rank change computed for a country. *)
Definition change_of (x : string) (t : list ChangeRow) : option Z :=
  option_map Rank_Change (find (fun r => String.eqb (cr_Name r) x) t).

(** ** Post types (lines 94-98) *)

(** [Series.value_counts()] before its ordering by count: how often each
    distinct value occurs.  NaN cells are not counted ([dropna=True] is
    its default). *)
Definition value_counts (l : list (option string)) : list (string * Z) :=
  size (collect String.eqb (map (fun x => (x, x)) (dropna l))).

(** A table of counts: its column labels and, per row label, the
    labelled cells; a cell that is not there reads as missing. *)
Record CountFrame : Type := {
  cf_columns : list string;
  cf_rows : list (string * list (string * option Z))
}.

Definition cell (label : string) (cells : list (string * option Z)) : option Z :=
  match assoc String.eqb label cells with
  | Some c => c
  | None => None
  end.

(** [groupby('COUNTRY')['POST TYPE TITLE'].value_counts()
      .unstack(fill_value=0)].  [groupby] leaves out the rows without a
    country and [value_counts] the cells without a label.  [unstack]
    gives a row to every country that has a count and a column to every
    label counted, the count of a label a country does not have filled
    with 0.  A country whose rows all lack a label has no count, hence
    no row. *)
Definition post_type_table (df_ranking : list RawPost) : CountFrame :=
  let groups := groupby String.eqb String.leb
                  (map (fun kr => (fst kr, POST_TYPE_TITLE (snd kr)))
                       (with_key COUNTRY df_ranking)) in
  let counts := map (fun g => (fst g, value_counts (snd g))) groups in
  let counted := filter (fun g => match snd g with
                                  | [] => false
                                  | _ => true
                                  end) counts in
  let labels := sort_by String.leb
                  (unique String.eqb
                     (flat_map (fun g => map fst (snd g)) counted)) in
  {| cf_columns := labels;
     cf_rows :=
       map (fun g => (fst g,
                      map (fun l => (l, match assoc String.eqb l (snd g) with
                                        | Some n => Some n
                                        | None => Some 0
                                        end)) labels))
           counted |}.

(** [DataFrame.get(label, default)] is the column when the label is one
    of the columns, else the default, a scalar. *)
Inductive operand : Type :=
| Column (cells : list (option Z))
| Scalar (z : Z).

Definition get (f : CountFrame) (label : string) (default : Z) : operand :=
  if existsb (String.eqb label) (cf_columns f)
  then Column (map (fun row => cell label (snd row)) (cf_rows f))
  else Scalar default.

Definition add_cell (a b : option Z) : option Z :=
  match a, b with
  | Some x, Some y => Some (x + y)
  | _, _ => None
  end.

(** [+] on columns of one frame, a scalar being broadcast. *)
Definition add (a b : operand) : operand :=
  match a, b with
  | Column xs, Column ys => Column (map (fun xy => add_cell (fst xy) (snd xy))
                                        (combine xs ys))
  | Column xs, Scalar y => Column (map (fun x => add_cell x (Some y)) xs)
  | Scalar x, Column ys => Column (map (fun y => add_cell (Some x) y) ys)
  | Scalar x, Scalar y => Scalar (x + y)
  end.

Fixpoint set_cell (label : string) (v : option Z)
  (cells : list (string * option Z)) : list (string * option Z) :=
  match cells with
  | [] => [(label, v)]
  | (l, w) :: cells' =>
      if String.eqb label l then (l, v) :: cells'
      else (l, w) :: set_cell label v cells'
  end.

(** [frame[label] = value]: an existing column is overwritten, a new one
    is appended; a scalar fills the column. *)
Definition setitem (f : CountFrame) (label : string) (value : operand)
  : CountFrame :=
  let cells :=
    match value with
    | Column cs => cs
    | Scalar z => map (fun _ => Some z) (cf_rows f)
    end in
  {| cf_columns := if existsb (String.eqb label) (cf_columns f)
                   then cf_columns f else cf_columns f ++ [label];
     cf_rows := map (fun rc => (fst (fst rc),
                                set_cell label (snd rc) (snd (fst rc))))
                    (combine (cf_rows f) cells) |}.

(** Lines 94-98. *)
Definition post_type_counts_of (df_ranking : list RawPost) : CountFrame :=
  let post_type_counts := post_type_table df_ranking in
  let post_type_counts :=
    setitem post_type_counts "Consulates"
      (add (get post_type_counts "Consulate" 0)
           (get post_type_counts "Consulate General" 0)) in
  setitem post_type_counts "Embassies"
    (add (get post_type_counts "Embassy" 0)
         (get post_type_counts "High Commission" 0)).

(** [post_type_counts[['Embassies', 'Consulates']]]: a KeyError when one
    of the two labels is not a column. *)
Definition select_breakdown (f : CountFrame)
  : outcome (list (string * (option Z * option Z))) :=
  if existsb (String.eqb "Embassies") (cf_columns f)
     && existsb (String.eqb "Consulates") (cf_columns f)
  then Ok (map (fun row => (fst row, (cell "Embassies" (snd row),
                                      cell "Consulates" (snd row))))
               (cf_rows f))
  else Raise KeyError.

(** ** The ranking table (lines 86-115) *)

(** Two cells hold the same value: [drop_duplicates] and [unique] take
    NaN for a value like any other. *)
Definition same_cell {A : Type} (eqb : A -> A -> bool) (a b : option A) : bool :=
  match a, b with
  | Some x, Some y => eqb x y
  | None, None => true
  | _, _ => false
  end.

(** [drop_duplicates(subset=['COUNTRY'])]: the first row of each country
    stays, and the first row without a country. *)
Fixpoint drop_duplicates (seen : list (option string)) (rows : list RawPost)
  : list RawPost :=
  match rows with
  | [] => []
  | r :: rows' =>
      if existsb (same_cell String.eqb (COUNTRY r)) seen
      then drop_duplicates seen rows'
      else r :: drop_duplicates (COUNTRY r :: seen) rows'
  end.

(** One row of [df_display]; Rank is its index after [set_index]. *)
Record DisplayRow : Type := {
  Rank : option Z;
  Country : string;
  Population : option Q;
  Gdp : option Q;
  TOTAL_POSTS : Z;
  Embassies : option Z;
  Consulates : option Z
}.

(** [pd.merge(df_meta, df_total_posts, on='COUNTRY')]: the inner join.
    The totals come from the long form, where every row has a name, so
    the row of [df_meta] without a country finds no match. *)
Definition merge_totals (df_meta : list RawPost)
  (df_total_posts : list (string * Z)) : list (RawPost * (string * Z)) :=
  flat_map (fun m =>
              map (fun t => (m, t))
                  (filter (fun t => str_is (COUNTRY m) (fst t))
                          df_total_posts))
           df_meta.

(** [pd.merge(df_merged, breakdown, on='COUNTRY', how='left')]: a row of
    the left side with no match keeps its place, its two new cells
    missing. *)
Definition merge_left (df_merged : list (RawPost * (string * Z)))
  (breakdown : list (string * (option Z * option Z))) : list DisplayRow :=
  flat_map (fun mt =>
              let m := fst mt in
              let country := fst (snd mt) in
              let row (ec : option Z * option Z) :=
                {| Rank := OVERALL_RANK m; Country := country;
                   Population := POPULATION m; Gdp := GDP m;
                   TOTAL_POSTS := snd (snd mt);
                   Embassies := fst ec; Consulates := snd ec |} in
              match filter (fun b => String.eqb (fst b) country) breakdown with
              | [] => [row (None, None)]
              | matches => map (fun b => row (snd b)) matches
              end)
           df_merged.

(** ** A country's footprint (lines 124-129), before its ordering *)

Definition country_posts_of (df_detail : list RawPost) (map_year : Z)
  (selected_country_map : string) : list RawPost :=
  filter (fun r => str_is (COUNTRY r) selected_country_map)
         (filter (fun r => int_is (Year r) map_year) df_detail).

(** ** [sort_values]

    pandas sorts with its default, quicksort, which promises no order
    among rows of equal key.  The sort is therefore a parameter: any
    function whose result is a rearrangement of its input, ordered by
    the key, ascending or descending. *)

Definition ordered_by {A : Type} (key : A -> Z) (ascending : bool) (l : list A)
  : Prop :=
  StronglySorted (fun a b => if ascending then key a <= key b
                             else key b <= key a) l.

(** The same for a key that may be NaN: the rows with a NaN key come
    last. *)
Definition ordered_na_last {A : Type} (key : A -> option Z) (ascending : bool)
  (l : list A) : Prop :=
  StronglySorted (fun a b => match key a, key b with
                             | Some x, Some y => if ascending then x <= y
                                                 else y <= x
                             | _, None => True
                             | None, Some _ => False
                             end) l.

Definition has_column (sheet : Sheet) (label : string) : bool :=
  existsb (String.eqb label) (sheet_columns sheet).

Section SortValues.
Variable sort_values : forall A : Type, (A -> Z) -> bool -> list A -> list A.

(** [sort_values] by a column with NaN cells: the rows with a NaN key
    are kept out of the sort and follow the sorted rows, in the order
    they had ([na_position='last'] is the default). *)
Definition sort_values_na_last {A : Type} (key : A -> option Z)
  (ascending : bool) (l : list A) : list A :=
  sort_values A (fun a => match key a with
                          | Some z => z
                          | None => 0
                          end)
              ascending (filter (fun a => notna (key a)) l)
  ++ filter (fun a => negb (notna (key a))) l.

(** Lines 47-49. *)
Definition calculate_rank_analysis (df : list LongRow) (start_year end_year : Z)
  : outcome (list ChangeRow * list ChangeRow) :=
  df_merged <- rank_change_table df start_year end_year ;;
  let most_improved := sort_values _ Rank_Change false df_merged in
  let biggest_fall := sort_values _ Rank_Change true df_merged in
  Ok (firstn 10 most_improved, firstn 10 biggest_fall).

(** Lines 86-115, for a sheet that has the columns these lines read.
    Every label of [columns_to_show] is then a column of
    [df_final_display], so line 113 keeps them all; [set_index] takes
    Rank as the index and does not check it for repeated values
    ([verify_integrity] is off unless asked for). *)
Definition ranking_table (df_detail : list RawPost) (df_long : list LongRow)
  (year_to_display : Z) : outcome (list DisplayRow) :=
  let df_ranking := filter (fun r => int_is (Year r) year_to_display) df_detail in
  let df_total_posts :=
    map (fun r => (Name r, Posts r)) (year_rows df_long year_to_display) in
  breakdown <- select_breakdown (post_type_counts_of df_ranking) ;;
  let df_meta := drop_duplicates [] df_ranking in
  let df_merged := merge_totals df_meta df_total_posts in
  let df_final_display := merge_left df_merged breakdown in
  Ok (sort_values_na_last Rank true df_final_display).

(** Lines 124-129: [value_counts()] lists the host countries by count,
    descending, the posts without a host country left out. *)
Definition post_locations_of (df_detail : list RawPost) (map_year : Z)
  (selected_country_map : string) : list (string * Z) :=
  let country_posts := country_posts_of df_detail map_year selected_country_map in
  sort_values _ snd false (value_counts (map POST_COUNTRY country_posts)).

(** The two tabs on the sheet as loaded.  Line 94 reads the column POST
    TYPE TITLE, line 101 the columns POPULATION (M) and GDP (B, USD),
    and line 128 the column POST COUNTRY.  The check at loading does
    not ask for any of them: a KeyError where one is missing. *)
Definition tab2_ranking_table (sheet : Sheet) (year_to_display : Z)
  : outcome (list DisplayRow) :=
  if has_column sheet "POST TYPE TITLE"
     && (has_column sheet "POPULATION (M)" && has_column sheet "GDP (B, USD)")
  then ranking_table (sheet_rows sheet) (df_long_of (sheet_rows sheet))
                     year_to_display
  else Raise KeyError.

Definition tab3_post_locations (sheet : Sheet) (map_year : Z)
  (selected_country_map : string) : outcome (list (string * Z)) :=
  if has_column sheet "POST COUNTRY"
  then Ok (post_locations_of (sheet_rows sheet) map_year selected_country_map)
  else Raise KeyError.

End SortValues.

(** Insertion sort by the key is one such sort. *)
Definition insertion_sort_values (A : Type) (key : A -> Z) (ascending : bool)
  (l : list A) : list A :=
  sort_by (fun a b => if ascending then key a <=? key b else key b <=? key a) l.

(** ** The trend of the selected countries (lines 140-143)

    The script excludes the year 2019; the excluded years are a
    parameter here, the script's call being [tab4_trend]. *)

Definition trend_pivot (df_long : list LongRow)
  (selected_countries_comp : list string) (excluded : list Z) : frame Z string :=
  let trend_df :=
    filter (fun r => existsb (String.eqb (Name r)) selected_countries_comp)
           df_long in
  let trend_df :=
    filter (fun r => negb (existsb (Z.eqb (LYear r)) excluded)) trend_df in
  pivot_table Z.eqb Z.leb String.eqb String.leb
    (map (fun r => ((LYear r, Name r), Posts r)) trend_df).

Definition tab4_trend (df_long : list LongRow)
  (selected_countries_comp : list string) : option (frame Z string) :=
  match selected_countries_comp with
  | [] => None
  | _ => Some (trend_pivot df_long selected_countries_comp [2019])
  end.

(** ** Notions the facts are stated with *)

(** The rows that [groupby] of line 28 keeps, with their keys. *)
Definition keyed (df_detail : list RawPost) : list ((string * Z) * RawPost) :=
  with_key country_year df_detail.

(** A row has both a country and a year. *)
Definition has_keys (r : RawPost) : bool := notna (COUNTRY r) && notna (Year r).

Definition long_key (row : LongRow) : string * Z := (Name row, LYear row).

Definition long_cells (df_long : list LongRow) : list ((string * Z) * Z) :=
  map (fun r => ((Name r, LYear r), Posts r)) df_long.

(** The mean of every (index, column) group, as [pivot_table] reads it. *)
Definition aggregated {I C : Type} (ieqb : I -> I -> bool) (ceqb : C -> C -> bool)
  (rows : list ((I * C) * Z)) : list ((I * C) * Q) :=
  map (fun g => (fst g, mean (snd g))) (collect (pair_eqb ieqb ceqb) rows).

Definition trend_rows (df_long : list LongRow)
  (selected_countries_comp : list string) (excluded : list Z) : list LongRow :=
  filter (fun r => negb (existsb (Z.eqb (LYear r)) excluded))
         (filter (fun r => existsb (String.eqb (Name r)) selected_countries_comp)
                 df_long).

(** How many values of a list are strictly greater than [v]. *)
Definition count_greater (v : Z) (l : list Z) : Z :=
  Z.of_nat (List.length (filter (fun x => v <? x) l)).

Definition desc (a b : Z) : Prop := b <= a.

(** The rank change the script computes for a country, if it computes
    one. *)
Definition rank_change (df : list LongRow) (start_year end_year : Z)
  (x : string) : option Z :=
  match rank_change_table df start_year end_year with
  | Ok t => change_of x t
  | Raise _ => None
  end.

Definition change_row (r : string * Z * Z) : ChangeRow :=
  {| cr_Name := fst (fst r); Rank_start := snd (fst r); Rank_end := snd r;
     Rank_Change := snd (fst r) - snd r |}.

Definition joined (df : list LongRow) (start_year end_year : Z)
  : list (string * Z * Z) :=
  rf_rows (merge_on_name (name_rank (year_rows df start_year))
                         (name_rank (year_rows df end_year))
                         (String.append "_" (str start_year))
                         (String.append "_" (str end_year))).

Definition occurrences (x : string) (l : list string) : Z :=
  Z.of_nat (List.length (filter (String.eqb x) l)).

(** A table with one row per group, and an operand read row by row. *)
Definition tabular (groups : list (string * list (option string)))
  (f : CountFrame)
  (cells : string * list (option string) -> list (string * option Z)) : Prop :=
  cf_rows f = map (fun g => (fst g, cells g)) groups.

Definition denotes (groups : list (string * list (option string)))
  (op : operand) (val : string * list (option string) -> Z) : Prop :=
  match op with
  | Column cs => cs = map (fun g => Some (val g)) groups
  | Scalar z => forall g, In g groups -> val g = z
  end.

(** The countries of a year with the label cells of their rows. *)
Definition country_titles (df_ranking : list RawPost)
  : list (string * list (option string)) :=
  groupby String.eqb String.leb
    (map (fun kr => (fst kr, POST_TYPE_TITLE (snd kr)))
         (with_key COUNTRY df_ranking)).

Definition some_label (g : string * list (option string)) : bool :=
  existsb notna (snd g).

(** Those of them that have a row in the table of post types. *)
Definition type_groups (df_ranking : list RawPost)
  : list (string * list (option string)) :=
  filter some_label (country_titles df_ranking).

Definition type_labels (df_ranking : list RawPost) : list string :=
  sort_by String.leb
    (unique String.eqb
       (flat_map (fun g => map fst (value_counts (snd g)))
                 (type_groups df_ranking))).

Definition type_cells (df_ranking : list RawPost)
  (g : string * list (option string)) : list (string * option Z) :=
  map (fun l => (l, match assoc String.eqb l (value_counts (snd g)) with
                    | Some n => Some n
                    | None => Some 0
                    end)) (type_labels df_ranking).

(** Embassies and Consulates of a group, as the script adds them up. *)
Definition embassies_of (g : string * list (option string)) : Z :=
  occurrences "Embassy" (dropna (snd g))
  + occurrences "High Commission" (dropna (snd g)).

Definition consulates_of (g : string * list (option string)) : Z :=
  occurrences "Consulate" (dropna (snd g))
  + occurrences "Consulate General" (dropna (snd g)).

Definition detail_of_year (df_detail : list RawPost) (y : Z) : list RawPost :=
  filter (fun r => int_is (Year r) y) df_detail.

(** The posts of a country in a year, and those with a given label. *)
Definition posts_in (df_detail : list RawPost) (c : string) (y : Z) : Z :=
  Z.of_nat (List.length (filter (same_pair c y) df_detail)).

Definition labelled (df_detail : list RawPost) (c : string) (y : Z)
  (l : string) : Z :=
  Z.of_nat (List.length
              (filter (fun r => same_pair c y r
                                && str_is (POST_TYPE_TITLE r) l)
                      df_detail)).

(** Some post of the country in the year has a label. *)
Definition titled (df_detail : list RawPost) (c : string) (y : Z) : bool :=
  existsb (fun r => same_pair c y r && notna (POST_TYPE_TITLE r)) df_detail.

Definition type_titles (df_detail : list RawPost) (c : string) (y : Z)
  : list (option string) :=
  map POST_TYPE_TITLE
      (filter (fun r => str_is (COUNTRY r) c) (detail_of_year df_detail y)).

(** The sum of two label counts as the table shows it: a number for a
    country with a labelled post, missing for a country without. *)
Definition shown (df_detail : list RawPost) (c : string) (y : Z)
  (l l' : string) : option Z :=
  if titled df_detail c y
  then Some (labelled df_detail c y l + labelled df_detail c y l')
  else None.

(** The row the table shows for a row of [df_meta] with its country. *)
Definition summary_row (df_detail : list RawPost) (y : Z)
  (cm : string * RawPost) : DisplayRow :=
  {| Rank := OVERALL_RANK (snd cm); Country := fst cm;
     Population := POPULATION (snd cm); Gdp := GDP (snd cm);
     TOTAL_POSTS := posts_in df_detail (fst cm) y;
     Embassies := shown df_detail (fst cm) y "Embassy" "High Commission";
     Consulates := shown df_detail (fst cm) y "Consulate" "Consulate General" |}.

(** The rows of [df_meta] that have a country, each with its country. *)
Definition named_meta (df_detail : list RawPost) (y : Z)
  : list (string * RawPost) :=
  with_key COUNTRY (drop_duplicates [] (detail_of_year df_detail y)).

(** The four labels the script adds up. *)
Definition recognized : list string :=
  ["Embassy"; "High Commission"; "Consulate"; "Consulate General"].

(** A post-type cell holds one of the four. *)
Definition recognized_title (cell : option string) : bool :=
  match cell with
  | Some l => existsb (String.eqb l) recognized
  | None => false
  end.


(** ** Key findings (lines 63-76) *)

(** [Series.max()]: the greatest value; NaN, here [None], for a column
    without values. *)
Definition series_max (l : list Z) : option Z :=
  match l with
  | [] => None
  | x :: l' => Some (fold_left Z.max l' x)
  end.

(** [column == latest_year]: NaN equals no value. *)
Definition is_year (latest_year : option Z) (y : Z) : bool :=
  match latest_year with
  | Some m => y =? m
  | None => false
  end.

Definition year_is (latest_year : option Z) (cell : option Z) : bool :=
  match cell with
  | Some y => is_year latest_year y
  | None => false
  end.

(** [.iloc[n]]: the row at a position, an IndexError past the last row. *)
Inductive located (A : Type) : Type :=
| At (a : A)
| IndexError.

Arguments At {A} a.
Arguments IndexError {A}.

Definition iloc {A : Type} (rows : list A) (n : nat) : located A :=
  match nth_error rows n with
  | Some a => At a
  | None => IndexError
  end.

(** What the three metrics show: the cells COUNTRY and OVERALL RANK of
    the two detail rows, and the posts of the two leading rows. *)
Record KeyFindings : Type := {
  kf_latest_year : option Z;
  top_country : option string;
  top_rank : option Z;
  top_country_posts : Z;
  second_country : option string;
  second_rank : option Z;
  second_country_posts : Z
}.

(** Lines 63-65. *)
Definition df_long_latest_of (df_long : list LongRow) : list LongRow :=
  let latest_year := series_max (map LYear df_long) in
  filter (fun r => is_year latest_year (LYear r)) df_long.

Definition df_detail_latest_of (df_long : list LongRow)
  (df_detail : list RawPost) : list RawPost :=
  let latest_year := series_max (map LYear df_long) in
  filter (fun r => year_is latest_year (Year r)) df_detail.

(** Lines 69-70: the first detail row of a country in the latest year. *)
Definition country_details_of (df_long : list LongRow) (df_detail : list RawPost)
  (country_name : string) : located RawPost :=
  iloc (filter (fun r => str_is (COUNTRY r) country_name)
               (df_detail_latest_of df_long df_detail))
       0.

Section KeyFindingsOf.
Variable sort_values : forall A : Type, (A -> Z) -> bool -> list A -> list A.

(** Line 66. *)
Definition top_performers_of (df_long : list LongRow) : list LongRow :=
  sort_values _ Posts false (df_long_latest_of df_long).

(** Lines 63-76. *)
Definition key_findings (df_long : list LongRow) (df_detail : list RawPost)
  : located KeyFindings :=
  let latest_year := series_max (map LYear df_long) in
  let top_performers := top_performers_of df_long in
  match iloc top_performers 0 with
  | IndexError => IndexError
  | At top =>
    match iloc top_performers 1 with
    | IndexError => IndexError
    | At second =>
      match country_details_of df_long df_detail (Name top) with
      | IndexError => IndexError
      | At top_country_details =>
        match country_details_of df_long df_detail (Name second) with
        | IndexError => IndexError
        | At second_country_details =>
            At {| kf_latest_year := latest_year;
                  top_country := COUNTRY top_country_details;
                  top_rank := OVERALL_RANK top_country_details;
                  top_country_posts := Posts top;
                  second_country := COUNTRY second_country_details;
                  second_rank := OVERALL_RANK second_country_details;
                  second_country_posts := Posts second |}
        end
      end
    end
  end.

End KeyFindingsOf.

(** ** The choices offered (lines 82-83, 123-126, 136-139) *)

(** [st.selectbox(options, index)] shows [options[index]] until the user
    chooses; nothing without options. *)
Definition selectbox_default {A : Type} (options : list A) (index : nat)
  : option A :=
  nth_error options index.

(** [Series.unique()] of the column Year: its distinct cells, NaN being
    one of them when a cell is empty. *)
Definition unique_years (df_detail : list RawPost) : list (option Z) :=
  unique (same_cell Z.eqb) (map Year df_detail).

Section YearChoice.

(** Python's [sorted] on the distinct years.  It promises the ascending
    order for values that compare; NaN compares false with every value,
    and where [sorted] then leaves it and its neighbours is not
    specified.  It is therefore a parameter: a function whose result is
    a rearrangement of its input, in ascending order when no NaN is in
    it. *)
Variable sorted : list (option Z) -> list (option Z).

Definition all_years (df_detail : list RawPost) : list (option Z) :=
  sorted (unique_years df_detail).

(** Line 83: nothing when no year is offered, else the last year
    offered, which may be NaN. *)
Definition year_to_display_default (df_detail : list RawPost)
  : option (option Z) :=
  selectbox_default (all_years df_detail)
                    (List.length (all_years df_detail) - 1).

End YearChoice.

(** Insertion sort with the comparison of floats, false at NaN, is one
    such [sorted]. *)
Definition insertion_sorted (l : list (option Z)) : list (option Z) :=
  sort_by (fun a b => match a, b with
                      | Some x, Some y => x <=? y
                      | _, _ => false
                      end) l.

(** Line 123: [Series.max()] skips NaN. *)
Definition map_year_of (df_detail : list RawPost) : option Z :=
  series_max (dropna (map Year df_detail)).

(** [sorted] on the distinct COUNTRY cells: names compare with names.
    A name and NaN, a float, do not compare: a TypeError.  Cells that
    are all NaN stay as they are. *)
Definition sorted_names (cells : list (option string))
  : outcome (list (option string)) :=
  match dropna cells with
  | [] => Ok cells
  | names =>
      if forallb notna cells
      then Ok (map Some (sort_by String.leb names))
      else Raise TypeError
  end.

(** Lines 124-125. *)
Definition df_map_data_of (df_detail : list RawPost) : list RawPost :=
  filter (fun r => year_is (map_year_of df_detail) (Year r)) df_detail.

Definition country_list_map_of (df_detail : list RawPost)
  : outcome (list (option string)) :=
  sorted_names (unique (same_cell String.eqb)
                       (map COUNTRY (df_map_data_of df_detail))).

(** [list.index(x)] for an [x] of the list: its first position. *)
Fixpoint list_index (x : string) (l : list (option string)) : nat :=
  match l with
  | [] => 0
  | y :: l' => if str_is y x then 0 else S (list_index x l')
  end.

(** Line 126: nothing when no country is offered, else the country
    offered at the index, which may be NaN. *)
Definition selected_country_map_default (df_detail : list RawPost)
  : outcome (option (option string)) :=
  country_list_map <- country_list_map_of df_detail ;;
  Ok (selectbox_default country_list_map
        (if existsb (fun c => str_is c "China") country_list_map
         then list_index "China" country_list_map
         else 0%nat)).

(** [sorted(df_long['Name'].unique())]. *)
Definition all_countries_list_comp (df_long : list LongRow) : list string :=
  sort_by String.leb (unique String.eqb (map Name df_long)).

Definition default_countries_comp : list string :=
  ["China"; "United States"; "Turkey"; "Japan"; "France"; "Russia"].

Definition valid_defaults_comp (df_long : list LongRow) : list string :=
  filter (fun c => existsb (String.eqb c) (all_countries_list_comp df_long))
         default_countries_comp.

(** Lines 140-143 before the user changes the selection. *)
Definition tab4_default (df_long : list LongRow) : option (frame Z string) :=
  tab4_trend df_long (valid_defaults_comp df_long).

(** ** Orders the further facts are stated with *)

Definition string_le (a b : string) : Prop := String.leb a b = true.

Definition key_le (a b : string * Z) : Prop := key_leb a b = true.

(** Cells in ascending order of the years they hold. *)
Definition ascending_cells (l : list (option Z)) : Prop :=
  StronglySorted (fun a b => match a, b with
                             | Some x, Some y => x <= y
                             | _, _ => True
                             end) l.

(** ** Sample sheets *)

(** A row with every cell filled. *)
Definition post (c : string) (y : Z) (title host : string) (rank : Z) : RawPost :=
  {| COUNTRY := Some c; Year := Some y; POST_TYPE_TITLE := Some title;
     POST_COUNTRY := Some host; OVERALL_RANK := Some rank;
     POPULATION := Some (10 # 1); GDP := Some (25 # 1) |}.

(** Country A with 5 posts in 2020 and 3 in 2021, country B with 2 posts
    in 2020 and 6 in 2021. *)
Definition two_countries : list RawPost :=
  [post "A" 2020 "Embassy" "X" 1; post "B" 2021 "Consulate" "Y" 2;
   post "A" 2020 "Embassy" "Y" 1; post "A" 2020 "Trade Office" "X" 1;
   post "A" 2021 "Embassy" "X" 1; post "B" 2020 "Consulate" "X" 2;
   post "A" 2020 "Consulate General" "Z" 1; post "B" 2021 "Embassy" "X" 2;
   post "A" 2020 "High Commission" "X" 1; post "A" 2021 "Embassy" "Y" 1;
   post "B" 2021 "Consulate" "Z" 2; post "B" 2020 "Embassy" "Y" 2;
   post "B" 2021 "Consulate" "Y" 2; post "A" 2021 "Consulate" "Z" 1;
   post "B" 2021 "Consulate General" "Y" 2; post "B" 2021 "Embassy" "W" 2].

(** Country C with an embassy, a consulate general and a trade office,
    country D with a trade office only; both with overall rank 2. *)
Definition shared_rank : list RawPost :=
  [post "D" 2020 "Trade Office" "X" 2; post "C" 2020 "Embassy" "X" 2;
   post "E" 2020 "Embassy" "Y" 1; post "C" 2020 "Consulate General" "Y" 2;
   post "C" 2020 "Trade Office" "Z" 2].

(** Two countries over the years 2018 to 2021. *)
Definition four_years : list RawPost :=
  [post "A" 2018 "Embassy" "X" 1; post "B" 2018 "Embassy" "X" 2;
   post "A" 2019 "Embassy" "X" 1; post "B" 2019 "Embassy" "X" 2;
   post "A" 2020 "Embassy" "X" 1; post "B" 2021 "Embassy" "X" 2;
   post "A" 2021 "Embassy" "X" 1; post "C" 2020 "Embassy" "X" 3].

(** Ten countries with one post each in 2020. *)
Definition ten_countries : list RawPost :=
  map (fun i => post (str i) 2020 "Embassy" "X" i)
      [1; 2; 3; 4; 5; 6; 7; 8; 9; 10].

(** China and France in 2020 and 2021, Brazil in 2021 only. *)
Definition with_china : list RawPost :=
  [post "France" 2020 "Embassy" "X" 2; post "China" 2020 "Embassy" "X" 1;
   post "China" 2021 "Embassy" "Y" 1; post "Brazil" 2021 "Embassy" "X" 3;
   post "France" 2021 "Consulate" "Y" 2; post "China" 2021 "Consulate" "X" 1].

(** A latest year with one country only. *)
Definition lone_country : list RawPost :=
  [post "A" 2020 "Embassy" "X" 1; post "B" 2020 "Embassy" "X" 2;
   post "A" 2021 "Embassy" "Y" 1].


(** Sheets with empty cells. *)

(** Four rows of the year 2020, the third without a country. *)
Definition no_country : list RawPost :=
  [post "A" 2020 "Embassy" "X" 1; post "A" 2020 "Consulate" "Y" 1;
   {| COUNTRY := None; Year := Some 2020; POST_TYPE_TITLE := Some "Embassy";
      POST_COUNTRY := Some "X"; OVERALL_RANK := Some 3;
      POPULATION := Some (10 # 1); GDP := Some (25 # 1) |};
   post "B" 2020 "Embassy" "X" 2].

(** Three rows, the second without a year. *)
Definition no_year : list RawPost :=
  [post "A" 2020 "Embassy" "X" 1;
   {| COUNTRY := Some "A"; Year := None; POST_TYPE_TITLE := Some "Embassy";
      POST_COUNTRY := Some "Y"; OVERALL_RANK := Some 1;
      POPULATION := Some (10 # 1); GDP := Some (25 # 1) |};
   post "B" 2021 "Embassy" "X" 2].

(** Country A with an embassy, country B with one post whose post type
    is empty. *)
Definition no_label : list RawPost :=
  [post "A" 2020 "Embassy" "X" 1;
   {| COUNTRY := Some "B"; Year := Some 2020; POST_TYPE_TITLE := None;
      POST_COUNTRY := Some "X"; OVERALL_RANK := Some 2;
      POPULATION := Some (10 # 1); GDP := Some (25 # 1) |}].

(** Country A with three posts in 2020, the second without a host
    country. *)
Definition no_host : list RawPost :=
  [post "A" 2020 "Embassy" "X" 1;
   {| COUNTRY := Some "A"; Year := Some 2020; POST_TYPE_TITLE := Some "Embassy";
      POST_COUNTRY := None; OVERALL_RANK := Some 1;
      POPULATION := Some (10 # 1); GDP := Some (25 # 1) |};
   post "A" 2020 "Consulate" "X" 1].

(** The latest year, 2021, with a row of country A and a row without a
    country. *)
Definition latest_without_country : list RawPost :=
  [post "A" 2020 "Embassy" "X" 1; post "B" 2020 "Embassy" "X" 2;
   post "A" 2021 "Embassy" "X" 1;
   {| COUNTRY := None; Year := Some 2021; POST_TYPE_TITLE := Some "Embassy";
      POST_COUNTRY := Some "X"; OVERALL_RANK := Some 3;
      POPULATION := Some (10 # 1); GDP := Some (25 # 1) |}].

(** The latest year, 2022, with rows without a country only. *)
Definition latest_unnamed : list RawPost :=
  [post "A" 2020 "Embassy" "X" 1; post "B" 2020 "Embassy" "X" 2;
   {| COUNTRY := None; Year := Some 2022; POST_TYPE_TITLE := Some "Embassy";
      POST_COUNTRY := Some "X"; OVERALL_RANK := Some 3;
      POPULATION := Some (10 # 1); GDP := Some (25 # 1) |}].

(** A property of every row of a sample sheet, shown row by row. *)
Ltac each_row r H :=
  intros r H; repeat (destruct H as [<-|H]; [try discriminate|]);
  try contradiction.

(** * Facts *)

(** ** Equality tests and labels *)

Lemma key_eqb_spec (a b : string * Z) : key_eqb a b = true <-> a = b.
Proof.
  destruct a as [c y], b as [c' y']. unfold key_eqb. cbn [fst snd].
  rewrite andb_true_iff, String.eqb_eq, Z.eqb_eq.
  split; [intros [-> ->]; reflexivity|].
  intros H. inversion H. auto.
Qed.

Lemma same_pair_spec (c : string) (y : Z) (r : RawPost) :
  same_pair c y r
  = match country_year r with
    | Some k => key_eqb k (c, y)
    | None => false
    end.
Proof.
  unfold same_pair, country_year, str_is, int_is.
  destruct (COUNTRY r) as [c'|], (Year r) as [y'|]; try reflexivity.
  now rewrite andb_false_r.
Qed.

Lemma same_pair_true (c : string) (y : Z) (r : RawPost) :
  same_pair c y r = true <-> COUNTRY r = Some c /\ Year r = Some y.
Proof.
  unfold same_pair, str_is, int_is.
  destruct (COUNTRY r) as [c'|], (Year r) as [y'|]; cbn [andb];
    rewrite ?andb_false_r.
  - rewrite andb_true_iff, String.eqb_eq, Z.eqb_eq.
    split; [intros [-> ->]; split; reflexivity|].
    intros [H1 H2]. inversion H1. inversion H2. split; reflexivity.
  - split; [discriminate|]. intros [_ H]. discriminate H.
  - split; [discriminate|]. intros [H _]. discriminate H.
  - split; [discriminate|]. intros [H _]. discriminate H.
Qed.

Lemma str_is_true (cell : option string) (v : string) :
  str_is cell v = true <-> cell = Some v.
Proof.
  destruct cell as [x|]; cbn [str_is].
  - rewrite String.eqb_eq. split; [now intros ->|]. intros H. now inversion H.
  - split; discriminate.
Qed.

Lemma int_is_true (cell : option Z) (v : Z) :
  int_is cell v = true <-> cell = Some v.
Proof.
  destruct cell as [x|]; cbn [int_is].
  - rewrite Z.eqb_eq. split; [now intros ->|]. intros H. now inversion H.
  - split; discriminate.
Qed.

Lemma notna_true {A : Type} (cell : option A) :
  notna cell = true <-> exists x, cell = Some x.
Proof.
  destruct cell as [x|]; cbn [notna].
  - split; [intros _; now exists x|reflexivity].
  - split; [discriminate|]. intros [x H]. discriminate H.
Qed.

Lemma dropna_In {A : Type} (cells : list (option A)) (x : A) :
  In x (dropna cells) <-> In (Some x) cells.
Proof.
  induction cells as [|[y|] cells IH]; cbn [dropna In].
  - tauto.
  - rewrite IH. split; intros [H|H]; try tauto.
    + left. now subst.
    + left. now inversion H.
  - rewrite IH. split; [tauto|]. intros [H|H]; [discriminate H|exact H].
Qed.

(** The rows [groupby] keeps are the rows that have a key. *)
Lemma with_key_In {A K : Type} (key : A -> option K) (rows : list A)
  (k : K) (r : A) :
  In (k, r) (with_key key rows) <-> In r rows /\ key r = Some k.
Proof.
  induction rows as [|x rows IH]; cbn [with_key In]; [tauto|].
  destruct (key x) as [k'|] eqn:E; cbn [In]; rewrite IH.
  - split.
    + intros [H|H]; [inversion H; subst; tauto|tauto].
    + intros [[->|H] Hk]; [left; congruence|tauto].
  - split; [tauto|]. intros [[->|H] Hk]; [congruence|tauto].
Qed.

Lemma with_key_length {A K : Type} (key : A -> option K) (rows : list A) :
  List.length (with_key key rows)
  = List.length (filter (fun r => notna (key r)) rows).
Proof.
  induction rows as [|x rows IH]; [reflexivity|]. cbn [with_key filter].
  destruct (key x); cbn [notna List.length]; now rewrite IH.
Qed.

Lemma country_year_Some (r : RawPost) (c : string) (y : Z) :
  country_year r = Some (c, y) <-> COUNTRY r = Some c /\ Year r = Some y.
Proof.
  unfold country_year. destruct (COUNTRY r) as [c'|], (Year r) as [y'|].
  - split; [intros H; inversion H; tauto|]. intros [H1 H2].
    inversion H1. inversion H2. reflexivity.
  - split; [discriminate|]. intros [_ H]. discriminate H.
  - split; [discriminate|]. intros [H _]. discriminate H.
  - split; [discriminate|]. intros [H _]. discriminate H.
Qed.

Lemma has_keys_spec (r : RawPost) : has_keys r = notna (country_year r).
Proof.
  unfold has_keys, country_year. now destruct (COUNTRY r), (Year r).
Qed.

Lemma to_int_proper (z : Z) :
  Z.to_int z <> Decimal.Pos Decimal.Nil /\ Z.to_int z <> Decimal.Neg Decimal.Nil.
Proof.
  destruct z as [|p|p]; cbn [Z.to_int]; split; try discriminate;
    intros H; inversion H as [H']; now apply Unsigned.to_uint_nonnil in H'.
Qed.

(** [str] gives distinct integers distinct labels. *)
Lemma str_inj (a b : Z) : str a = str b -> a = b.
Proof.
  unfold str. intros H.
  destruct (to_int_proper a) as [Ha1 Ha2], (to_int_proper b) as [Hb1 Hb2].
  assert (E : Some (Z.to_int a) = Some (Z.to_int b)).
  { rewrite <- (NilZero.isi _ Ha1 Ha2), <- (NilZero.isi _ Hb1 Hb2).
    now rewrite H. }
  inversion E as [E'].
  rewrite <- (DecimalZ.of_to a), <- (DecimalZ.of_to b). now rewrite E'.
Qed.

Lemma str_eqb (a b : Z) : String.eqb (str a) (str b) = (a =? b).
Proof.
  destruct (Z.eqb_spec a b) as [->|Hne].
  - apply String.eqb_refl.
  - apply String.eqb_neq. intros H. now apply Hne, str_inj.
Qed.

Lemma append_length (s u : string) :
  String.length (String.append s u) = (String.length s + String.length u)%nat.
Proof. induction s as [|a s IH]; [reflexivity|]. cbn. now rewrite IH. Qed.

Lemma append_inj_l (s t u : string) :
  String.append s u = String.append t u -> s = t.
Proof.
  revert t. induction s as [|a s IH]; intros [|b t] H; cbn in H.
  - reflexivity.
  - apply (f_equal String.length) in H. cbn in H.
    rewrite append_length in H. lia.
  - apply (f_equal String.length) in H. cbn in H.
    rewrite append_length in H. lia.
  - inversion H; subst. f_equal. now apply IH.
Qed.

(** Whichever way the years are held, [str] gives distinct years
    distinct labels. *)
Lemma str_label_inj (d : dtype) (a b : Z) : str_label d a = str_label d b -> a = b.
Proof.
  destruct d; cbn [str_label]; intros H.
  - now apply str_inj.
  - now apply str_inj, (append_inj_l _ _ ".0").
Qed.

Lemma str_label_eqb (d : dtype) (a b : Z) :
  String.eqb (str_label d a) (str_label d b) = (a =? b).
Proof.
  destruct (Z.eqb_spec a b) as [->|Hne].
  - apply String.eqb_refl.
  - apply String.eqb_neq. intros H. now apply Hne, (str_label_inj d).
Qed.

(** ** Sums and rearrangements *)

Lemma sumZ_app (l l' : list Z) : sumZ (l ++ l') = sumZ l + sumZ l'.
Proof. induction l as [|x l IH]; simpl; lia. Qed.

Lemma sumZ_perm (l l' : list Z) : Permutation l l' -> sumZ l = sumZ l'.
Proof. induction 1; simpl in *; lia. Qed.

Section InsertionSortFacts.
Context {A : Type} (leb : A -> A -> bool).

Lemma insert_by_perm (x : A) (l : list A) :
  Permutation (x :: l) (insert_by leb x l).
Proof.
  induction l as [|y l IH]; simpl.
  - apply Permutation_refl.
  - destruct (leb x y).
    + apply Permutation_refl.
    + eapply perm_trans; [apply perm_swap|]. now apply perm_skip.
Qed.

Lemma sort_by_perm (l : list A) : Permutation l (sort_by leb l).
Proof.
  induction l as [|x l IH]; simpl.
  - constructor.
  - eapply perm_trans; [apply perm_skip, IH|]. apply insert_by_perm.
Qed.

Lemma sort_by_In (l : list A) (x : A) : In x (sort_by leb l) <-> In x l.
Proof.
  split; apply Permutation_in; [apply Permutation_sym|]; apply sort_by_perm.
Qed.

(** The result is in order, for a total and transitive order. *)
Variable R : A -> A -> Prop.
Hypothesis leb_true : forall a b, leb a b = true -> R a b.
Hypothesis leb_false : forall a b, leb a b = false -> R b a.
Hypothesis R_trans : forall a b c, R a b -> R b c -> R a c.

Lemma insert_by_sorted (x : A) (l : list A) :
  StronglySorted R l -> StronglySorted R (insert_by leb x l).
Proof.
  induction 1 as [|y l Hs IH Hy]; cbn [insert_by].
  - repeat constructor.
  - destruct (leb x y) eqn:E.
    + constructor; [now constructor|].
      constructor; [now apply leb_true|].
      eapply Forall_impl; [|exact Hy].
      intros z Hz. eapply R_trans; [apply leb_true, E|exact Hz].
    + constructor; [exact IH|].
      eapply Permutation_Forall; [apply insert_by_perm|].
      constructor; [now apply leb_false|exact Hy].
Qed.

Lemma sort_by_sorted (l : list A) : StronglySorted R (sort_by leb l).
Proof.
  induction l as [|x l IH]; cbn [sort_by].
  - constructor.
  - now apply insert_by_sorted.
Qed.

End InsertionSortFacts.

(** Insertion sort by the key is a [sort_values]. *)
Lemma insertion_sort_values_perm (A : Type) (key : A -> Z) (ascending : bool)
  (l : list A) :
  Permutation l (insertion_sort_values A key ascending l).
Proof. apply sort_by_perm. Qed.

Lemma insertion_sort_values_ordered (A : Type) (key : A -> Z) (ascending : bool)
  (l : list A) :
  ordered_by key ascending (insertion_sort_values A key ascending l).
Proof.
  unfold ordered_by, insertion_sort_values.
  apply sort_by_sorted; destruct ascending; intros; lia.
Qed.

(** ** Grouping *)

Section GroupByFacts.
Context {K V : Type} (eqb : K -> K -> bool).
Hypothesis eqb_spec : forall a b, eqb a b = true <-> a = b.

Lemma eqb_same (a : K) : eqb a a = true.
Proof. now apply eqb_spec. Qed.

Lemma add_to_group_total (k : K) (v : V) gs :
  group_total (add_to_group eqb k v gs) = 1 + group_total gs.
Proof.
  unfold group_total, sumZ.
  induction gs as [|[k' vs] gs IH]; cbn [add_to_group].
  - reflexivity.
  - destruct (eqb k k'); cbn [map fold_right snd List.length] in *;
      rewrite ?Nat2Z.inj_succ; lia.
Qed.

Lemma collect_total (rows : list (K * V)) :
  group_total (collect eqb rows) = Z.of_nat (List.length rows).
Proof.
  induction rows as [|[k v] rows IH].
  - reflexivity.
  - cbn [collect]. rewrite add_to_group_total, IH.
    cbn [List.length]. rewrite Nat2Z.inj_succ. lia.
Qed.

Lemma add_to_group_keys (k : K) (v : V) gs :
  In k (map fst gs) ->
  map fst (add_to_group eqb k v gs) = map fst gs.
Proof.
  induction gs as [|[k' vs] gs IH]; simpl; intros Hin.
  - contradiction.
  - destruct (eqb k k') eqn:E; simpl; [reflexivity|].
    f_equal. apply IH. destruct Hin as [->|Hin]; [|exact Hin].
    rewrite eqb_same in E. discriminate.
Qed.

Lemma add_to_group_keys_new (k : K) (v : V) gs :
  ~ In k (map fst gs) ->
  map fst (add_to_group eqb k v gs) = map fst gs ++ [k].
Proof.
  induction gs as [|[k' vs] gs IH]; simpl; intros Hin.
  - reflexivity.
  - destruct (eqb k k') eqn:E.
    + apply eqb_spec in E. subst. tauto.
    + simpl. f_equal. apply IH. tauto.
Qed.

Lemma add_to_group_In (k : K) (v : V) gs k0 vs0 :
  In (k0, vs0) (add_to_group eqb k v gs) ->
  NoDup (map fst gs) ->
  (k0 = k /\ ((exists vs, vs0 = v :: vs /\ In (k, vs) gs)
              \/ (vs0 = [v] /\ ~ In k (map fst gs))))
  \/ (k0 <> k /\ In (k0, vs0) gs).
Proof.
  induction gs as [|[k' vs] gs IH]; simpl; intros Hin Hnd.
  - destruct Hin as [Hin|[]]. inversion Hin; subst. left. split; [reflexivity|].
    right. split; [reflexivity|]. tauto.
  - inversion Hnd as [|? ? Hnotin Hnd']; subst.
    destruct (eqb k k') eqn:E.
    + apply eqb_spec in E. subst k'.
      destruct Hin as [Hin|Hin].
      * inversion Hin; subst. left. split; [reflexivity|].
        left. exists vs. split; [reflexivity|]. now left.
      * right. split; [|now right].
        intros ->. apply Hnotin.
        change k with (fst (k, vs0)). now apply in_map.
    + assert (Hne : k' <> k).
      { intros ->. rewrite eqb_same in E. discriminate. }
      destruct Hin as [Hin|Hin].
      * inversion Hin; subst. right. split; [exact Hne|now left].
      * destruct (IH Hin Hnd') as [[-> [[vs' [-> Hv]]|[-> Hn]]]|[Hne' Hv]].
        -- left. split; [reflexivity|]. left. exists vs'.
           split; [reflexivity|now right].
        -- left. split; [reflexivity|]. right. split; [reflexivity|].
           intros [Hk|Hk]; [now apply Hne|now apply Hn].
        -- right. split; [exact Hne'|now right].
Qed.

Lemma key_in_dec (k : K) (l : list K) : {In k l} + {~ In k l}.
Proof.
  apply in_dec. intros a b. destruct (eqb a b) eqn:E.
  - left. now apply eqb_spec.
  - right. intros ->. rewrite eqb_same in E. discriminate.
Qed.

Lemma collect_keys_NoDup (rows : list (K * V)) :
  NoDup (map fst (collect eqb rows)).
Proof.
  induction rows as [|[k v] rows IH]; cbn [collect].
  - constructor.
  - destruct (key_in_dec k (map fst (collect eqb rows))) as [Hin|Hin].
    + now rewrite add_to_group_keys.
    + rewrite add_to_group_keys_new by exact Hin.
      apply NoDup_rev in IH. rewrite <- (rev_involutive (_ ++ [k])).
      apply NoDup_rev. rewrite rev_app_distr. simpl.
      constructor; [|exact IH]. now rewrite <- in_rev.
Qed.

Lemma collect_keys (rows : list (K * V)) k :
  In k (map fst (collect eqb rows)) <-> In k (map fst rows).
Proof.
  induction rows as [|[k' v] rows IH]; cbn [collect].
  - reflexivity.
  - destruct (key_in_dec k' (map fst (collect eqb rows))) as [Hin|Hin].
    + rewrite add_to_group_keys by exact Hin. simpl.
      rewrite IH. split; [tauto|]. intros [->|H]; [now apply IH|exact H].
    + rewrite add_to_group_keys_new by exact Hin. simpl.
      rewrite in_app_iff, IH. simpl. tauto.
Qed.

(** The group of a key holds exactly the rows of that key, in input
    order, and is not empty. *)
Lemma collect_group (rows : list (K * V)) k vs :
  In (k, vs) (collect eqb rows) ->
  vs = map snd (filter (fun kv => eqb (fst kv) k) rows) /\ vs <> [].
Proof.
  revert k vs.
  induction rows as [|[k' v] rows IH]; cbn [collect]; intros k vs Hin.
  - contradiction.
  - apply add_to_group_In in Hin; [|apply collect_keys_NoDup].
    cbn [filter fst].
    destruct Hin as [[-> [[vs' [-> Hv]]|[-> Hn]]]|[Hne Hv]].
    + rewrite eqb_same. simpl. split; [|discriminate].
      f_equal. now apply IH.
    + rewrite eqb_same. simpl. split; [|discriminate]. f_equal.
      assert (Hnone : forall kv, In kv rows -> eqb (fst kv) k' = false).
      { intros kv Hkv. destruct (eqb (fst kv) k') eqn:E'; [|reflexivity].
        apply eqb_spec in E'. exfalso. apply Hn. apply collect_keys.
        rewrite <- E'. now apply in_map. }
      clear - Hnone. induction rows as [|kv rows IH]; [reflexivity|].
      simpl. rewrite Hnone by now left. apply IH.
      intros kv' H. apply Hnone. now right.
    + destruct (eqb k' k) eqn:E.
      * apply eqb_spec in E. congruence.
      * now apply IH.
Qed.

(** Every key of the input has its group. *)
Lemma collect_has_group (rows : list (K * V)) k :
  In k (map fst rows) -> exists vs, In (k, vs) (collect eqb rows).
Proof.
  intros H. apply collect_keys, in_map_iff in H.
  destruct H as [[k' vs] [E H]]. simpl in E. subst. now exists vs.
Qed.

(** In a list of distinct keys, [assoc] finds the value of a pair. *)
Lemma assoc_In (l : list (K * V)) k v :
  NoDup (map fst l) -> In (k, v) l -> assoc eqb k l = Some v.
Proof.
  induction l as [|[k' v'] l IH]; simpl; intros Hnd Hin.
  - contradiction.
  - inversion Hnd as [|? ? Hnotin Hnd']; subst.
    destruct Hin as [Hin|Hin].
    + inversion Hin; subst. now rewrite eqb_same.
    + destruct (eqb k k') eqn:E; [|now apply IH].
      apply eqb_spec in E. subst. exfalso. apply Hnotin.
      change k' with (fst (k', v)). now apply in_map.
Qed.

Lemma assoc_Some (l : list (K * V)) k v :
  assoc eqb k l = Some v -> In (k, v) l.
Proof.
  induction l as [|[k' v'] l IH]; simpl; intros H.
  - discriminate.
  - destruct (eqb k k') eqn:E.
    + apply eqb_spec in E. inversion H; subst. now left.
    + right. now apply IH.
Qed.

Lemma assoc_None (l : list (K * V)) k :
  assoc eqb k l = None <-> ~ In k (map fst l).
Proof.
  induction l as [|[k' v'] l IH]; simpl.
  - tauto.
  - destruct (eqb k k') eqn:E.
    + apply eqb_spec in E. subst. split; [discriminate|tauto].
    + rewrite IH. split; [|tauto]. intros H [Hk|Hk]; [|tauto].
      subst. rewrite eqb_same in E. discriminate.
Qed.

End GroupByFacts.

Section GroupBySorted.
Context {K V : Type} (eqb leb : K -> K -> bool).
Hypothesis eqb_spec : forall a b, eqb a b = true <-> a = b.

Lemma groupby_total (rows : list (K * V)) :
  group_total (groupby eqb leb rows) = Z.of_nat (List.length rows).
Proof.
  rewrite <- (collect_total eqb rows). unfold group_total, groupby.
  apply sumZ_perm, Permutation_map, Permutation_sym, sort_by_perm.
Qed.

Lemma groupby_In (rows : list (K * V)) g :
  In g (groupby eqb leb rows) <-> In g (collect eqb rows).
Proof. apply sort_by_In. Qed.

Lemma groupby_keys_NoDup (rows : list (K * V)) :
  NoDup (map fst (groupby eqb leb rows)).
Proof.
  eapply Permutation_NoDup; [|apply (collect_keys_NoDup eqb eqb_spec rows)].
  apply Permutation_map, sort_by_perm.
Qed.

End GroupBySorted.

(** ** The long form *)

Lemma keyed_group_size (df_detail : list RawPost) (c : string) (y : Z) :
  List.length (map snd (filter (fun kv => key_eqb (fst kv) (c, y))
                               (keyed df_detail)))
  = List.length (filter (same_pair c y) df_detail).
Proof.
  rewrite length_map. unfold keyed.
  induction df_detail as [|r rs IH]; [reflexivity|].
  cbn [with_key filter]. rewrite same_pair_spec.
  destruct (country_year r) as [k|]; [|exact IH].
  cbn [filter fst].
  destruct (key_eqb k (c, y)); cbn [List.length]; now rewrite IH.
Qed.

Lemma df_long_of_In (df_detail : list RawPost) (row : LongRow) :
  In row (df_long_of df_detail) <->
  exists vs, In (long_key row, vs) (collect key_eqb (keyed df_detail))
             /\ Posts row = Z.of_nat (List.length vs).
Proof.
  unfold df_long_of, size. rewrite map_map, in_map_iff. split.
  - intros [[k vs] [E H]]. cbn [fst snd] in E. subst row.
    apply groupby_In in H. exists vs.
    destruct k as [c y]. split; [exact H|reflexivity].
  - intros [vs [H E]]. exists (long_key row, vs). split.
    + destruct row as [c y p]. cbn [fst snd long_key Name LYear] in *.
      cbn [Posts] in E. now subst p.
    + now apply groupby_In.
Qed.

Lemma long_keys (df_detail : list RawPost) :
  map long_key (df_long_of df_detail)
  = map fst (groupby key_eqb key_leb (keyed df_detail)).
Proof.
  unfold df_long_of, size. rewrite !map_map. apply map_ext.
  intros [[c y] vs]. reflexivity.
Qed.

Lemma long_keys_NoDup (df_detail : list RawPost) :
  NoDup (map long_key (df_long_of df_detail)).
Proof. rewrite long_keys. apply groupby_keys_NoDup, key_eqb_spec. Qed.

(** A row of the long form counts the raw rows of its pair. *)
Lemma long_row_posts (df_detail : list RawPost) (row : LongRow) :
  In row (df_long_of df_detail) ->
  Posts row
  = Z.of_nat (List.length (filter (same_pair (Name row) (LYear row)) df_detail))
  /\ 0 < Posts row.
Proof.
  intros H. apply df_long_of_In in H. destruct H as [vs [H E]].
  apply (collect_group key_eqb key_eqb_spec) in H. destruct H as [Hvs Hne].
  rewrite E. split.
  - rewrite Hvs. unfold long_key. now rewrite keyed_group_size.
  - destruct vs; [contradiction|]. cbn [List.length]. lia.
Qed.

(** Every raw row with a country and a year has its row in the long
    form. *)
Lemma long_row_exists (df_detail : list RawPost) (r : RawPost)
  (c : string) (y : Z) :
  In r df_detail -> COUNTRY r = Some c -> Year r = Some y ->
  exists row, In row (df_long_of df_detail)
              /\ Name row = c /\ LYear row = y.
Proof.
  intros H Hc Hy.
  destruct (collect_has_group key_eqb key_eqb_spec (keyed df_detail) (c, y))
    as [vs Hvs].
  { unfold keyed. apply in_map_iff. exists ((c, y), r). split; [reflexivity|].
    apply with_key_In. split; [exact H|]. now apply country_year_Some. }
  exists {| Name := c; LYear := y; Posts := Z.of_nat (List.length vs) |}.
  split; [|split; reflexivity].
  apply df_long_of_In. exists vs. split; [exact Hvs|reflexivity].
Qed.

(** Two rows of the long form with the same pair are the same row. *)
Lemma long_row_unique (df_detail : list RawPost) (a b : LongRow) :
  In a (df_long_of df_detail) -> In b (df_long_of df_detail) ->
  Name a = Name b -> LYear a = LYear b -> a = b.
Proof.
  intros Ha Hb Hn Hy.
  destruct (long_row_posts _ _ Ha) as [Pa _], (long_row_posts _ _ Hb) as [Pb _].
  destruct a as [c y p], b as [c' y' p']. cbn [Name LYear Posts] in *.
  subst c' y'. f_equal. congruence.
Qed.

Lemma long_form_total (df_detail : list RawPost) :
  sumZ (map Posts (df_long_of df_detail))
  = Z.of_nat (List.length (filter has_keys df_detail)).
Proof.
  unfold df_long_of, size. rewrite !map_map. cbn [Posts snd].
  rewrite (filter_ext has_keys (fun r => notna (country_year r)))
    by apply has_keys_spec.
  rewrite <- with_key_length.
  rewrite <- (groupby_total key_eqb key_leb).
  reflexivity.
Qed.

Lemma filter_split_length {A : Type} (f : A -> bool) (l : list A) :
  (List.length l
   = List.length (filter f l) + List.length (filter (fun x => negb (f x)) l))%nat.
Proof.
  induction l as [|x l IH]; [reflexivity|]. cbn [filter].
  destruct (f x); cbn [negb List.length]; lia.
Qed.

(** C1 -- grouping completeness.  The rows that take part in a count
    are the raw rows that have a country and a year: [groupby] leaves
    out a row with an empty cell in either, and every count [size()]
    produces is a number, so the coercion of line 30 drops none.  The
    posts of the long form add up to the number of those rows, the
    rows left out being the rest of the sheet; each row of the long
    form has posts equal to the number of raw rows with exactly its
    country and year; the long form has one row per pair, and a row for
    every pair of a raw row.  On a sheet without an empty country or
    year the posts add up to the number of all raw rows. *)
Theorem grouping_completeness (df_detail : list RawPost) :
  sumZ (map Posts (df_long_of df_detail))
  = Z.of_nat (List.length (filter has_keys df_detail))
  /\ sumZ (map Posts (df_long_of df_detail))
     + Z.of_nat (List.length (filter (fun r => negb (has_keys r)) df_detail))
     = Z.of_nat (List.length df_detail)
  /\ (forall row, In row (df_long_of df_detail) ->
        Posts row = Z.of_nat (List.length
                      (filter (same_pair (Name row) (LYear row)) df_detail)))
  /\ NoDup (map long_key (df_long_of df_detail))
  /\ (forall r c y, In r df_detail -> COUNTRY r = Some c -> Year r = Some y ->
        exists row, In row (df_long_of df_detail)
                    /\ Name row = c /\ LYear row = y)
  /\ ((forall r, In r df_detail -> has_keys r = true) ->
      sumZ (map Posts (df_long_of df_detail)) = Z.of_nat (List.length df_detail)).
Proof.
  pose proof (long_form_total df_detail) as Htotal.
  pose proof (filter_split_length has_keys df_detail) as Hsplit.
  split; [exact Htotal|]. split; [lia|].
  split; [|split; [|split]].
  - intros row H. now apply long_row_posts.
  - apply long_keys_NoDup.
  - apply long_row_exists.
  - intros Hall. rewrite Htotal. do 2 f_equal.
    apply forallb_filter_id, forallb_forall. exact Hall.
Qed.

(** ** The required columns *)

Lemma has_required_spec (columns : list string) :
  forallb (fun col => existsb (String.eqb col) columns) required_cols = true
  <-> forall col, In col required_cols -> In col columns.
Proof.
  rewrite forallb_forall. split; intros H col Hc; specialize (H col Hc).
  - apply existsb_exists in H. destruct H as [x [Hx E]].
    apply String.eqb_eq in E. now subst.
  - apply existsb_exists. exists col. split; [exact H|apply String.eqb_refl].
Qed.

(** C8 -- the required columns.  Loading stops, with the one fatal stop
    of the script, exactly when one of COUNTRY, Year, OVERALL RANK is
    not a column of the sheet, whatever its rows; when all three are
    columns it yields the wide pivot, the long form and the detail rows,
    computed after the check. *)
Theorem required_columns_checked (sheet : Sheet) :
  (load_and_prepare_data sheet = Raise StreamlitStop
   <-> exists col, In col required_cols /\ ~ In col (sheet_columns sheet))
  /\ ((forall col, In col required_cols -> In col (sheet_columns sheet))
      <-> load_and_prepare_data sheet
          = Ok (df_wide_of (Year_dtype (sheet_rows sheet))
                           (df_long_of (sheet_rows sheet)),
                df_long_of (sheet_rows sheet), sheet_rows sheet))
  /\ (forall rows, load_and_prepare_data sheet = Raise StreamlitStop ->
        load_and_prepare_data
          {| sheet_columns := sheet_columns sheet; sheet_rows := rows |}
        = Raise StreamlitStop).
Proof.
  unfold load_and_prepare_data.
  pose proof (has_required_spec (sheet_columns sheet)) as Hspec.
  cbn [sheet_columns sheet_rows].
  destruct (forallb _ required_cols) eqn:E.
  - assert (Hall : forall col, In col required_cols ->
                               In col (sheet_columns sheet))
      by now apply Hspec.
    split; [|split].
    + split; [discriminate|]. intros [col [Hc Hn]]. exfalso. now apply Hn, Hall.
    + split; [reflexivity|]. intros _. exact Hall.
    + discriminate.
  - split; [|split].
    + split; [|reflexivity]. intros _.
      assert (Hex : Exists (fun col => ~ In col (sheet_columns sheet))
                           required_cols).
      { apply neg_Forall_Exists_neg.
        - intros col. destruct (in_dec string_dec col (sheet_columns sheet));
            [now left|now right].
        - intros HF. rewrite Forall_forall in HF.
          apply Hspec in HF. discriminate. }
      apply Exists_exists in Hex. exact Hex.
    + split; [|discriminate]. intros Hall. apply Hspec in Hall. discriminate.
    + reflexivity.
Qed.

(** ** Pivot tables *)

Lemma unique_In {A : Type} (eqb : A -> A -> bool)
  (eqb_spec : forall a b, eqb a b = true <-> a = b) (l : list A) (x : A) :
  In x (unique eqb l) <-> In x l.
Proof.
  induction l as [|y l IH]; [reflexivity|].
  cbn [unique]. destruct (existsb (eqb y) l) eqn:E.
  - rewrite IH. simpl. split; [tauto|]. intros [->|H]; [|exact H].
    apply existsb_exists in E. destruct E as [z [Hz Ez]].
    apply eqb_spec in Ez. now subst.
  - simpl. now rewrite IH.
Qed.

Lemma assoc_tabulate_In {K V : Type} (eqb : K -> K -> bool)
  (eqb_spec : forall a b, eqb a b = true <-> a = b)
  (f : K -> V) (l : list K) (k : K) :
  In k l -> assoc eqb k (map (fun i => (i, f i)) l) = Some (f k).
Proof.
  induction l as [|x l IH]; simpl; intros H; [contradiction|].
  destruct (eqb k x) eqn:E.
  - apply eqb_spec in E. now subst.
  - destruct H as [->|H]; [|now apply IH].
    assert (eqb k k = true) by now apply eqb_spec. congruence.
Qed.

Lemma assoc_tabulate_notin {K V : Type} (eqb : K -> K -> bool)
  (eqb_spec : forall a b, eqb a b = true <-> a = b)
  (f : K -> V) (l : list K) (k : K) :
  ~ In k l -> assoc eqb k (map (fun i => (i, f i)) l) = None.
Proof.
  intros H. apply (assoc_None eqb eqb_spec).
  now rewrite map_map, map_id.
Qed.

Lemma filter_unique_key {K V : Type} (eqb : K -> K -> bool)
  (eqb_spec : forall a b, eqb a b = true <-> a = b)
  (rows : list (K * V)) (k : K) (v : V) :
  NoDup (map fst rows) -> In (k, v) rows ->
  filter (fun kv => eqb (fst kv) k) rows = [(k, v)].
Proof.
  induction rows as [|[k' v'] rows IH]; simpl; intros Hnd Hin; [contradiction|].
  inversion Hnd as [|? ? Hnotin Hnd']; subst.
  assert (Hrest : forall kv, In kv rows -> fst kv <> k' ).
  { intros kv Hkv E. apply Hnotin. rewrite <- E. now apply in_map. }
  destruct Hin as [Hin|Hin].
  - inversion Hin; subst.
    replace (eqb k k) with true by (symmetry; now apply eqb_spec).
    f_equal. clear - Hrest eqb_spec.
    induction rows as [|kv rows IH]; [reflexivity|]. simpl.
    destruct (eqb (fst kv) k) eqn:E.
    + apply eqb_spec in E. exfalso. apply (Hrest kv); [now left|exact E].
    + apply IH. intros kv' H. apply Hrest. now right.
  - destruct (eqb k' k) eqn:E.
    + apply eqb_spec in E. subst. exfalso.
      apply (Hrest (k, v) Hin). reflexivity.
    + now apply IH.
Qed.

Lemma filter_key_none {K V : Type} (eqb : K -> K -> bool)
  (eqb_spec : forall a b, eqb a b = true <-> a = b)
  (rows : list (K * V)) (k : K) :
  ~ In k (map fst rows) -> filter (fun kv => eqb (fst kv) k) rows = [].
Proof.
  induction rows as [|[k' v] rows IH]; [reflexivity|].
  cbn [map fst filter In]. intros H.
  destruct (eqb k' k) eqn:E.
  - apply eqb_spec in E. tauto.
  - apply IH. tauto.
Qed.

Lemma mean_single (p : Z) : mean [p] = p # 1.
Proof. unfold mean. cbn [sumZ fold_right List.length Pos.of_nat]. f_equal. lia. Qed.

Section PivotFacts.
Context {I C : Type}.
Context (ieqb ileb : I -> I -> bool) (ceqb cleb : C -> C -> bool).
Hypothesis ieqb_spec : forall a b, ieqb a b = true <-> a = b.
Hypothesis ceqb_spec : forall a b, ceqb a b = true <-> a = b.

Lemma pair_eqb_spec (a b : I * C) : pair_eqb ieqb ceqb a b = true <-> a = b.
Proof.
  destruct a as [i c], b as [i' c']. unfold pair_eqb. cbn [fst snd].
  rewrite andb_true_iff, ieqb_spec, ceqb_spec.
  split; [intros [-> ->]; reflexivity|]. intros H. inversion H. auto.
Qed.

Lemma aggregated_single (rows : list ((I * C) * Z)) (i : I) (c : C) (p : Z) :
  NoDup (map fst rows) -> In ((i, c), p) rows ->
  assoc (pair_eqb ieqb ceqb) (i, c) (aggregated ieqb ceqb rows) = Some (p # 1).
Proof.
  intros Hnd Hin.
  destruct (collect_has_group _ pair_eqb_spec rows (i, c)) as [vs Hvs].
  { change (i, c) with (fst ((i, c), p)). now apply in_map. }
  apply (assoc_In _ pair_eqb_spec).
  - unfold aggregated. rewrite map_map. cbn [fst].
    apply (collect_keys_NoDup _ pair_eqb_spec).
  - destruct (collect_group _ pair_eqb_spec _ _ _ Hvs) as [E _].
    rewrite (filter_unique_key _ pair_eqb_spec rows (i, c) p Hnd Hin) in E.
    cbn [map snd] in E. subst vs.
    unfold aggregated. apply in_map_iff. exists ((i, c), [p]).
    split; [|exact Hvs]. cbn [fst snd]. now rewrite mean_single.
Qed.

Lemma aggregated_absent (rows : list ((I * C) * Z)) (i : I) (c : C) :
  ~ In (i, c) (map fst rows) ->
  assoc (pair_eqb ieqb ceqb) (i, c) (aggregated ieqb ceqb rows) = None.
Proof.
  intros H. apply (assoc_None _ pair_eqb_spec).
  unfold aggregated. rewrite map_map. cbn [fst].
  intros Hin. apply H.
  apply (proj1 (collect_keys _ pair_eqb_spec rows (i, c))). exact Hin.
Qed.

(** A cell of the pivot: absent without its row or its column, else the
    mean of the group of its pair, NaN when there is no such group. *)
Lemma pivot_cell_found (rows : list ((I * C) * Z)) (i : I) (c : C) :
  In i (map (fun r => fst (fst r)) rows) ->
  In c (map (fun r => snd (fst r)) rows) ->
  cell_at ieqb ceqb (pivot_table ieqb ileb ceqb cleb rows) i c
  = Some (assoc (pair_eqb ieqb ceqb) (i, c) (aggregated ieqb ceqb rows)).
Proof.
  intros Hi Hc. unfold cell_at, pivot_table.
  rewrite (assoc_tabulate_In ieqb ieqb_spec
             (fun i => map (fun c => (c, assoc (pair_eqb ieqb ceqb) (i, c)
                                           (aggregated ieqb ceqb rows))) _)).
  - apply (assoc_tabulate_In ceqb ceqb_spec
             (fun c => assoc (pair_eqb ieqb ceqb) (i, c) (aggregated ieqb ceqb rows))).
    now apply sort_by_In, unique_In.
  - now apply sort_by_In, unique_In.
Qed.

Lemma pivot_cell_no_row (rows : list ((I * C) * Z)) (i : I) (c : C) :
  ~ In i (map (fun r => fst (fst r)) rows) ->
  cell_at ieqb ceqb (pivot_table ieqb ileb ceqb cleb rows) i c = None.
Proof.
  intros Hi. unfold cell_at, pivot_table.
  rewrite (assoc_tabulate_notin ieqb ieqb_spec
             (fun i => map (fun c => (c, assoc (pair_eqb ieqb ceqb) (i, c)
                                           (aggregated ieqb ceqb rows))) _)).
  - reflexivity.
  - intros H. apply Hi. now apply sort_by_In, unique_In in H.
Qed.

Lemma pivot_cell_no_column (rows : list ((I * C) * Z)) (i : I) (c : C) :
  ~ In c (map (fun r => snd (fst r)) rows) ->
  cell_at ieqb ceqb (pivot_table ieqb ileb ceqb cleb rows) i c = None.
Proof.
  intros Hc. unfold cell_at, pivot_table.
  destruct (assoc ieqb i _) as [row|] eqn:E; [|reflexivity].
  apply (assoc_Some ieqb ieqb_spec) in E. apply in_map_iff in E.
  destruct E as [i' [E _]]. injection E as Ei Erow. subst row.
  apply (assoc_tabulate_notin ceqb ceqb_spec
           (fun c => assoc (pair_eqb ieqb ceqb) (i', c) (aggregated ieqb ceqb rows))).
  intros H. apply Hc. now apply sort_by_In, unique_In in H.
Qed.

(** With one value per pair, a cell of the pivot holds that value. *)
Lemma pivot_cell_value (rows : list ((I * C) * Z)) (i : I) (c : C) (p : Z) :
  NoDup (map fst rows) -> In ((i, c), p) rows ->
  cell_at ieqb ceqb (pivot_table ieqb ileb ceqb cleb rows) i c
  = Some (Some (p # 1)).
Proof.
  intros Hnd Hin. rewrite pivot_cell_found.
  - now rewrite (aggregated_single rows i c p).
  - apply in_map_iff. now exists ((i, c), p).
  - apply in_map_iff. now exists ((i, c), p).
Qed.

(** A pair with no value has no cell, or a NaN cell. *)
Lemma pivot_cell_missing (rows : list ((I * C) * Z)) (i : I) (c : C) :
  ~ In (i, c) (map fst rows) ->
  cell_at ieqb ceqb (pivot_table ieqb ileb ceqb cleb rows) i c = None
  \/ cell_at ieqb ceqb (pivot_table ieqb ileb ceqb cleb rows) i c = Some None.
Proof.
  intros H.
  destruct (key_in_dec ieqb ieqb_spec i (map (fun r => fst (fst r)) rows))
    as [Hi|Hi]; [|left; now apply pivot_cell_no_row].
  destruct (key_in_dec ceqb ceqb_spec c (map (fun r => snd (fst r)) rows))
    as [Hc|Hc]; [|left; now apply pivot_cell_no_column].
  right. rewrite pivot_cell_found by assumption.
  now rewrite aggregated_absent.
Qed.

End PivotFacts.

Section PivotLabels.
Context {I C : Type}.
Context (ieqb ileb : I -> I -> bool) (ceqb cleb : C -> C -> bool).
Hypothesis ieqb_spec : forall a b, ieqb a b = true <-> a = b.
Hypothesis ceqb_spec : forall a b, ceqb a b = true <-> a = b.

(** The row labels of a pivot are the index values of its input. *)
Lemma pivot_index (rows : list ((I * C) * Z)) (i : I) :
  In i (map fst (pivot_table ieqb ileb ceqb cleb rows))
  <-> In i (map (fun r => fst (fst r)) rows).
Proof.
  unfold pivot_table. rewrite map_map. cbn [fst]. rewrite map_id.
  rewrite sort_by_In. now apply unique_In.
Qed.

(** The column labels of every row are the column values of its input. *)
Lemma pivot_columns (rows : list ((I * C) * Z)) (row : I * list (C * option Q))
  (c : C) :
  In row (pivot_table ieqb ileb ceqb cleb rows) ->
  In c (map fst (snd row)) <-> In c (map (fun r => snd (fst r)) rows).
Proof.
  unfold pivot_table. intros H. apply in_map_iff in H.
  destruct H as [i [E _]]. subst row. cbn [snd].
  rewrite map_map. cbn [fst]. rewrite map_id.
  rewrite sort_by_In. now apply unique_In.
Qed.

End PivotLabels.

Lemma NoDup_map_filter {A B : Type} (k : A -> B) (f : A -> bool) (l : list A) :
  NoDup (map k l) -> NoDup (map k (filter f l)).
Proof.
  induction l as [|x l IH]; simpl; intros H; [constructor|].
  inversion H as [|? ? Hnotin Hnd]; subst.
  destruct (f x); [|now apply IH]. simpl. constructor; [|now apply IH].
  intros Hin. apply Hnotin. apply in_map_iff in Hin.
  destruct Hin as [y [E Hy]]. apply filter_In in Hy.
  rewrite <- E. apply in_map. tauto.
Qed.

Lemma NoDup_map_swap {A B : Type} (l : list (A * B)) :
  NoDup l -> NoDup (map (fun ab => (snd ab, fst ab)) l).
Proof.
  apply Finite.Injective_map_NoDup.
  intros [a b] [a' b'] E. inversion E. reflexivity.
Qed.

(** ** The wide pivot *)

Lemma long_cells_keys (df_long : list LongRow) :
  map fst (long_cells df_long) = map long_key df_long.
Proof. unfold long_cells. now rewrite map_map. Qed.

Lemma long_cells_absent (df_long : list LongRow) (c : string) (y : Z) :
  (forall p, ~ In {| Name := c; LYear := y; Posts := p |} df_long) ->
  ~ In (c, y) (map fst (long_cells df_long)).
Proof.
  intros H Hin. rewrite long_cells_keys in Hin. apply in_map_iff in Hin.
  destruct Hin as [[c' y' p] [E Hr]]. inversion E; subst.
  now apply (H p).
Qed.

(** Without an empty Year cell the labels are the [str] of the integers. *)
Lemma Year_dtype_filled (df_detail : list RawPost) (y : Z) :
  (forall r, In r df_detail -> Year r <> None) ->
  str_label (Year_dtype df_detail) y = str y.
Proof.
  intros H. unfold Year_dtype.
  replace (forallb (fun r => notna (Year r)) df_detail) with true; [reflexivity|].
  symmetry. apply forallb_forall. intros r Hr. specialize (H r Hr).
  destruct (Year r); [reflexivity|congruence].
Qed.

Lemma relabel_cells (d : dtype) (row : list (Z * option Q)) (y : Z) :
  assoc String.eqb (str_label d y)
        (map (fun cell => (str_label d (fst cell), snd cell)) row)
  = assoc Z.eqb y row.
Proof.
  induction row as [|[y' v] row IH]; [reflexivity|].
  cbn [map assoc fst snd]. rewrite str_label_eqb, IH. reflexivity.
Qed.

Lemma relabel_frame (d : dtype) (f : frame string Z) (c : string) (y : Z) :
  cell_at String.eqb String.eqb
    (map (fun row => (fst row,
                      map (fun cell => (str_label d (fst cell), snd cell))
                          (snd row))) f)
    c (str_label d y)
  = cell_at String.eqb Z.eqb f c y.
Proof.
  unfold cell_at. induction f as [|[c' row] f IH]; [reflexivity|].
  cbn [map assoc fst snd]. destruct (String.eqb c c'); [|exact IH].
  apply relabel_cells.
Qed.

(** C5 -- pivot symmetry.  For a pair of the long form with posts [p],
    the wide pivot holds [p] at the row of the country and the column
    labelled with the year as a string, the [str] of the year as the
    long form holds it; for a pair that is not in the long form the
    pivot has no such cell or a missing (NaN) one, never a number. *)
Theorem pivot_symmetry (df_detail : list RawPost) (c : string) (y : Z) :
  let df_long := df_long_of df_detail in
  let df_wide := df_wide_of (Year_dtype df_detail) df_long in
  let label := str_label (Year_dtype df_detail) y in
  (forall p,
      In {| Name := c; LYear := y; Posts := p |} df_long ->
      cell_at String.eqb String.eqb df_wide c label = Some (Some (p # 1)))
  /\ ((forall p, ~ In {| Name := c; LYear := y; Posts := p |} df_long) ->
      cell_at String.eqb String.eqb df_wide c label = None
      \/ cell_at String.eqb String.eqb df_wide c label = Some None)
  /\ ((forall r, In r df_detail -> Year r <> None) -> label = str y).
Proof.
  intros df_long df_wide label. subst df_long df_wide label.
  rewrite <- and_assoc. split; [|apply Year_dtype_filled].
  unfold df_wide_of. rewrite relabel_frame.
  fold (long_cells (df_long_of df_detail)). split.
  - intros p Hin.
    apply (pivot_cell_value String.eqb String.leb Z.eqb Z.leb
             String.eqb_eq Z.eqb_eq).
    + rewrite long_cells_keys. apply long_keys_NoDup.
    + unfold long_cells. apply in_map_iff.
      now exists {| Name := c; LYear := y; Posts := p |}.
  - intros Habs.
    apply (pivot_cell_missing String.eqb String.leb Z.eqb Z.leb
             String.eqb_eq Z.eqb_eq).
    now apply long_cells_absent.
Qed.

(** ** The trend pivot *)

Lemma trend_rows_In (df_long : list LongRow) (sel : list string)
  (excl : list Z) (r : LongRow) :
  In r (trend_rows df_long sel excl)
  <-> In r df_long /\ In (Name r) sel /\ ~ In (LYear r) excl.
Proof.
  unfold trend_rows. rewrite !filter_In, negb_true_iff.
  assert (Hs : existsb (String.eqb (Name r)) sel = true <-> In (Name r) sel).
  { rewrite existsb_exists. split.
    - intros [x [Hx E]]. apply String.eqb_eq in E. now subst.
    - intros H. exists (Name r). split; [exact H|apply String.eqb_refl]. }
  assert (He : existsb (Z.eqb (LYear r)) excl = false <-> ~ In (LYear r) excl).
  { rewrite <- not_true_iff_false, existsb_exists. split.
    - intros H Hin. apply H. exists (LYear r). split; [exact Hin|apply Z.eqb_refl].
    - intros H [x [Hx E]]. apply Z.eqb_eq in E. now subst. }
  rewrite Hs, He. tauto.
Qed.

Lemma trend_keys_NoDup (df_detail : list RawPost) (sel : list string)
  (excl : list Z) :
  NoDup (map fst (map (fun r => ((LYear r, Name r), Posts r))
                      (trend_rows (df_long_of df_detail) sel excl))).
Proof.
  rewrite map_map. cbn [fst].
  replace (map (fun r => (LYear r, Name r)) (trend_rows (df_long_of df_detail) sel excl))
    with (map (fun ab : string * Z => (snd ab, fst ab))
              (map long_key (trend_rows (df_long_of df_detail) sel excl)))
    by (rewrite map_map; reflexivity).
  apply NoDup_map_swap. unfold trend_rows.
  do 2 apply NoDup_map_filter. apply long_keys_NoDup.
Qed.

(** C9 -- the trend query.  The result has no row for an excluded year
    and no column for a country that was not asked for; at a year that
    is not excluded and a country asked for, it holds the posts of the
    pair when the long form has the pair; a pair that the long form
    does not have has no cell or a missing one. *)
Theorem trend_query_filters (df_detail : list RawPost)
  (selected_countries_comp : list string) (excluded : list Z) :
  let df_long := df_long_of df_detail in
  let trend := trend_pivot df_long selected_countries_comp excluded in
  (forall year, In year excluded -> ~ In year (map fst trend))
  /\ (forall country, ~ In country selected_countries_comp ->
        forall row, In row trend -> ~ In country (map fst (snd row)))
  /\ (forall year country p,
        ~ In year excluded -> In country selected_countries_comp ->
        In {| Name := country; LYear := year; Posts := p |} df_long ->
        cell_at Z.eqb String.eqb trend year country = Some (Some (p # 1)))
  /\ (forall year country,
        (forall p, ~ In {| Name := country; LYear := year; Posts := p |} df_long) ->
        cell_at Z.eqb String.eqb trend year country = None
        \/ cell_at Z.eqb String.eqb trend year country = Some None).
Proof.
  intros df_long trend. subst trend. unfold trend_pivot.
  fold (trend_rows df_long selected_countries_comp excluded).
  split; [|split; [|split]].
  - intros year Hex Hin.
    apply (pivot_index Z.eqb Z.leb String.eqb String.leb Z.eqb_eq) in Hin.
    rewrite map_map in Hin. cbn [fst] in Hin. apply in_map_iff in Hin.
    destruct Hin as [r [E Hr]]. apply trend_rows_In in Hr. subst year. tauto.
  - intros country Hsel row Hrow Hin.
    apply (pivot_columns Z.eqb Z.leb String.eqb String.leb String.eqb_eq _ _ _ Hrow)
      in Hin.
    rewrite map_map in Hin. cbn [fst snd] in Hin. apply in_map_iff in Hin.
    destruct Hin as [r [E Hr]]. apply trend_rows_In in Hr. subst country. tauto.
  - intros year country p Hex Hsel Hin.
    apply (pivot_cell_value Z.eqb Z.leb String.eqb String.leb Z.eqb_eq String.eqb_eq).
    + apply trend_keys_NoDup.
    + apply in_map_iff. exists {| Name := country; LYear := year; Posts := p |}.
      split; [reflexivity|]. apply trend_rows_In. cbn [Name LYear]. tauto.
  - intros year country Habs.
    apply (pivot_cell_missing Z.eqb Z.leb String.eqb String.leb Z.eqb_eq String.eqb_eq).
    rewrite map_map. cbn [fst]. intros Hin. apply in_map_iff in Hin.
    destruct Hin as [[c' y' p] [E Hr]]. cbn [Name LYear] in E. inversion E; subst.
    apply trend_rows_In in Hr. apply (Habs p). tauto.
Qed.

(** ** Ranks *)

Lemma count_greater_cons (v x : Z) (l : list Z) :
  count_greater v (x :: l)
  = (if v <? x then 1 else 0) + count_greater v l.
Proof.
  unfold count_greater. cbn [filter].
  destruct (v <? x); cbn [List.length]; rewrite ?Nat2Z.inj_succ; lia.
Qed.

Lemma count_greater_nonneg (v : Z) (l : list Z) : 0 <= count_greater v l.
Proof. unfold count_greater. lia. Qed.

Lemma count_greater_perm (v : Z) (l l' : list Z) :
  Permutation l l' -> count_greater v l = count_greater v l'.
Proof.
  induction 1; rewrite ?count_greater_cons in *; lia.
Qed.

Lemma count_greater_none (v : Z) (l : list Z) :
  Forall (fun x => x <= v) l -> count_greater v l = 0.
Proof.
  induction 1 as [|x l Hx _ IH]; [reflexivity|].
  rewrite count_greater_cons, IH.
  destruct (Z.ltb_spec v x); lia.
Qed.

(** A greater value has fewer values above it. *)
Lemma count_greater_mono (v w : Z) (l : list Z) :
  w <= v -> count_greater v l <= count_greater w l.
Proof.
  intros H. induction l as [|x l IH]; [reflexivity|].
  rewrite !count_greater_cons.
  destruct (Z.ltb_spec v x), (Z.ltb_spec w x); lia.
Qed.

Lemma count_greater_strict (v w : Z) (l : list Z) :
  w < v -> In v l -> count_greater v l < count_greater w l.
Proof.
  intros H. induction l as [|x l IH]; [contradiction|].
  rewrite !count_greater_cons. intros [->|Hin].
  - pose proof (count_greater_mono v w l ltac:(lia)).
    destruct (Z.ltb_spec v v), (Z.ltb_spec w v); lia.
  - specialize (IH Hin).
    destruct (Z.ltb_spec v x), (Z.ltb_spec w x); lia.
Qed.

Lemma descending_sorted (vals : list Z) : StronglySorted desc (descending vals).
Proof.
  unfold descending, desc. apply sort_by_sorted; intros; lia.
Qed.

Lemma descending_perm (vals : list Z) : Permutation vals (descending vals).
Proof. apply sort_by_perm. Qed.

(** The scan gives a value the position after the values above it,
    unless the value carried over from before is the same. *)
Lemma assign_min_spec (l : list Z) :
  StronglySorted desc l ->
  forall (prev : option (Z * Z)) (pos v : Z),
    (forall pv pr, prev = Some (pv, pr) -> Forall (fun x => x <= pv) l) ->
    In v l ->
    assoc Z.eqb v (assign_min prev pos l)
    = Some (match prev with
            | Some (pv, pr) => if v =? pv then pr else pos + count_greater v l
            | None => pos + count_greater v l
            end).
Proof.
  induction 1 as [|x l Hs IH Hx]; intros prev pos v Hprev Hin; [contradiction|].
  cbn [assign_min assoc].
  assert (Hall : Forall (fun y => y <= x) l).
  { eapply Forall_impl; [|exact Hx]. unfold desc. intros; lia. }
  destruct (Z.eqb_spec v x) as [->|Hne].
  - f_equal. rewrite count_greater_cons, (count_greater_none x l Hall).
    rewrite Z.ltb_irrefl.
    destruct prev as [[pv pr]|]; [|lia].
    destruct (x =? pv); [reflexivity|lia].
  - destruct Hin as [Hin|Hin]; [congruence|].
    assert (Hlt : v < x).
    { rewrite Forall_forall in Hall. specialize (Hall v Hin). lia. }
    rewrite (IH _ (pos + 1) v); [|intros pv pr E; inversion E; subst; exact Hall
                                 |exact Hin].
    f_equal. rewrite count_greater_cons.
    destruct (Z.eqb_spec v x) as [|_]; [congruence|].
    destruct (Z.ltb_spec v x); [|lia].
    destruct prev as [[pv pr]|]; [|lia].
    destruct (Z.eqb_spec v pv) as [->|_]; [|lia].
    specialize (Hprev pv pr eq_refl). inversion Hprev; subst. lia.
Qed.

(** The rank of a value is one more than the number of values above it. *)
Lemma rank_desc_min_spec (vals : list Z) :
  rank_desc_min vals = map (fun v => 1 + count_greater v vals) vals.
Proof.
  unfold rank_desc_min. apply map_ext_in. intros v Hin.
  rewrite (assign_min_spec _ (descending_sorted vals) None 1 v).
  - now rewrite <- (count_greater_perm v _ _ (descending_perm vals)).
  - discriminate.
  - eapply Permutation_in; [apply descending_perm|exact Hin].
Qed.

(** In descending order a value first occurs right after the values
    above it. *)
Lemma first_position (l : list Z) (v : Z) :
  StronglySorted desc l -> In v l ->
  exists pre post,
    l = pre ++ v :: post
    /\ Forall (fun x => v < x) pre
    /\ Z.of_nat (List.length pre) = count_greater v l.
Proof.
  induction 1 as [|x l Hs IH Hx]; intros Hin; [contradiction|].
  assert (Hall : Forall (fun y => y <= x) l).
  { eapply Forall_impl; [|exact Hx]. unfold desc. intros; lia. }
  destruct (Z.eq_dec x v) as [->|Hne].
  - exists [], l. split; [reflexivity|]. split; [constructor|].
    rewrite count_greater_cons, (count_greater_none v l Hall), Z.ltb_irrefl.
    reflexivity.
  - destruct Hin as [Hin|Hin]; [congruence|].
    destruct (IH Hin) as [pre [post [E [Hpre Hlen]]]].
    assert (Hlt : v < x).
    { rewrite Forall_forall in Hall. specialize (Hall v Hin). lia. }
    exists (x :: pre), post. split; [now rewrite E|].
    split; [now constructor|].
    rewrite count_greater_cons. cbn [List.length]. rewrite Nat2Z.inj_succ.
    destruct (Z.ltb_spec v x); lia.
Qed.

Lemma In_combine_map {A B : Type} (f : A -> B) (l : list A) (a : A) (b : B) :
  In (a, b) (combine l (map f l)) <-> In a l /\ b = f a.
Proof.
  induction l as [|x l IH]; simpl; [tauto|].
  rewrite IH. split.
  - intros [E|H]; [inversion E; subst; tauto|tauto].
  - intros [[->|H] ->]; [now left|right; tauto].
Qed.

Lemma ranked_In (rows : list LongRow) (a : LongRow) (ra : Z) :
  In (a, ra) (ranked rows)
  <-> In a rows /\ ra = 1 + count_greater (Posts a) (map Posts rows).
Proof.
  unfold ranked. rewrite rank_desc_min_spec, map_map.
  apply (In_combine_map (fun r => 1 + count_greater (Posts r) (map Posts rows))).
Qed.

(** C2 -- rank monotonicity.  Within a year every country of the long
    form gets a rank; more posts never give a larger rank; equal posts
    give the same rank; and the rank is the position, counted from 1, at
    which the country's post count first occurs when the counts of the
    year are put in descending order, all counts before it being
    strictly greater. *)
Theorem rank_monotone (df : list LongRow) (year : Z) :
  let rows := year_rows df year in
  (forall a, In a rows -> exists ra, In (a, ra) (ranked rows))
  /\ (forall a ra b rb,
        In (a, ra) (ranked rows) -> In (b, rb) (ranked rows) ->
        (Posts a > Posts b -> ra <= rb)
        /\ (Posts a = Posts b -> ra = rb)
        /\ exists pre post,
             descending (map Posts rows) = pre ++ Posts a :: post
             /\ Forall (fun x => Posts a < x) pre
             /\ ra = Z.of_nat (List.length pre) + 1).
Proof.
  intros rows. split.
  - intros a Ha. exists (1 + count_greater (Posts a) (map Posts rows)).
    now apply ranked_In.
  - intros a ra b rb Ha Hb.
    apply ranked_In in Ha. apply ranked_In in Hb.
    destruct Ha as [Ha ->], Hb as [Hb ->].
    split; [|split].
    + intros Hgt.
      pose proof (count_greater_mono (Posts a) (Posts b) (map Posts rows)). lia.
    + now intros ->.
    + destruct (first_position (descending (map Posts rows)) (Posts a))
        as [pre [post [E [Hpre Hlen]]]].
      * apply descending_sorted.
      * eapply Permutation_in; [apply descending_perm|]. now apply in_map.
      * exists pre, post. split; [exact E|]. split; [exact Hpre|].
        rewrite Hlen.
        rewrite <- (count_greater_perm _ _ _ (descending_perm (map Posts rows))).
        lia.
Qed.

(** ** Rank changes *)

Lemma rank_label_eqb (a b : Z) :
  String.eqb (String.append "Rank_" (str a))
             (String.append "Rank" (String.append "_" (str b)))
  = (a =? b).
Proof. cbn. apply str_eqb. Qed.

Lemma combine_difference (rows : list (string * Z * Z)) :
  map (fun rc => {| cr_Name := fst (fst (fst rc));
                    Rank_start := snd (fst (fst rc));
                    Rank_end := snd (fst rc);
                    Rank_Change := snd rc |})
      (combine rows
         (map (fun xy => fst xy - snd xy)
              (combine (map (fun r => snd (fst r)) rows)
                       (map (fun r => snd r) rows))))
  = map change_row rows.
Proof.
  induction rows as [|[[n a] b] rows IH]; [reflexivity|].
  cbn [map combine fst snd]. now rewrite IH.
Qed.

(** For two different years the two Rank columns get different labels
    and the subtraction is one column. *)
Lemma rank_change_table_distinct (df : list LongRow) (s e : Z) :
  s <> e ->
  rank_change_table df s e = Ok (map change_row (joined df s e)).
Proof.
  intros Hne. unfold rank_change_table, getitem, columns_named, joined.
  cbn [rf_labels rf_rows merge_on_name fst snd].
  rewrite !rank_label_eqb, !Z.eqb_refl.
  destruct (Z.eqb_spec s e) as [|_]; [contradiction|].
  destruct (Z.eqb_spec e s) as [|_]; [congruence|].
  cbn [app bind sub_columns combine map fst snd new_column].
  now rewrite combine_difference.
Qed.

(** For one and the same year both Rank columns get the same label:
    each selection is a frame of two columns and so is the difference,
    which cannot become the one column Rank_Change. *)
Lemma rank_change_table_same_year (df : list LongRow) (y : Z) :
  rank_change_table df y y = Raise ValueError.
Proof.
  unfold rank_change_table, getitem, columns_named.
  cbn [rf_labels rf_rows merge_on_name fst snd].
  rewrite !rank_label_eqb, !Z.eqb_refl.
  reflexivity.
Qed.

Lemma name_rank_In (rows : list LongRow) (x : string) (r : Z) :
  In (x, r) (name_rank rows)
  <-> exists a, In a rows /\ Name a = x
                /\ r = 1 + count_greater (Posts a) (map Posts rows).
Proof.
  unfold name_rank. rewrite in_map_iff. split.
  - intros [[a ra] [E H]]. cbn [fst snd] in E. inversion E; subst.
    apply ranked_In in H. exists a. tauto.
  - intros [a [Ha [<- ->]]]. exists (a, 1 + count_greater (Posts a) (map Posts rows)).
    split; [reflexivity|]. now apply ranked_In.
Qed.

Lemma joined_In (df : list LongRow) (s e : Z) (x : string) (r1 r2 : Z) :
  In (x, r1, r2) (joined df s e)
  <-> In (x, r1) (name_rank (year_rows df s))
      /\ In (x, r2) (name_rank (year_rows df e)).
Proof.
  unfold joined. cbn [rf_rows merge_on_name]. rewrite in_flat_map. split.
  - intros [[n a] [Hl H]]. apply in_map_iff in H.
    destruct H as [[n' b] [E H]]. cbn [fst snd] in E. inversion E; subst.
    apply filter_In in H. destruct H as [H Heq]. cbn [fst] in Heq.
    apply String.eqb_eq in Heq. subst. tauto.
  - intros [H1 H2]. exists (x, r1). split; [exact H1|].
    apply in_map_iff. exists (x, r2). split; [reflexivity|].
    apply filter_In. split; [exact H2|]. apply String.eqb_refl.
Qed.

(** In the long form a year has one row per country, hence one rank. *)
Lemma year_rank_unique (df_detail : list RawPost) (y : Z) (x : string)
  (r r' : Z) :
  In (x, r) (name_rank (year_rows (df_long_of df_detail) y)) ->
  In (x, r') (name_rank (year_rows (df_long_of df_detail) y)) ->
  r = r'.
Proof.
  intros H H'. apply name_rank_In in H. apply name_rank_In in H'.
  destruct H as [a [Ha [Na ->]]], H' as [a' [Ha' [Na' ->]]].
  unfold year_rows in Ha, Ha'. apply filter_In in Ha. apply filter_In in Ha'.
  destruct Ha as [Ha Ya], Ha' as [Ha' Ya'].
  apply Z.eqb_eq in Ya. apply Z.eqb_eq in Ya'.
  assert (a = a') by (apply (long_row_unique df_detail); congruence).
  now subst.
Qed.

Lemma year_rank_exists (df : list LongRow) (y : Z) (x : string) (p : Z) :
  In {| Name := x; LYear := y; Posts := p |} df ->
  exists r, In (x, r) (name_rank (year_rows df y)).
Proof.
  intros H. eexists. apply name_rank_In.
  exists {| Name := x; LYear := y; Posts := p |}.
  split; [|split; reflexivity].
  apply filter_In. split; [exact H|]. apply Z.eqb_refl.
Qed.

Lemma change_of_Some (x : string) (t : list ChangeRow) (c : Z) :
  change_of x t = Some c ->
  exists r, In r t /\ cr_Name r = x /\ Rank_Change r = c.
Proof.
  unfold change_of. destruct (find _ t) as [r|] eqn:E; [|discriminate].
  intros H. inversion H; subst. apply find_some in E.
  destruct E as [Hin Hn]. apply String.eqb_eq in Hn. now exists r.
Qed.

Lemma change_of_found (x : string) (t : list ChangeRow) (c : Z) :
  (exists r, In r t /\ cr_Name r = x) ->
  (forall r, In r t -> cr_Name r = x -> Rank_Change r = c) ->
  change_of x t = Some c.
Proof.
  intros [r [Hin Hn]] Hall. unfold change_of.
  destruct (find _ t) as [r'|] eqn:E.
  - apply find_some in E. destruct E as [Hin' Hn'].
    apply String.eqb_eq in Hn'. cbn [option_map]. f_equal. now apply Hall.
  - exfalso. apply (find_none _ _ E) in Hin.
    rewrite Hn, String.eqb_refl in Hin. discriminate.
Qed.

Lemma rank_change_Some (df : list LongRow) (s e : Z) (x : string) (c : Z) :
  rank_change df s e x = Some c ->
  s <> e /\ exists r1 r2, In (x, r1, r2) (joined df s e) /\ c = r1 - r2.
Proof.
  unfold rank_change. destruct (Z.eq_dec s e) as [->|Hne].
  - now rewrite rank_change_table_same_year.
  - rewrite (rank_change_table_distinct df s e Hne). intros H.
    split; [exact Hne|]. apply change_of_Some in H.
    destruct H as [r [Hin [Hn Hc]]]. apply in_map_iff in Hin.
    destruct Hin as [[[n r1] r2] [E Hin]]. subst r.
    cbn [change_row cr_Name Rank_Change fst snd] in *. subst.
    now exists r1, r2.
Qed.

Lemma rank_change_joined (df_detail : list RawPost) (s e : Z) (x : string)
  (r1 r2 : Z) :
  s <> e ->
  In (x, r1, r2) (joined (df_long_of df_detail) s e) ->
  rank_change (df_long_of df_detail) s e x = Some (r1 - r2).
Proof.
  intros Hne Hin. unfold rank_change.
  rewrite (rank_change_table_distinct _ s e Hne).
  apply change_of_found.
  - exists (change_row (x, r1, r2)). split; [now apply in_map|reflexivity].
  - intros r Hr Hn. apply in_map_iff in Hr.
    destruct Hr as [[[n a] b] [E Hr]]. subst r.
    cbn [change_row cr_Name Rank_Change fst snd] in *. subst n.
    apply joined_In in Hin. apply joined_In in Hr.
    destruct Hin as [H1 H2], Hr as [H1' H2'].
    rewrite (year_rank_unique df_detail s x a r1 H1' H1).
    now rewrite (year_rank_unique df_detail e x b r2 H2' H2).
Qed.

(** C3 -- rank-change symmetry.  Whenever the script computes a rank
    change for a country from one year to another, it computes the
    negated change for that country with the two years swapped; and for
    two different years it does compute a change for every country that
    the long form has in both years. *)
Theorem rank_change_symmetry (df_detail : list RawPost) (start_year end_year : Z)
  (x : string) :
  let df := df_long_of df_detail in
  (forall c, rank_change df start_year end_year x = Some c ->
             rank_change df end_year start_year x = Some (- c))
  /\ (start_year <> end_year ->
      (exists p, In {| Name := x; LYear := start_year; Posts := p |} df) ->
      (exists q, In {| Name := x; LYear := end_year; Posts := q |} df) ->
      exists c, rank_change df start_year end_year x = Some c
                /\ rank_change df end_year start_year x = Some (- c)).
Proof.
  intros df. subst df.
  assert (Hswap : forall r1 r2,
             start_year <> end_year ->
             In (x, r1, r2) (joined (df_long_of df_detail) start_year end_year) ->
             rank_change (df_long_of df_detail) end_year start_year x
             = Some (- (r1 - r2))).
  { intros r1 r2 Hne Hin.
    replace (- (r1 - r2)) with (r2 - r1) by lia.
    apply rank_change_joined; [congruence|].
    apply joined_In. apply joined_In in Hin. tauto. }
  split.
  - intros c H. apply rank_change_Some in H.
    destruct H as [Hne [r1 [r2 [Hin ->]]]]. now apply Hswap.
  - intros Hne [p Hp] [q Hq].
    destruct (year_rank_exists _ _ _ _ Hp) as [r1 H1].
    destruct (year_rank_exists _ _ _ _ Hq) as [r2 H2].
    assert (Hin : In (x, r1, r2)
                     (joined (df_long_of df_detail) start_year end_year))
      by (apply joined_In; tauto).
    exists (r1 - r2). split.
    + now apply rank_change_joined.
    + now apply Hswap.
Qed.

(** C4 -- the same year twice.  With the start year equal to the end
    year the script does not return: the merge labels both Rank columns
    alike, and setting Rank_Change raises a ValueError, whatever the
    long form holds and however [sort_values] orders. *)
Theorem same_year_raises
  (sort_values : forall A : Type, (A -> Z) -> bool -> list A -> list A)
  (df : list LongRow) (year : Z) :
  calculate_rank_analysis sort_values df year year = Raise ValueError.
Proof.
  unfold calculate_rank_analysis.
  now rewrite rank_change_table_same_year.
Qed.

(** ** Counting values *)

Lemma filter_and_length {A : Type} (p q : A -> bool) (l : list A) :
  (List.length (filter (fun x => p x && q x) l)
   <= List.length (filter p l))%nat
  /\ (List.length (filter (fun x => p x && q x) l) = List.length (filter p l)
      <-> forall x, In x l -> p x = true -> q x = true).
Proof.
  induction l as [|x l [IHle IHeq]]; cbn [filter].
  - split; [lia|]. split; [intros _ x []|reflexivity].
  - destruct (p x) eqn:Ep; cbn [andb].
    + destruct (q x) eqn:Eq; cbn [List.length].
      * split; [lia|]. rewrite Nat.succ_inj_wd, IHeq. split.
        -- intros H y [->|Hy] Hp; [exact Eq|now apply H].
        -- intros H y Hy. apply H. now right.
      * split; [lia|]. split; [lia|].
        intros H. specialize (H x (or_introl eq_refl) Ep). congruence.
    + split; [exact IHle|]. rewrite IHeq. split.
      * intros H y [->|Hy] Hp; [congruence|now apply H].
      * intros H y Hy. apply H. now right.
Qed.

Lemma self_keyed_filter (x : string) (l : list string) :
  map snd (filter (fun kv => String.eqb (fst kv) x) (map (fun v => (v, v)) l))
  = filter (String.eqb x) l.
Proof.
  induction l as [|v l IH]; [reflexivity|].
  cbn [map filter fst]. rewrite (String.eqb_sym v x).
  destruct (String.eqb x v); cbn [map snd]; now rewrite IH.
Qed.

(** The values counted are the cells that hold one. *)
Lemma occurrences_dropna (x : string) (l : list (option string)) :
  occurrences x (dropna l)
  = Z.of_nat (List.length (filter (fun cell => str_is cell x) l)).
Proof.
  unfold occurrences. f_equal.
  induction l as [|[v|] l IH]; cbn [dropna filter str_is]; [reflexivity| |exact IH].
  rewrite (String.eqb_sym v x).
  destruct (String.eqb x v); cbn [List.length]; now rewrite IH.
Qed.

Lemma value_counts_In (l : list (option string)) (x : string) (n : Z) :
  In (x, n) (value_counts l) -> n = occurrences x (dropna l) /\ 0 < n.
Proof.
  unfold value_counts, size. intros H. apply in_map_iff in H.
  destruct H as [[k vs] [E H]]. cbn [fst snd] in E. inversion E; subst.
  apply (collect_group String.eqb String.eqb_eq) in H.
  destruct H as [Hvs Hne]. split.
  - unfold occurrences. now rewrite Hvs, self_keyed_filter.
  - destruct vs; [contradiction|]. cbn [List.length]. lia.
Qed.

Lemma value_counts_keys_NoDup (l : list (option string)) :
  NoDup (map fst (value_counts l)).
Proof.
  unfold value_counts, size. rewrite map_map. cbn [fst].
  apply (collect_keys_NoDup String.eqb String.eqb_eq).
Qed.

Lemma value_counts_keys (l : list (option string)) (x : string) :
  In x (map fst (value_counts l)) <-> In (Some x) l.
Proof.
  unfold value_counts, size. rewrite map_map. cbn [fst].
  change (map (fun g : string * list string => fst g)) with (map (@fst string (list string))).
  rewrite (collect_keys String.eqb String.eqb_eq), map_map. cbn [fst].
  rewrite map_id. apply dropna_In.
Qed.

(** The counts add up to the number of cells that hold a value. *)
Lemma value_counts_total (l : list (option string)) :
  sumZ (map snd (value_counts l)) = Z.of_nat (List.length (dropna l)).
Proof.
  unfold value_counts, size. rewrite map_map. cbn [snd].
  rewrite <- (length_map (fun x => (x, x)) (dropna l)).
  apply (collect_total String.eqb).
Qed.

Lemma occurrences_absent (x : string) (l : list string) :
  ~ In x l -> occurrences x l = 0.
Proof.
  intros H. unfold occurrences.
  replace (filter (String.eqb x) l) with (@nil string); [reflexivity|].
  symmetry. induction l as [|v l IH]; [reflexivity|].
  cbn [filter]. destruct (String.eqb_spec x v) as [->|_].
  - exfalso. apply H. now left.
  - apply IH. intros Hin. apply H. now right.
Qed.

(** The count a label has in a table of counts, 0 when it has none. *)
Lemma value_counts_assoc (l : list (option string)) (x : string) :
  match assoc String.eqb x (value_counts l) with
  | Some n => n
  | None => 0
  end = occurrences x (dropna l).
Proof.
  destruct (assoc String.eqb x (value_counts l)) as [n|] eqn:E.
  - apply (assoc_Some String.eqb String.eqb_eq) in E.
    now apply value_counts_In in E.
  - apply (assoc_None String.eqb String.eqb_eq) in E.
    rewrite value_counts_keys in E. symmetry. apply occurrences_absent.
    now rewrite dropna_In.
Qed.

(** Nothing is counted exactly when no cell holds a value. *)
Lemma value_counts_nil (l : list (option string)) :
  value_counts l = [] <-> existsb notna l = false.
Proof.
  split.
  - intros H. apply not_true_iff_false. intros Hex.
    apply existsb_exists in Hex. destruct Hex as [[x|] [Hx Hn]];
      [|discriminate Hn].
    apply value_counts_keys in Hx. rewrite H in Hx. contradiction.
  - intros H. destruct (value_counts l) as [|[x n] t] eqn:E; [reflexivity|].
    exfalso. assert (Hx : In x (map fst (value_counts l)))
      by (rewrite E; now left).
    apply value_counts_keys in Hx.
    assert (existsb notna l = true); [|congruence].
    apply existsb_exists. now exists (Some x).
Qed.

(** ** The footprint *)

Lemma country_posts_length (df_detail : list RawPost) (y : Z) (home : string) :
  country_posts_of df_detail y home = filter (same_pair home y) df_detail.
Proof.
  unfold country_posts_of, same_pair.
  induction df_detail as [|r rs IH]; [reflexivity|].
  cbn [filter]. destruct (int_is (Year r) y); cbn [filter];
    destruct (str_is (COUNTRY r) home); cbn [andb]; now rewrite IH.
Qed.

(** The posts of a country and a year that have a host country. *)
Lemma hosted_length (df_detail : list RawPost) (home : string) (year : Z) :
  List.length (dropna (map POST_COUNTRY (filter (same_pair home year) df_detail)))
  = List.length (filter (fun r => same_pair home year r
                                  && notna (POST_COUNTRY r)) df_detail).
Proof.
  induction df_detail as [|r rs IH]; [reflexivity|]. cbn [filter].
  destruct (same_pair home year r); cbn [andb map dropna]; [|exact IH].
  destruct (POST_COUNTRY r); cbn [notna List.length]; now rewrite IH.
Qed.

Section Footprint.
Variable sort_values : forall A : Type, (A -> Z) -> bool -> list A -> list A.
Hypothesis sort_values_perm :
  forall (A : Type) (key : A -> Z) (ascending : bool) (l : list A),
    Permutation l (sort_values A key ascending l).

(** C10 -- the footprint and the posts.  The counts of the footprint
    add up to the number of the home country's raw rows of the year
    that have a host country: [value_counts] leaves out the rows whose
    host country is empty.  When the long form has a row for the home
    country and the year, the sum is therefore at most the posts of
    that row, and equal to them exactly when every such raw row has a
    host country; when the long form has no such row, the footprint is
    empty.  Each host country is listed once, with the number of the
    home country's posts of that year that it hosts. *)
Theorem footprint_partition (df_detail : list RawPost) (home : string)
  (year : Z) :
  let footprint := post_locations_of sort_values df_detail year home in
  sumZ (map snd footprint)
  = Z.of_nat (List.length
                (filter (fun r => same_pair home year r
                                  && notna (POST_COUNTRY r)) df_detail))
  /\ (forall p,
        In {| Name := home; LYear := year; Posts := p |} (df_long_of df_detail) ->
        sumZ (map snd footprint) <= p
        /\ (sumZ (map snd footprint) = p
            <-> forall r, In r df_detail -> COUNTRY r = Some home ->
                          Year r = Some year -> POST_COUNTRY r <> None))
  /\ ((forall p, ~ In {| Name := home; LYear := year; Posts := p |}
                      (df_long_of df_detail)) ->
      footprint = [])
  /\ NoDup (map fst footprint)
  /\ (forall host n, In (host, n) footprint ->
        n = Z.of_nat (List.length
              (filter (fun r => same_pair home year r
                                && str_is (POST_COUNTRY r) host)
                      df_detail))).
Proof.
  intros footprint. subst footprint. unfold post_locations_of.
  rewrite country_posts_length.
  set (hosts := map POST_COUNTRY (filter (same_pair home year) df_detail)).
  pose proof (sort_values_perm _ snd false (value_counts hosts)) as Hperm.
  assert (Hsum : sumZ (map snd (sort_values _ snd false (value_counts hosts)))
                 = Z.of_nat (List.length
                     (filter (fun r => same_pair home year r
                                       && notna (POST_COUNTRY r)) df_detail))).
  { rewrite <- (sumZ_perm _ _ (Permutation_map snd Hperm)).
    rewrite value_counts_total. unfold hosts. now rewrite hosted_length. }
  split; [exact Hsum|]. split; [|split; [|split]].
  - intros p Hin. apply long_row_posts in Hin. destruct Hin as [Hp _].
    cbn [Name LYear Posts] in Hp. rewrite Hp, Hsum.
    destruct (filter_and_length (same_pair home year)
                (fun r => notna (POST_COUNTRY r)) df_detail) as [Hle Heq].
    split; [lia|]. rewrite Nat2Z.inj_iff, Heq. split.
    + intros H r Hr Hc Hy E.
      assert (Hs : same_pair home year r = true) by now apply same_pair_true.
      specialize (H r Hr Hs). rewrite E in H. discriminate H.
    + intros H r Hr Hs. apply same_pair_true in Hs. destruct Hs as [Hc Hy].
      specialize (H r Hr Hc Hy). now destruct (POST_COUNTRY r).
  - intros Habs.
    assert (E : filter (same_pair home year) df_detail = []).
    { destruct (filter (same_pair home year) df_detail) as [|r l] eqn:E;
        [reflexivity|]. exfalso.
      assert (Hr : In r (filter (same_pair home year) df_detail))
        by (rewrite E; now left).
      apply filter_In in Hr. destruct Hr as [Hr Hs].
      apply same_pair_true in Hs. destruct Hs as [Hc Hy].
      destruct (long_row_exists df_detail r home year Hr Hc Hy)
        as [[c y p] [Hrow [Hn Hl]]].
      cbn [Name LYear] in Hn, Hl. subst. now apply (Habs p). }
    clear Hperm Hsum. unfold hosts. rewrite E.
    change (value_counts (map POST_COUNTRY [])) with (@nil (string * Z)).
    apply Permutation_nil, sort_values_perm.
  - eapply Permutation_NoDup; [apply (Permutation_map fst Hperm)|].
    apply value_counts_keys_NoDup.
  - intros host n Hin.
    apply (Permutation_in _ (Permutation_sym Hperm)) in Hin.
    apply value_counts_In in Hin. destruct Hin as [-> _].
    rewrite occurrences_dropna. unfold hosts. f_equal.
    clear. induction df_detail as [|r rs IH]; [reflexivity|].
    cbn [filter]. destruct (same_pair home year r); cbn [map filter andb].
    + destruct (str_is (POST_COUNTRY r) host); cbn [List.length];
        now rewrite IH.
    + exact IH.
Qed.

End Footprint.

(** ** The table of post types *)

Lemma existsb_eqb_In (l : string) (cols : list string) :
  existsb (String.eqb l) cols = true <-> In l cols.
Proof.
  rewrite existsb_exists. split.
  - intros [x [Hx E]]. apply String.eqb_eq in E. now subst.
  - intros H. exists l. split; [exact H|apply String.eqb_refl].
Qed.

Lemma cell_set_same (l : string) (v : option Z) (cells : list (string * option Z)) :
  cell l (set_cell l v cells) = v.
Proof.
  unfold cell. induction cells as [|[l' w] cells IH]; cbn [set_cell assoc].
  - now rewrite String.eqb_refl.
  - destruct (String.eqb l l') eqn:E; cbn [assoc]; rewrite E; [reflexivity|exact IH].
Qed.

Lemma cell_set_other (l l' : string) (v : option Z)
  (cells : list (string * option Z)) :
  l' <> l -> cell l' (set_cell l v cells) = cell l' cells.
Proof.
  intros Hne. unfold cell.
  induction cells as [|[k w] cells IH]; cbn [set_cell assoc].
  - apply String.eqb_neq in Hne. now rewrite Hne.
  - destruct (String.eqb l k) eqn:E; cbn [assoc].
    + apply String.eqb_eq in E. subst k.
      apply String.eqb_neq in Hne. now rewrite Hne.
    + destruct (String.eqb l' k); [reflexivity|exact IH].
Qed.

Lemma setitem_columns (f : CountFrame) (l : string) (op : operand) (l' : string) :
  In l' (cf_columns (setitem f l op)) <-> In l' (cf_columns f) \/ l' = l.
Proof.
  unfold setitem. cbn [cf_columns].
  destruct (existsb (String.eqb l) (cf_columns f)) eqn:E.
  - apply existsb_eqb_In in E. split; [tauto|]. intros [H| ->]; assumption.
  - rewrite in_app_iff. simpl. split; intros [H|H]; try tauto.
    + destruct H as [<-|[]]. now right.
    + right. left. now symmetry.
Qed.

Lemma combine_map_map {A B C : Type} (f : A -> B) (g : A -> C) (l : list A) :
  combine (map f l) (map g l) = map (fun a => (f a, g a)) l.
Proof. induction l as [|a l IH]; [reflexivity|]. cbn. now rewrite IH. Qed.

Section CountTable.
Variable groups : list (string * list (option string)).

Lemma add_denotes (a b : operand) (va vb : string * list (option string) -> Z) :
  denotes groups a va -> denotes groups b vb ->
  denotes groups (add a b) (fun g => va g + vb g).
Proof.
  destruct a as [xs|x], b as [ys|y]; cbn [denotes add].
  - intros -> ->. rewrite combine_map_map, map_map. reflexivity.
  - intros -> H. rewrite map_map. apply map_ext_in.
    intros g Hg. cbn [add_cell]. now rewrite (H g Hg).
  - intros H ->. rewrite map_map. apply map_ext_in.
    intros g Hg. cbn [add_cell]. now rewrite (H g Hg).
  - intros Ha Hb g Hg. now rewrite (Ha g Hg), (Hb g Hg).
Qed.

Lemma setitem_tabular (f : CountFrame) (l : string) (op : operand)
  (cells : string * list (option string) -> list (string * option Z))
  (val : string * list (option string) -> Z) :
  tabular groups f cells -> denotes groups op val ->
  tabular groups (setitem f l op)
          (fun g => set_cell l (Some (val g)) (cells g)).
Proof.
  unfold tabular, setitem. intros Hf Hop. cbn [cf_rows]. rewrite Hf.
  destruct op as [cs|z]; cbn [denotes] in Hop.
  - subst cs. rewrite combine_map_map, map_map. reflexivity.
  - rewrite map_map, combine_map_map, map_map. apply map_ext_in.
    intros g Hg. cbn [fst snd]. now rewrite (Hop g Hg).
Qed.

Lemma get_denotes (f : CountFrame) (l : string)
  (cells : string * list (option string) -> list (string * option Z))
  (val : string * list (option string) -> Z) :
  tabular groups f cells ->
  (In l (cf_columns f) ->
   forall g, In g groups -> cell l (cells g) = Some (val g)) ->
  (~ In l (cf_columns f) -> forall g, In g groups -> val g = 0) ->
  denotes groups (get f l 0) val.
Proof.
  unfold tabular, get. intros Hf Hin Hout.
  destruct (existsb (String.eqb l) (cf_columns f)) eqn:E; cbn [denotes].
  - apply existsb_eqb_In in E. rewrite Hf, map_map. apply map_ext_in.
    intros g Hg. cbn [snd]. now apply Hin.
  - apply Hout. intros H. apply existsb_eqb_In in H. congruence.
Qed.

End CountTable.

Lemma filter_map_comm {A B : Type} (f : A -> B) (p : B -> bool) (l : list A) :
  filter p (map f l) = map f (filter (fun x => p (f x)) l).
Proof.
  induction l as [|x l IH]; [reflexivity|]. cbn [map filter].
  destruct (p (f x)); cbn [map]; now rewrite IH.
Qed.

Lemma flat_map_map {A B C : Type} (f : A -> B) (g : B -> list C) (l : list A) :
  flat_map g (map f l) = flat_map (fun x => g (f x)) l.
Proof.
  induction l as [|x l IH]; [reflexivity|]. cbn [map flat_map]. now rewrite IH.
Qed.

(** The countries with a count are those with a labelled row. *)
Lemma counted_groups (df_ranking : list RawPost) :
  filter (fun g : string * list (string * Z) =>
            match snd g with
            | [] => false
            | _ => true
            end)
         (map (fun g => (fst g, value_counts (snd g))) (country_titles df_ranking))
  = map (fun g => (fst g, value_counts (snd g))) (type_groups df_ranking).
Proof.
  rewrite filter_map_comm. unfold type_groups. f_equal.
  apply filter_ext. intros g. cbn [snd]. unfold some_label.
  destruct (value_counts (snd g)) as [|x t] eqn:E.
  - symmetry. now apply value_counts_nil.
  - destruct (existsb notna (snd g)) eqn:Ex; [reflexivity|].
    apply value_counts_nil in Ex. congruence.
Qed.

Lemma post_type_table_spec (df_ranking : list RawPost) :
  post_type_table df_ranking
  = {| cf_columns := type_labels df_ranking;
       cf_rows := map (fun g => (fst g, type_cells df_ranking g))
                      (type_groups df_ranking) |}.
Proof.
  unfold post_type_table. cbv zeta.
  change (groupby String.eqb String.leb
            (map (fun kr => (fst kr, POST_TYPE_TITLE (snd kr)))
                 (with_key COUNTRY df_ranking)))
    with (country_titles df_ranking).
  rewrite counted_groups, flat_map_map, map_map. reflexivity.
Qed.

Lemma post_type_table_tabular (df_ranking : list RawPost) :
  tabular (type_groups df_ranking) (post_type_table df_ranking)
          (type_cells df_ranking).
Proof. unfold tabular. now rewrite post_type_table_spec. Qed.

Lemma type_labels_In (df_ranking : list RawPost) (l : string) :
  In l (type_labels df_ranking)
  <-> exists g, In g (type_groups df_ranking) /\ In (Some l) (snd g).
Proof.
  unfold type_labels. rewrite sort_by_In.
  rewrite (unique_In String.eqb String.eqb_eq), in_flat_map.
  split; intros [g [Hg H]]; exists g; split; try exact Hg;
    now apply value_counts_keys.
Qed.

(** The group of a country lists the post-type cells of its rows. *)
Lemma country_titles_group (df_ranking : list RawPost)
  (g : string * list (option string)) :
  In g (country_titles df_ranking) ->
  snd g = map POST_TYPE_TITLE
              (filter (fun r => str_is (COUNTRY r) (fst g)) df_ranking)
  /\ snd g <> [].
Proof.
  unfold country_titles. intros H. apply groupby_In in H. destruct g as [c vs].
  apply (collect_group String.eqb String.eqb_eq) in H. destruct H as [-> Hne].
  split; [|exact Hne]. cbn [fst snd]. clear.
  induction df_ranking as [|r rs IH]; [reflexivity|].
  cbn [with_key filter]. destruct (COUNTRY r) as [c'|]; cbn [str_is]; [|exact IH].
  cbn [map filter fst]. destruct (String.eqb c' c); cbn [map snd];
    now rewrite IH.
Qed.

Lemma country_titles_keys_NoDup (df_ranking : list RawPost) :
  NoDup (map fst (country_titles df_ranking)).
Proof. apply (groupby_keys_NoDup String.eqb String.leb String.eqb_eq). Qed.

(** Every country of a row has its group. *)
Lemma country_titles_has (df_ranking : list RawPost) (r : RawPost) (c : string) :
  In r df_ranking -> COUNTRY r = Some c ->
  exists vs, In (c, vs) (country_titles df_ranking).
Proof.
  intros Hr Hc.
  destruct (collect_has_group String.eqb String.eqb_eq
              (map (fun kr => (fst kr, POST_TYPE_TITLE (snd kr)))
                   (with_key COUNTRY df_ranking)) c) as [vs Hvs].
  { rewrite map_map. cbn [fst]. apply in_map_iff. exists (c, r).
    split; [reflexivity|]. now apply with_key_In. }
  exists vs. now apply groupby_In.
Qed.

Lemma type_cell_present (df_ranking : list RawPost) (l : string)
  (g : string * list (option string)) :
  In l (type_labels df_ranking) ->
  cell l (type_cells df_ranking g) = Some (occurrences l (dropna (snd g))).
Proof.
  intros H. unfold cell, type_cells.
  rewrite (assoc_tabulate_In String.eqb String.eqb_eq
             (fun l => match assoc String.eqb l (value_counts (snd g)) with
                       | Some n => Some n
                       | None => Some 0
                       end) _ _ H).
  rewrite <- value_counts_assoc.
  now destruct (assoc String.eqb l (value_counts (snd g))).
Qed.

Lemma type_cell_absent (df_ranking : list RawPost) (l : string)
  (g : string * list (option string)) :
  ~ In l (type_labels df_ranking) -> In g (type_groups df_ranking) ->
  occurrences l (dropna (snd g)) = 0.
Proof.
  intros H Hg. apply occurrences_absent. intros Hin. apply H.
  apply type_labels_In. exists g. split; [exact Hg|]. now apply dropna_In.
Qed.

Lemma get_post_type (df_ranking : list RawPost) (l : string) :
  denotes (type_groups df_ranking) (get (post_type_table df_ranking) l 0)
          (fun g => occurrences l (dropna (snd g))).
Proof.
  apply (get_denotes _ _ _ (type_cells df_ranking)).
  - apply post_type_table_tabular.
  - intros H g _. apply type_cell_present.
    now rewrite post_type_table_spec in H.
  - intros H g Hg. apply (type_cell_absent df_ranking l g); [|exact Hg].
    now rewrite post_type_table_spec in H.
Qed.

(** Lines 94-98 give every country that has a labelled row its two
    sums, as numbers; the other countries have no row in the table. *)
Lemma breakdown_spec (df_ranking : list RawPost) :
  select_breakdown (post_type_counts_of df_ranking)
  = Ok (map (fun g => (fst g, (Some (embassies_of g), Some (consulates_of g))))
            (type_groups df_ranking)).
Proof.
  unfold post_type_counts_of.
  set (T0 := post_type_table df_ranking).
  set (T1 := setitem T0 "Consulates" _).
  set (T2 := setitem T1 "Embassies" _).
  assert (H1 : tabular (type_groups df_ranking) T1
                 (fun g => set_cell "Consulates" (Some (consulates_of g))
                                    (type_cells df_ranking g))).
  { apply setitem_tabular; [apply post_type_table_tabular|].
    apply (add_denotes _ _ _ (fun g => occurrences "Consulate" (dropna (snd g)))
                             (fun g => occurrences "Consulate General"
                                                   (dropna (snd g))));
      apply get_post_type. }
  assert (Hcols : forall l, l <> "Consulates" ->
                    In l (cf_columns T1) <-> In l (type_labels df_ranking)).
  { intros l Hl. unfold T1. rewrite setitem_columns. unfold T0.
    rewrite post_type_table_spec. cbn [cf_columns]. tauto. }
  assert (Hget : forall l, l <> "Consulates" ->
            denotes (type_groups df_ranking) (get T1 l 0)
                    (fun g => occurrences l (dropna (snd g)))).
  { intros l Hl. eapply get_denotes; [exact H1| |].
    - intros Hin g _. cbv beta. rewrite cell_set_other by exact Hl.
      apply type_cell_present. now apply Hcols.
    - intros Hout g Hg. apply (type_cell_absent df_ranking); [|exact Hg].
      intros Hin. apply Hout. now apply Hcols. }
  assert (H2 : tabular (type_groups df_ranking) T2
                 (fun g => set_cell "Embassies" (Some (embassies_of g))
                             (set_cell "Consulates" (Some (consulates_of g))
                                       (type_cells df_ranking g)))).
  { apply (setitem_tabular _ T1 "Embassies" _ _ embassies_of H1).
    apply (add_denotes _ _ _ (fun g => occurrences "Embassy" (dropna (snd g)))
                             (fun g => occurrences "High Commission"
                                                   (dropna (snd g))));
      apply Hget; discriminate. }
  unfold select_breakdown.
  assert (He : existsb (String.eqb "Embassies") (cf_columns T2) = true).
  { apply existsb_eqb_In. unfold T2. rewrite setitem_columns. now right. }
  assert (Hc : existsb (String.eqb "Consulates") (cf_columns T2) = true).
  { apply existsb_eqb_In. unfold T2, T1. rewrite !setitem_columns. tauto. }
  rewrite He, Hc. cbn [andb]. f_equal.
  unfold tabular in H2. rewrite H2, map_map. apply map_ext.
  intros g. cbn [fst snd].
  rewrite cell_set_same.
  rewrite cell_set_other by discriminate.
  now rewrite cell_set_same.
Qed.

(** ** The ranking table *)

Lemma occurrences_titles (df_detail : list RawPost) (c : string) (y : Z)
  (l : string) :
  occurrences l (dropna (type_titles df_detail c y)) = labelled df_detail c y l.
Proof.
  rewrite occurrences_dropna.
  unfold type_titles, labelled, detail_of_year, same_pair.
  f_equal. induction df_detail as [|r rs IH]; [reflexivity|].
  cbn [filter]. destruct (int_is (Year r) y); cbn [filter];
    destruct (str_is (COUNTRY r) c); cbn [andb map filter];
    try exact IH.
  destruct (str_is (POST_TYPE_TITLE r) l); cbn [List.length]; now rewrite IH.
Qed.

Lemma titled_spec (df_detail : list RawPost) (c : string) (y : Z) :
  titled df_detail c y = existsb notna (type_titles df_detail c y).
Proof.
  unfold titled, type_titles, detail_of_year, same_pair.
  induction df_detail as [|r rs IH]; [reflexivity|].
  cbn [existsb filter]. destruct (int_is (Year r) y); cbn [filter];
    destruct (str_is (COUNTRY r) c); cbn [andb map existsb orb];
    try exact IH.
  now rewrite IH.
Qed.

Lemma titled_true (df_detail : list RawPost) (c : string) (y : Z) :
  titled df_detail c y = true
  <-> exists r, In r df_detail /\ COUNTRY r = Some c /\ Year r = Some y
                /\ POST_TYPE_TITLE r <> None.
Proof.
  unfold titled. rewrite existsb_exists. split.
  - intros [r [Hr H]]. apply andb_true_iff in H. destruct H as [Hs Hn].
    apply same_pair_true in Hs. exists r.
    destruct (POST_TYPE_TITLE r); [|discriminate Hn].
    repeat split; try tauto. discriminate.
  - intros [r [Hr [Hc [Hy Hn]]]]. exists r. split; [exact Hr|].
    apply andb_true_iff. split; [now apply same_pair_true|].
    now destruct (POST_TYPE_TITLE r).
Qed.

Lemma same_cell_spec (a b : option string) :
  same_cell String.eqb a b = true <-> a = b.
Proof.
  destruct a as [x|], b as [y|]; cbn [same_cell];
    try (split; [discriminate|intros H; discriminate H]).
  - rewrite String.eqb_eq. split; [now intros ->|]. intros H. now inversion H.
  - split; reflexivity.
Qed.

Lemma existsb_same_cell (c : option string) (seen : list (option string)) :
  existsb (same_cell String.eqb c) seen = true <-> In c seen.
Proof.
  rewrite existsb_exists. split.
  - intros [x [Hx E]]. apply same_cell_spec in E. now subst.
  - intros H. exists c. split; [exact H|]. now apply same_cell_spec.
Qed.

Lemma drop_duplicates_In (seen : list (option string)) (rows : list RawPost)
  (m : RawPost) :
  In m (drop_duplicates seen rows) -> In m rows /\ ~ In (COUNTRY m) seen.
Proof.
  revert seen. induction rows as [|r rows IH]; intros seen; cbn [drop_duplicates].
  - contradiction.
  - destruct (existsb (same_cell String.eqb (COUNTRY r)) seen) eqn:E.
    + intros H. apply IH in H. simpl. tauto.
    + intros [->|H].
      * split; [now left|]. intros Hin. apply existsb_same_cell in Hin. congruence.
      * apply IH in H. simpl in *. tauto.
Qed.

Lemma drop_duplicates_NoDup (seen : list (option string)) (rows : list RawPost) :
  NoDup (map COUNTRY (drop_duplicates seen rows)).
Proof.
  revert seen. induction rows as [|r rows IH]; intros seen; cbn [drop_duplicates].
  - constructor.
  - destruct (existsb (same_cell String.eqb (COUNTRY r)) seen); [apply IH|].
    cbn [map]. constructor; [|apply IH].
    intros H. apply in_map_iff in H. destruct H as [m [E H]].
    apply drop_duplicates_In in H. rewrite E in H. simpl in H. tauto.
Qed.

Lemma drop_duplicates_covers (seen : list (option string)) (rows : list RawPost)
  (r : RawPost) :
  In r rows -> ~ In (COUNTRY r) seen ->
  In (COUNTRY r) (map COUNTRY (drop_duplicates seen rows)).
Proof.
  revert seen. induction rows as [|x rows IH]; intros seen; cbn [drop_duplicates].
  - contradiction.
  - intros Hin Hseen.
    destruct (existsb (same_cell String.eqb (COUNTRY x)) seen) eqn:E.
    + destruct Hin as [->|Hin]; [|now apply IH].
      apply existsb_same_cell in E. contradiction.
    + cbn [map].
      destruct (same_cell String.eqb (COUNTRY x) (COUNTRY r)) eqn:Ex.
      * apply same_cell_spec in Ex. now left.
      * right. destruct Hin as [->|Hin].
        -- assert (same_cell String.eqb (COUNTRY r) (COUNTRY r) = true)
             by now apply same_cell_spec.
           congruence.
        -- apply IH; [exact Hin|]. intros [H|H]; [|now apply Hseen].
           apply same_cell_spec in H. congruence.
Qed.

Lemma flat_map_single {A B : Type} (f : A -> list B) (g : A -> B) (l : list A) :
  (forall x, In x l -> f x = [g x]) -> flat_map f l = map g l.
Proof.
  induction l as [|x l IH]; intros H; [reflexivity|].
  cbn [flat_map map]. rewrite (H x) by now left.
  cbn [app]. f_equal. apply IH. intros y Hy. apply H. now right.
Qed.

(** A join that finds one match for a row with a key and none for a
    row without. *)
Lemma flat_map_with_key {A K B : Type} (key : A -> option K)
  (f : A -> list B) (g : K * A -> B) (l : list A) :
  (forall x, In x l -> f x = match key x with
                             | Some k => [g (k, x)]
                             | None => []
                             end) ->
  flat_map f l = map g (with_key key l).
Proof.
  induction l as [|x l IH]; intros H; [reflexivity|].
  cbn [flat_map with_key]. rewrite (H x) by now left.
  rewrite IH by (intros y Hy; apply H; now right).
  now destruct (key x).
Qed.

Lemma filter_none {A : Type} (l : list A) : filter (fun _ => false) l = [].
Proof. induction l as [|x l IH]; [reflexivity|exact IH]. Qed.

Lemma dropna_NoDup {A : Type} (l : list (option A)) :
  NoDup l -> NoDup (dropna l).
Proof.
  induction 1 as [|[x|] l Hnotin Hnd IH]; cbn [dropna];
    [constructor| |exact IH].
  constructor; [|exact IH]. now rewrite dropna_In.
Qed.

Lemma with_key_keys {A K : Type} (key : A -> option K) (l : list A) :
  map fst (with_key key l) = dropna (map key l).
Proof.
  induction l as [|x l IH]; [reflexivity|]. cbn [with_key map dropna].
  destruct (key x); cbn [map fst]; now rewrite IH.
Qed.

Lemma year_names_NoDup (df_detail : list RawPost) (y : Z) :
  NoDup (map Name (year_rows (df_long_of df_detail) y)).
Proof.
  assert (Hk : NoDup (map long_key (year_rows (df_long_of df_detail) y)))
    by (apply NoDup_map_filter, long_keys_NoDup).
  assert (Hy : forall r, In r (year_rows (df_long_of df_detail) y) -> LYear r = y).
  { intros r H. apply filter_In in H. now apply Z.eqb_eq. }
  induction (year_rows (df_long_of df_detail) y) as [|r l IH]; [constructor|].
  cbn [map] in *. inversion Hk as [|? ? Hnotin Hnd]; subst.
  constructor.
  - intros H. apply Hnotin. apply in_map_iff in H. destruct H as [r' [E Hr']].
    apply in_map_iff. exists r'. split; [|exact Hr'].
    unfold long_key. rewrite E, (Hy r'), (Hy r); [reflexivity|now left|now right].
  - apply IH; [exact Hnd|]. intros r' H. apply Hy. now right.
Qed.

(** The total the long form has for a country of the year. *)
Lemma total_posts_entry (df_detail : list RawPost) (y : Z) (m : RawPost)
  (c : string) :
  In m (detail_of_year df_detail y) -> COUNTRY m = Some c ->
  filter (fun t => str_is (COUNTRY m) (fst t))
         (map (fun r => (Name r, Posts r)) (year_rows (df_long_of df_detail) y))
  = [(c, posts_in df_detail c y)].
Proof.
  intros Hm Hc. apply filter_In in Hm. destruct Hm as [Hm Hy].
  apply int_is_true in Hy. rewrite Hc. cbn [str_is].
  rewrite (filter_ext _ (fun t : string * Z => String.eqb (fst t) c))
    by (intros t; apply String.eqb_sym).
  apply (filter_unique_key String.eqb String.eqb_eq).
  - rewrite map_map. cbn [fst]. apply year_names_NoDup.
  - destruct (long_row_exists df_detail m c y Hm Hc Hy) as [row [Hrow [Hn Hl]]].
    apply in_map_iff. exists row. split.
    + destruct (long_row_posts df_detail row Hrow) as [Hp _].
      unfold posts_in. rewrite Hp, Hn, Hl. reflexivity.
    + apply filter_In. split; [exact Hrow|]. apply Z.eqb_eq. congruence.
Qed.

(** The breakdown the post-type table has for a country of the year:
    one entry when a post of the country has a label, none otherwise. *)
Lemma breakdown_entry (df_detail : list RawPost) (y : Z) (c : string) :
  filter (fun b => String.eqb (fst b) c)
         (map (fun g => (fst g, (Some (embassies_of g), Some (consulates_of g))))
              (type_groups (detail_of_year df_detail y)))
  = if titled df_detail c y
    then [(c, (Some (labelled df_detail c y "Embassy"
                     + labelled df_detail c y "High Commission"),
               Some (labelled df_detail c y "Consulate"
                     + labelled df_detail c y "Consulate General")))]
    else [].
Proof.
  assert (Hgroup : forall vs,
            In (c, vs) (country_titles (detail_of_year df_detail y)) ->
            vs = type_titles df_detail c y).
  { intros vs H. now apply country_titles_group in H. }
  destruct (titled df_detail c y) eqn:T.
  - apply (filter_unique_key String.eqb String.eqb_eq).
    + rewrite map_map. cbn [fst]. unfold type_groups.
      apply NoDup_map_filter, country_titles_keys_NoDup.
    + pose proof T as T'. apply titled_true in T'.
      destruct T' as [r [Hr [Hc [Hy _]]]].
      destruct (country_titles_has (detail_of_year df_detail y) r c)
        as [vs Hvs]; [|exact Hc|].
      { apply filter_In. split; [exact Hr|]. now apply int_is_true. }
      pose proof (Hgroup vs Hvs) as E.
      apply in_map_iff. exists (c, vs). split.
      * unfold embassies_of, consulates_of. cbn [fst snd].
        rewrite E, !occurrences_titles. reflexivity.
      * apply filter_In. split; [exact Hvs|].
        unfold some_label. cbn [snd]. now rewrite E, <- titled_spec.
  - apply (filter_key_none String.eqb String.eqb_eq).
    rewrite map_map. cbn [fst]. intros H. apply in_map_iff in H.
    destruct H as [[c' vs] [E H]]. cbn [fst] in E. subst c'.
    apply filter_In in H. destruct H as [H Hs].
    unfold some_label in Hs. cbn [snd] in Hs.
    rewrite (Hgroup vs H), <- titled_spec in Hs. congruence.
Qed.

Section RankingTable.
Variable sort_values : forall A : Type, (A -> Z) -> bool -> list A -> list A.

(** Before its ordering the table has one row per row of [df_meta] that
    has a country. *)
Lemma ranking_table_spec (df_detail : list RawPost) (y : Z) :
  ranking_table sort_values df_detail (df_long_of df_detail) y
  = Ok (sort_values_na_last sort_values Rank true
          (map (summary_row df_detail y) (named_meta df_detail y))).
Proof.
  unfold ranking_table. fold (detail_of_year df_detail y).
  rewrite breakdown_spec. cbn [bind].
  assert (E : merge_left
                (merge_totals (drop_duplicates [] (detail_of_year df_detail y))
                   (map (fun r => (Name r, Posts r))
                        (year_rows (df_long_of df_detail) y)))
                (map (fun g => (fst g, (Some (embassies_of g),
                                        Some (consulates_of g))))
                     (type_groups (detail_of_year df_detail y)))
              = map (summary_row df_detail y) (named_meta df_detail y));
    [|now rewrite E].
  unfold merge_totals, named_meta.
  rewrite (flat_map_with_key COUNTRY _
             (fun cm => (snd cm, (fst cm, posts_in df_detail (fst cm) y)))).
  - unfold merge_left. rewrite flat_map_map. apply flat_map_single.
    intros [c m] Hcm. cbn [fst snd]. rewrite breakdown_entry.
    unfold summary_row, shown. cbn [fst snd].
    now destruct (titled df_detail c y).
  - intros m Hm. apply drop_duplicates_In in Hm. destruct Hm as [Hm _].
    destruct (COUNTRY m) as [c|] eqn:Hc.
    + rewrite <- Hc, (total_posts_entry df_detail y m c Hm Hc). reflexivity.
    + cbn [str_is]. now rewrite filter_none.
Qed.

End RankingTable.

Lemma labelled_none (df_detail : list RawPost) (c : string) (y : Z) (l : string) :
  (forall r, In r df_detail -> COUNTRY r = Some c -> Year r = Some y ->
             POST_TYPE_TITLE r <> Some l) ->
  labelled df_detail c y l = 0.
Proof.
  intros H. unfold labelled.
  replace (filter _ df_detail) with (@nil RawPost); [reflexivity|].
  symmetry. induction df_detail as [|r rs IH]; [reflexivity|].
  cbn [filter].
  destruct (same_pair c y r && str_is (POST_TYPE_TITLE r) l) eqn:E.
  - exfalso. apply andb_true_iff in E. destruct E as [Hs Hl].
    apply same_pair_true in Hs. destruct Hs as [Hc Hy].
    apply str_is_true in Hl.
    apply (H r); [now left|assumption|assumption|assumption].
  - apply IH. intros r' Hr'. apply H. now right.
Qed.

(** A pair of the long form has a raw row. *)
Lemma long_row_origin (df_detail : list RawPost) (c : string) (y p : Z) :
  In {| Name := c; LYear := y; Posts := p |} (df_long_of df_detail) ->
  p = posts_in df_detail c y
  /\ exists r, In r df_detail /\ COUNTRY r = Some c /\ Year r = Some y.
Proof.
  intros H. apply long_row_posts in H. cbn [Name LYear Posts] in H.
  destruct H as [Hp Hpos]. split; [exact Hp|].
  destruct (filter (same_pair c y) df_detail) as [|r l] eqn:E.
  - cbn in Hp. lia.
  - assert (Hr : In r (filter (same_pair c y) df_detail)) by (rewrite E; now left).
    apply filter_In in Hr. destruct Hr as [Hr Hs].
    apply same_pair_true in Hs. exists r. tauto.
Qed.

Lemma meta_covers (df_detail : list RawPost) (y : Z) (r : RawPost) (c : string) :
  In r df_detail -> Year r = Some y -> COUNTRY r = Some c ->
  exists m, In (c, m) (named_meta df_detail y).
Proof.
  intros Hr Hy Hc.
  assert (H : In (COUNTRY r)
                 (map COUNTRY (drop_duplicates [] (detail_of_year df_detail y)))).
  { apply drop_duplicates_covers; [|tauto].
    apply filter_In. split; [exact Hr|]. now apply int_is_true. }
  apply in_map_iff in H. destruct H as [m [E Hm]]. exists m.
  apply with_key_In. split; [exact Hm|]. congruence.
Qed.

Lemma meta_origin (df_detail : list RawPost) (y : Z) (m : RawPost) (c : string) :
  In (c, m) (named_meta df_detail y) ->
  In m df_detail /\ Year m = Some y /\ COUNTRY m = Some c.
Proof.
  intros H. apply with_key_In in H. destruct H as [H Hc].
  apply drop_duplicates_In in H. destruct H as [H _].
  apply filter_In in H. destruct H as [H Hy]. apply int_is_true in Hy. tauto.
Qed.

Lemma named_meta_NoDup (df_detail : list RawPost) (y : Z) :
  NoDup (map fst (named_meta df_detail y)).
Proof.
  unfold named_meta. rewrite with_key_keys.
  apply dropna_NoDup, drop_duplicates_NoDup.
Qed.

(** ** Sorting by a column with empty cells *)

(** The rows with a key, then the rows without: a rearrangement. *)
Lemma na_last_perm {A : Type} (key : A -> option Z) (rows : list A) :
  Permutation rows
    (filter (fun a => notna (key a)) rows
     ++ filter (fun a => negb (notna (key a))) rows).
Proof.
  induction rows as [|x rows IH]; [constructor|]. cbn [filter].
  destruct (key x) as [z|]; cbn [notna negb app].
  - now constructor.
  - now apply Permutation_cons_app.
Qed.

Lemma StronglySorted_app {A : Type} (R : A -> A -> Prop) (l1 l2 : list A) :
  StronglySorted R l1 -> StronglySorted R l2 ->
  (forall a b, In a l1 -> In b l2 -> R a b) ->
  StronglySorted R (l1 ++ l2).
Proof.
  induction 1 as [|x l1 Hs IH Hx]; intros H2 Hcross; cbn [app]; [exact H2|].
  constructor.
  - apply IH; [exact H2|]. intros a b Ha Hb. apply Hcross; [now right|exact Hb].
  - apply Forall_app. split; [exact Hx|].
    apply Forall_forall. intros b Hb. apply Hcross; [now left|exact Hb].
Qed.

Lemma StronglySorted_In_impl {A : Type} (R R' : A -> A -> Prop) (l : list A) :
  StronglySorted R l ->
  (forall a b, In a l -> In b l -> R a b -> R' a b) ->
  StronglySorted R' l.
Proof.
  induction 1 as [|x l Hs IH Hx]; intros Himpl; constructor.
  - apply IH. intros a b Ha Hb. apply Himpl; now right.
  - rewrite Forall_forall in *. intros b Hb.
    apply Himpl; [now left|now right|now apply Hx].
Qed.

Section SortNaLast.
Variable sort_values : forall A : Type, (A -> Z) -> bool -> list A -> list A.
Hypothesis sort_values_perm :
  forall (A : Type) (key : A -> Z) (ascending : bool) (l : list A),
    Permutation l (sort_values A key ascending l).

Lemma sort_values_na_last_perm {A : Type} (key : A -> option Z)
  (ascending : bool) (l : list A) :
  Permutation l (sort_values_na_last sort_values key ascending l).
Proof.
  unfold sort_values_na_last.
  eapply perm_trans; [apply (na_last_perm key)|].
  apply Permutation_app_tail, sort_values_perm.
Qed.

Hypothesis sort_values_ordered :
  forall (A : Type) (key : A -> Z) (ascending : bool) (l : list A),
    ordered_by key ascending (sort_values A key ascending l).

Lemma sort_values_na_last_ordered {A : Type} (key : A -> option Z)
  (ascending : bool) (l : list A) :
  ordered_na_last key ascending (sort_values_na_last sort_values key ascending l).
Proof.
  unfold ordered_na_last, sort_values_na_last.
  set (value := fun a => match key a with Some z => z | None => 0 end).
  set (filled := filter (fun a => notna (key a)) l).
  assert (Hfilled : forall a, In a (sort_values A value ascending filled) ->
                              exists z, key a = Some z).
  { intros a Ha.
    apply (Permutation_in _ (Permutation_sym (sort_values_perm _ _ _ _))) in Ha.
    apply filter_In in Ha. now apply notna_true. }
  assert (Hempty : forall b, In b (filter (fun a => negb (notna (key a))) l) ->
                             key b = None).
  { intros b Hb. apply filter_In in Hb. destruct Hb as [_ Hb].
    now destruct (key b). }
  apply StronglySorted_app.
  - eapply StronglySorted_In_impl; [apply (sort_values_ordered A value ascending)|].
    intros a b Ha Hb. destruct (Hfilled a Ha) as [x Ex], (Hfilled b Hb) as [z Ez].
    unfold value. rewrite Ex, Ez. tauto.
  - induction (filter (fun a => negb (notna (key a))) l) as [|b t IH];
      constructor.
    + apply IH. intros b' Hb'. apply Hempty. now right.
    + apply Forall_forall. intros b' Hb'.
      rewrite (Hempty b') by now right. now destruct (key b).
  - intros a b Ha Hb. rewrite (Hempty b Hb). now destruct (key a).
Qed.

End SortNaLast.

Section RankingTableFacts.
Variable sort_values : forall A : Type, (A -> Z) -> bool -> list A -> list A.
Hypothesis sort_values_perm :
  forall (A : Type) (key : A -> Z) (ascending : bool) (l : list A),
    Permutation l (sort_values A key ascending l).

Lemma ranking_table_rows (df_detail : list RawPost) (y : Z) :
  exists rows,
    ranking_table sort_values df_detail (df_long_of df_detail) y = Ok rows
    /\ Permutation (map (summary_row df_detail y) (named_meta df_detail y)) rows.
Proof.
  eexists. split; [apply ranking_table_spec|].
  now apply sort_values_na_last_perm.
Qed.

(** Every country of the year's totals has its row in the table. *)
Lemma ranking_table_covers (df_detail : list RawPost) (y : Z)
  (rows : list DisplayRow) (c : string) (p : Z) :
  Permutation (map (summary_row df_detail y) (named_meta df_detail y)) rows ->
  In {| Name := c; LYear := y; Posts := p |} (df_long_of df_detail) ->
  exists row, In row rows /\ Country row = c /\ TOTAL_POSTS row = p.
Proof.
  intros Hperm Hin. apply long_row_origin in Hin.
  destruct Hin as [-> [r [Hr [Hc Hy]]]].
  destruct (meta_covers df_detail y r c Hr Hy Hc) as [m Hm].
  exists (summary_row df_detail y (c, m)). split; [|split; reflexivity].
  eapply Permutation_in; [exact Hperm|]. now apply in_map.
Qed.

(** C6 -- the breakdown of a country without a labelled post.  The
    table of a year is built without error and has a row for every
    country of that year's totals.  For a country with a post of the
    year that has a post type, Embassies is the number of its posts of
    the year labelled exactly Embassy plus those labelled exactly High
    Commission, and Consulates the number labelled exactly Consulate
    plus those labelled exactly Consulate General: numbers, both 0 when
    none of the labels is one of the four.  For a country whose posts
    of the year all have an empty post type, both cells are missing
    (NaN), not 0: the table of post types has no row for it and the
    left join of line 106 fills nothing in. *)
Theorem breakdown_missing_without_label (df_detail : list RawPost) (y : Z) :
  exists rows,
    ranking_table sort_values df_detail (df_long_of df_detail) y = Ok rows
    /\ (forall c p,
          In {| Name := c; LYear := y; Posts := p |} (df_long_of df_detail) ->
          exists row, In row rows /\ Country row = c /\ TOTAL_POSTS row = p)
    /\ (forall row, In row rows ->
          ((exists r, In r df_detail /\ COUNTRY r = Some (Country row)
                      /\ Year r = Some y /\ POST_TYPE_TITLE r <> None) ->
           Embassies row
           = Some (labelled df_detail (Country row) y "Embassy"
                   + labelled df_detail (Country row) y "High Commission")
           /\ Consulates row
              = Some (labelled df_detail (Country row) y "Consulate"
                      + labelled df_detail (Country row) y "Consulate General")
           /\ ((forall r l, In r df_detail -> COUNTRY r = Some (Country row) ->
                            Year r = Some y -> POST_TYPE_TITLE r = Some l ->
                            ~ In l recognized) ->
               Embassies row = Some 0 /\ Consulates row = Some 0))
          /\ ((forall r, In r df_detail -> COUNTRY r = Some (Country row) ->
                         Year r = Some y -> POST_TYPE_TITLE r = None) ->
              Embassies row = None /\ Consulates row = None)).
Proof.
  destruct (ranking_table_rows df_detail y) as [rows [Hok Hperm]].
  exists rows. split; [exact Hok|]. split.
  - intros c p. now apply ranking_table_covers.
  - intros row Hrow.
    apply (Permutation_in _ (Permutation_sym Hperm)) in Hrow.
    apply in_map_iff in Hrow. destruct Hrow as [[c m] [<- Hm]].
    cbn [summary_row Embassies Consulates Country fst snd]. unfold shown. split.
    + intros Hex. apply titled_true in Hex. rewrite Hex.
      split; [reflexivity|]. split; [reflexivity|].
      intros Hnone.
      rewrite !labelled_none; [split; reflexivity| | | |];
        intros r Hr Hc Hy E; apply (Hnone r _ Hr Hc Hy E);
        unfold recognized; simpl; tauto.
    + intros Hall.
      destruct (titled df_detail c y) eqn:T; [|split; reflexivity].
      apply titled_true in T. destruct T as [r [Hr [Hc [Hy Hn]]]].
      exfalso. apply Hn. now apply Hall.
Qed.

Hypothesis sort_values_ordered :
  forall (A : Type) (key : A -> Z) (ascending : bool) (l : list A),
    ordered_by key ascending (sort_values A key ascending l).

(** C7 -- repeated ranks.  Building the table of a year never raises an
    error.  Its rows are in ascending order of rank, the rows whose
    rank cell is empty last; there is one row per country of the year's
    totals and no other; a row carries the rank of the country's first
    raw row of the year.  So countries that share a rank all keep their
    rows, next to each other. *)
Theorem repeated_ranks_kept (df_detail : list RawPost) (y : Z) :
  exists rows,
    ranking_table sort_values df_detail (df_long_of df_detail) y = Ok rows
    /\ ordered_na_last Rank true rows
    /\ NoDup (map Country rows)
    /\ (forall c p,
          In {| Name := c; LYear := y; Posts := p |} (df_long_of df_detail) ->
          exists row, In row rows /\ Country row = c /\ TOTAL_POSTS row = p)
    /\ (forall row, In row rows ->
          exists m, In m df_detail /\ Year m = Some y
                    /\ COUNTRY m = Some (Country row)
                    /\ OVERALL_RANK m = Rank row)
    /\ (forall m c, In m (drop_duplicates [] (detail_of_year df_detail y)) ->
          COUNTRY m = Some c ->
          exists row, In row rows /\ Country row = c
                      /\ Rank row = OVERALL_RANK m).
Proof.
  destruct (ranking_table_rows df_detail y) as [rows [Hok Hperm]].
  exists rows. split; [exact Hok|].
  split; [|split; [|split; [|split]]].
  - rewrite ranking_table_spec in Hok. inversion Hok; subst.
    now apply sort_values_na_last_ordered.
  - eapply Permutation_NoDup; [apply (Permutation_map Country Hperm)|].
    rewrite map_map. cbn [summary_row Country].
    apply named_meta_NoDup.
  - intros c p. now apply ranking_table_covers.
  - intros row Hrow.
    apply (Permutation_in _ (Permutation_sym Hperm)) in Hrow.
    apply in_map_iff in Hrow. destruct Hrow as [[c m] [<- Hm]].
    apply meta_origin in Hm. exists m. cbn [summary_row Country Rank fst snd].
    tauto.
  - intros m c Hm Hc. exists (summary_row df_detail y (c, m)).
    split; [|split; reflexivity].
    eapply Permutation_in; [exact Hperm|]. apply in_map.
    apply with_key_In. tauto.
Qed.

End RankingTableFacts.

(** * The pipeline on the sample sheets *)

Example long_form_two_countries :
  df_long_of two_countries
  = [{| Name := "A"; LYear := 2020; Posts := 5 |};
     {| Name := "A"; LYear := 2021; Posts := 3 |};
     {| Name := "B"; LYear := 2020; Posts := 2 |};
     {| Name := "B"; LYear := 2021; Posts := 6 |}].
Proof. vm_compute. reflexivity. Qed.

Example rank_changes_two_countries :
  rank_change_table (df_long_of two_countries) 2020 2021
  = Ok [{| cr_Name := "A"; Rank_start := 1; Rank_end := 2; Rank_Change := -1 |};
        {| cr_Name := "B"; Rank_start := 2; Rank_end := 1; Rank_Change := 1 |}].
Proof. vm_compute. reflexivity. Qed.

Example most_improved_two_countries :
  calculate_rank_analysis insertion_sort_values (df_long_of two_countries)
    2020 2021
  = Ok ([{| cr_Name := "B"; Rank_start := 2; Rank_end := 1; Rank_Change := 1 |};
         {| cr_Name := "A"; Rank_start := 1; Rank_end := 2; Rank_Change := -1 |}],
        [{| cr_Name := "A"; Rank_start := 1; Rank_end := 2; Rank_Change := -1 |};
         {| cr_Name := "B"; Rank_start := 2; Rank_end := 1; Rank_Change := 1 |}]).
Proof. vm_compute. reflexivity. Qed.

Example ranks_with_ties : rank_desc_min [5; 3; 5; 7; 1; 3] = [2; 4; 2; 1; 6; 4].
Proof. vm_compute. reflexivity. Qed.

Example ten_countries_long_form :
  List.length (year_rows (df_long_of ten_countries) 2020) = 10%nat.
Proof. vm_compute. reflexivity. Qed.

Example same_year_ten_countries :
  calculate_rank_analysis insertion_sort_values (df_long_of ten_countries)
    2020 2020
  = Raise ValueError.
Proof. vm_compute. reflexivity. Qed.

Example tab4_trend_selected (df_long : list LongRow) (c : string)
  (selected : list string) :
  tab4_trend df_long (c :: selected)
  = Some (trend_pivot df_long (c :: selected) [2019]).
Proof. reflexivity. Qed.

Example ranking_table_shared_rank :
  ranking_table insertion_sort_values shared_rank (df_long_of shared_rank) 2020
  = Ok [{| Rank := Some 1; Country := "E";
           Population := Some (10 # 1); Gdp := Some (25 # 1);
           TOTAL_POSTS := 1; Embassies := Some 1; Consulates := Some 0 |};
        {| Rank := Some 2; Country := "D";
           Population := Some (10 # 1); Gdp := Some (25 # 1);
           TOTAL_POSTS := 1; Embassies := Some 0; Consulates := Some 0 |};
        {| Rank := Some 2; Country := "C";
           Population := Some (10 # 1); Gdp := Some (25 # 1);
           TOTAL_POSTS := 3; Embassies := Some 1; Consulates := Some 1 |}].
Proof. vm_compute. reflexivity. Qed.

(** The sheets with empty cells. *)

(** The row without a country is in no group: four raw rows, three
    posts. *)
Example long_form_no_country :
  df_long_of no_country
  = [{| Name := "A"; LYear := 2020; Posts := 2 |};
     {| Name := "B"; LYear := 2020; Posts := 1 |}]
  /\ List.length no_country = 4%nat.
Proof. split; vm_compute; reflexivity. Qed.

(** The row without a year is in no group, and the years have become
    floats: the wide pivot labels them 2020.0 and 2021.0. *)
Example wide_pivot_no_year :
  df_long_of no_year
  = [{| Name := "A"; LYear := 2020; Posts := 1 |};
     {| Name := "B"; LYear := 2021; Posts := 1 |}]
  /\ df_wide_of (Year_dtype no_year) (df_long_of no_year)
     = [("A", [("2020.0", Some (1 # 1)); ("2021.0", None)]);
        ("B", [("2020.0", None); ("2021.0", Some (1 # 1))])].
Proof. split; vm_compute; reflexivity. Qed.

(** Country B, whose one post has no post type, is shown with missing
    Embassies and Consulates. *)
Example ranking_table_no_label :
  ranking_table insertion_sort_values no_label (df_long_of no_label) 2020
  = Ok [{| Rank := Some 1; Country := "A";
           Population := Some (10 # 1); Gdp := Some (25 # 1);
           TOTAL_POSTS := 1; Embassies := Some 1; Consulates := Some 0 |};
        {| Rank := Some 2; Country := "B";
           Population := Some (10 # 1); Gdp := Some (25 # 1);
           TOTAL_POSTS := 1; Embassies := None; Consulates := None |}].
Proof. vm_compute. reflexivity. Qed.

(** The post without a host country is in no count: three posts, a
    footprint of two. *)
Example footprint_no_host :
  df_long_of no_host = [{| Name := "A"; LYear := 2020; Posts := 3 |}]
  /\ post_locations_of insertion_sort_values no_host 2020 "A" = [("X", 2)].
Proof. split; vm_compute; reflexivity. Qed.

(** A sheet without the column POST TYPE TITLE stops the ranking tab,
    one without the column POST COUNTRY the map tab. *)
Example unchecked_columns :
  tab2_ranking_table insertion_sort_values
    {| sheet_columns := ["COUNTRY"; "Year"; "OVERALL RANK"];
       sheet_rows := two_countries |} 2020
  = Raise KeyError
  /\ tab3_post_locations insertion_sort_values
       {| sheet_columns := ["COUNTRY"; "Year"; "OVERALL RANK"];
          sheet_rows := two_countries |} 2020 "A"
     = Raise KeyError.
Proof. split; vm_compute; reflexivity. Qed.

Example trend_four_years :
  map fst (trend_pivot (df_long_of four_years) ["A"; "B"] [2019])
  = [2018; 2020; 2021]
  /\ tab4_trend (df_long_of four_years) ["A"; "B"]
     = Some [(2018, [("A", Some (1 # 1)); ("B", Some (1 # 1))]);
             (2020, [("A", Some (1 # 1)); ("B", None)]);
             (2021, [("A", Some (1 # 1)); ("B", Some (1 # 1))])].
Proof. split; vm_compute; reflexivity. Qed.

Example footprint_two_countries :
  post_locations_of insertion_sort_values two_countries 2020 "A"
  = [("X", 3); ("Z", 1); ("Y", 1)].
Proof. vm_compute. reflexivity. Qed.

(** * The theorems at the sample sheets *)

(** Grouping completeness at country A, year 2020 of [two_countries]. *)
Lemma grouping_completeness_witness :
  Posts {| Name := "A"; LYear := 2020; Posts := 5 |}
  = Z.of_nat (List.length (filter (same_pair "A" 2020) two_countries)).
Proof.
  apply (proj1 (proj2 (proj2 (grouping_completeness two_countries)))
           {| Name := "A"; LYear := 2020; Posts := 5 |}).
  vm_compute. left. reflexivity.
Defined.

(** Rank monotonicity at countries A and B, year 2020 of
    [two_countries]. *)
Lemma rank_monotone_witness :
  let rows := year_rows (df_long_of two_countries) 2020 in
  In ({| Name := "A"; LYear := 2020; Posts := 5 |}, 1) (ranked rows)
  /\ In ({| Name := "B"; LYear := 2020; Posts := 2 |}, 2) (ranked rows)
  /\ 1 <= 2.
Proof.
  intros rows.
  assert (Ha : In ({| Name := "A"; LYear := 2020; Posts := 5 |}, 1) (ranked rows))
    by (vm_compute; left; reflexivity).
  assert (Hb : In ({| Name := "B"; LYear := 2020; Posts := 2 |}, 2) (ranked rows))
    by (vm_compute; right; left; reflexivity).
  split; [exact Ha|]. split; [exact Hb|].
  apply (proj2 (rank_monotone (df_long_of two_countries) 2020) _ _ _ _ Ha Hb).
  cbn [Posts]. lia.
Defined.

(** Rank-change symmetry at country A, years 2020 and 2021 of
    [two_countries]. *)
Lemma rank_change_symmetry_witness :
  exists c,
    rank_change (df_long_of two_countries) 2020 2021 "A" = Some c
    /\ rank_change (df_long_of two_countries) 2021 2020 "A" = Some (- c).
Proof.
  apply (proj2 (rank_change_symmetry two_countries 2020 2021 "A")).
  - discriminate.
  - exists 5. vm_compute. left. reflexivity.
  - exists 3. vm_compute. right. left. reflexivity.
Defined.

(** Pivot symmetry at country A, year 2020 of [two_countries]. *)
Lemma pivot_symmetry_witness :
  cell_at String.eqb String.eqb
          (df_wide_of (Year_dtype two_countries) (df_long_of two_countries))
          "A" (str_label (Year_dtype two_countries) 2020)
  = Some (Some (5 # 1)).
Proof.
  apply (proj1 (pivot_symmetry two_countries "A" 2020) 5).
  vm_compute. left. reflexivity.
Defined.

(** The breakdown at the year 2020 of [no_label]: country B, whose one
    post has no post type, has a row with both cells missing. *)
Lemma breakdown_missing_without_label_witness :
  exists rows row,
    ranking_table insertion_sort_values no_label (df_long_of no_label) 2020
    = Ok rows
    /\ In row rows /\ Country row = "B" /\ TOTAL_POSTS row = 1
    /\ Embassies row = None /\ Consulates row = None.
Proof.
  destruct (breakdown_missing_without_label insertion_sort_values
              insertion_sort_values_perm no_label 2020) as [rows [Hok [Hall Hrows]]].
  destruct (Hall "B" 1) as [row [Hrow [Hc Ht]]];
    [vm_compute; right; left; reflexivity|].
  exists rows, row. split; [exact Hok|]. split; [exact Hrow|].
  split; [exact Hc|]. split; [exact Ht|].
  apply (proj2 (Hrows row Hrow)). rewrite Hc.
  intros r Hr HB Hy. unfold no_label in Hr.
  destruct Hr as [<-|[<-|[]]]; [discriminate HB|reflexivity].
Defined.

(** Repeated ranks at the year 2020 of [shared_rank], countries C and D
    sharing the rank 2. *)
Lemma repeated_ranks_kept_witness :
  exists rows,
    ranking_table insertion_sort_values shared_rank (df_long_of shared_rank) 2020
    = Ok rows
    /\ ordered_na_last Rank true rows
    /\ NoDup (map Country rows)
    /\ (forall c p,
          In {| Name := c; LYear := 2020; Posts := p |} (df_long_of shared_rank) ->
          exists row, In row rows /\ Country row = c /\ TOTAL_POSTS row = p)
    /\ (forall row, In row rows ->
          exists m, In m shared_rank /\ Year m = Some 2020
                    /\ COUNTRY m = Some (Country row)
                    /\ OVERALL_RANK m = Rank row)
    /\ (forall m c, In m (drop_duplicates [] (detail_of_year shared_rank 2020)) ->
          COUNTRY m = Some c ->
          exists row, In row rows /\ Country row = c
                      /\ Rank row = OVERALL_RANK m).
Proof.
  exact (repeated_ranks_kept insertion_sort_values insertion_sort_values_perm
           insertion_sort_values_ordered shared_rank 2020).
Defined.

(** The required columns at a sheet without the column OVERALL RANK. *)
Lemma required_columns_checked_witness :
  load_and_prepare_data
    {| sheet_columns := ["COUNTRY"; "Year"; "POST TYPE TITLE"];
       sheet_rows := two_countries |}
  = Raise StreamlitStop.
Proof.
  apply (proj2 (proj1 (required_columns_checked
                         {| sheet_columns := ["COUNTRY"; "Year"; "POST TYPE TITLE"];
                            sheet_rows := two_countries |}))).
  exists "OVERALL RANK". split.
  - right. right. left. reflexivity.
  - cbn [sheet_columns]. intros [H|[H|[H|[]]]]; discriminate H.
Defined.

(** The trend query at country A, year 2020 of [four_years], the year
    2019 excluded. *)
Lemma trend_query_filters_witness :
  cell_at Z.eqb String.eqb
          (trend_pivot (df_long_of four_years) ["A"; "B"] [2019]) 2020 "A"
  = Some (Some (1 # 1)).
Proof.
  apply (proj1 (proj2 (proj2 (trend_query_filters four_years ["A"; "B"] [2019])))
           2020 "A" 1).
  - intros [H|[]]. discriminate H.
  - left. reflexivity.
  - vm_compute. right. right. left. reflexivity.
Defined.

(** The footprint at country A, year 2020 of [no_host]: two of the three
    posts are counted. *)
Lemma footprint_partition_witness :
  sumZ (map snd (post_locations_of insertion_sort_values no_host 2020 "A")) <= 3.
Proof.
  apply (proj1 (proj2 (footprint_partition insertion_sort_values
                         insertion_sort_values_perm no_host "A" 2020)) 3).
  vm_compute. left. reflexivity.
Defined.

(** The long form of [no_host] has three posts for country A in 2020;
    the counts of the footprint do not add up to them. *)
Lemma footprint_partition_counterexample :
  In {| Name := "A"; LYear := 2020; Posts := 3 |} (df_long_of no_host)
  /\ sumZ (map snd (post_locations_of insertion_sort_values no_host 2020 "A"))
     <> 3.
Proof.
  split.
  - vm_compute. left. reflexivity.
  - vm_compute. discriminate.
Qed.

(** * Further facts *)

(** ** Orders on labels and keys *)

Lemma string_le_trans (a b c : string) :
  string_le a b -> string_le b c -> string_le a c.
Proof.
  unfold string_le, String.leb.
  destruct (String.compare a b) eqn:Eab; try discriminate;
    destruct (String.compare b c) eqn:Ebc; try discriminate; intros _ _.
  - apply OrderedTypeEx.String_as_OT.cmp_eq in Eab. subst. now rewrite Ebc.
  - apply OrderedTypeEx.String_as_OT.cmp_eq in Eab. subst. now rewrite Ebc.
  - apply OrderedTypeEx.String_as_OT.cmp_eq in Ebc. subst. now rewrite Eab.
  - apply OrderedTypeEx.String_as_OT.cmp_lt in Eab, Ebc.
    pose proof (OrderedTypeEx.String_as_OT.lt_trans _ _ _ Eab Ebc) as H.
    apply OrderedTypeEx.String_as_OT.cmp_lt in H.
    unfold OrderedTypeEx.String_as_OT.cmp in H. now rewrite H.
Qed.

Lemma string_le_total (a b : string) : String.leb a b = false -> string_le b a.
Proof.
  intros H. destruct (String.leb_total a b) as [H'|H']; [congruence|exact H'].
Qed.

Lemma string_le_antisym (a b : string) : string_le a b -> string_le b a -> a = b.
Proof. apply String.leb_antisym. Qed.

Lemma string_compare_lt_trans (a b c : string) :
  String.compare a b = Lt -> String.compare b c = Lt -> String.compare a c = Lt.
Proof.
  intros Eab Ebc.
  apply OrderedTypeEx.String_as_OT.cmp_lt in Eab, Ebc.
  pose proof (OrderedTypeEx.String_as_OT.lt_trans _ _ _ Eab Ebc) as H.
  now apply OrderedTypeEx.String_as_OT.cmp_lt in H.
Qed.

Lemma key_le_trans (a b c : string * Z) : key_le a b -> key_le b c -> key_le a c.
Proof.
  destruct a as [ca ya], b as [cb yb], c as [cc yc].
  unfold key_le, key_leb. cbn [fst snd].
  destruct (String.compare ca cb) eqn:Eab; try discriminate;
    destruct (String.compare cb cc) eqn:Ebc; try discriminate.
  - apply String.compare_eq_iff in Eab, Ebc. subst.
    match goal with
    | |- context [String.compare ?x ?x] =>
        replace (String.compare x x) with Eq
          by (symmetry; now apply OrderedTypeEx.String_as_OT.cmp_eq)
    end.
    intros H1 H2. apply Z.leb_le in H1, H2. apply Z.leb_le. lia.
  - apply String.compare_eq_iff in Eab. subst. now rewrite Ebc.
  - apply String.compare_eq_iff in Ebc. subst. now rewrite Eab.
  - now rewrite (string_compare_lt_trans _ _ _ Eab Ebc).
Qed.

Lemma key_le_total (a b : string * Z) : key_leb a b = false -> key_le b a.
Proof.
  destruct a as [ca ya], b as [cb yb].
  unfold key_le, key_leb. cbn [fst snd].
  rewrite (String.compare_antisym cb ca).
  destruct (String.compare ca cb) eqn:E; cbn [CompOpp]; try discriminate.
  - intros H. apply Z.leb_gt in H. apply Z.leb_le. lia.
  - reflexivity.
Qed.

Lemma StronglySorted_map {A B : Type} (f : A -> B) (R : B -> B -> Prop)
  (l : list A) :
  StronglySorted (fun a b => R (f a) (f b)) l -> StronglySorted R (map f l).
Proof.
  induction 1 as [|a l Hs IH Ha]; cbn [map]; constructor; [exact IH|].
  apply Forall_map. exact Ha.
Qed.

Lemma StronglySorted_strict {A : Type} (R : A -> A -> Prop) (l : list A) :
  StronglySorted R l -> NoDup l ->
  StronglySorted (fun a b => R a b /\ a <> b) l.
Proof.
  induction 1 as [|a l Hs IH Ha]; intros Hnd; constructor.
  - apply IH. now inversion Hnd.
  - inversion Hnd as [|? ? Hnotin _]; subst.
    rewrite Forall_forall in *. intros b Hb. split; [now apply Ha|].
    intros ->. contradiction.
Qed.

Lemma unique_NoDup {A : Type} (eqb : A -> A -> bool)
  (eqb_spec : forall a b, eqb a b = true <-> a = b) (l : list A) :
  NoDup (unique eqb l).
Proof.
  induction l as [|x l IH]; cbn [unique]; [constructor|].
  destruct (existsb (eqb x) l) eqn:E; [exact IH|].
  constructor; [|exact IH]. intros H.
  apply (proj1 (unique_In eqb eqb_spec l x)) in H.
  assert (existsb (eqb x) l = true); [|congruence].
  apply existsb_exists. exists x. split; [exact H|now apply eqb_spec].
Qed.

(** The sorted distinct values of a column. *)
Lemma sorted_unique_spec {A : Type} (eqb leb : A -> A -> bool)
  (R : A -> A -> Prop)
  (eqb_spec : forall a b, eqb a b = true <-> a = b)
  (leb_true : forall a b, leb a b = true -> R a b)
  (leb_false : forall a b, leb a b = false -> R b a)
  (R_trans : forall a b c, R a b -> R b c -> R a c)
  (l : list A) :
  StronglySorted (fun a b => R a b /\ a <> b) (sort_by leb (unique eqb l))
  /\ forall x, In x (sort_by leb (unique eqb l)) <-> In x l.
Proof.
  split.
  - apply StronglySorted_strict.
    + now apply (sort_by_sorted leb R).
    + eapply Permutation_NoDup; [apply sort_by_perm|].
      now apply unique_NoDup.
  - intros x. rewrite sort_by_In. now apply unique_In.
Qed.

Lemma years_sorted_spec (l : list Z) :
  StronglySorted Z.lt (sort_by Z.leb (unique Z.eqb l))
  /\ forall y, In y (sort_by Z.leb (unique Z.eqb l)) <-> In y l.
Proof.
  destruct (sorted_unique_spec Z.eqb Z.leb Z.le Z.eqb_eq) with (l := l)
    as [Hs Hin].
  - intros a b H. now apply Z.leb_le.
  - intros a b H. apply Z.leb_gt in H. lia.
  - intros a b c. lia.
  - split; [|exact Hin].
    eapply StronglySorted_ind with (P := StronglySorted Z.lt) in Hs; auto.
    + constructor.
    + intros a l' _ IH Ha. constructor; [exact IH|].
      eapply Forall_impl; [|exact Ha]. cbv beta. intros; lia.
Qed.

Lemma names_sorted_spec (l : list string) :
  StronglySorted (fun a b => string_le a b /\ a <> b)
                 (sort_by String.leb (unique String.eqb l))
  /\ forall x, In x (sort_by String.leb (unique String.eqb l)) <-> In x l.
Proof.
  apply (sorted_unique_spec String.eqb String.leb string_le String.eqb_eq).
  - auto.
  - apply string_le_total.
  - apply string_le_trans.
Qed.

(** ** The order and the shape of the tables of [load_and_prepare_data] *)

Lemma long_key_In (df_detail : list RawPost) (c : string) (y : Z) :
  In (c, y) (map long_key (df_long_of df_detail))
  <-> exists r, In r df_detail /\ COUNTRY r = Some c /\ Year r = Some y.
Proof.
  rewrite long_keys. split.
  - intros H. apply in_map_iff in H. destruct H as [g [E H]].
    apply groupby_In in H.
    assert (Hk : In (c, y) (map fst (keyed df_detail))).
    { apply (collect_keys key_eqb key_eqb_spec). rewrite <- E. now apply in_map. }
    apply in_map_iff in Hk. destruct Hk as [[k r] [Ek Hr]].
    cbn [fst] in Ek. subst k. apply with_key_In in Hr. destruct Hr as [Hr Hk].
    apply country_year_Some in Hk. now exists r.
  - intros [r [Hr [Hc Hy]]].
    destruct (long_row_exists df_detail r c y Hr Hc Hy) as [row [Hrow [Hn Hl]]].
    rewrite <- long_keys. apply in_map_iff. exists row.
    split; [|exact Hrow]. unfold long_key. congruence.
Qed.

Lemma long_names_In (df_detail : list RawPost) (c : string) :
  In c (map Name (df_long_of df_detail))
  <-> exists r, In r df_detail /\ COUNTRY r = Some c /\ Year r <> None.
Proof.
  split.
  - intros H. apply in_map_iff in H. destruct H as [row [E H]].
    assert (Hk : In (c, LYear row) (map long_key (df_long_of df_detail))).
    { apply in_map_iff. exists row. split; [|exact H]. unfold long_key. now rewrite E. }
    apply long_key_In in Hk. destruct Hk as [r [Hr [Hc Hy]]]. exists r.
    split; [exact Hr|]. split; [exact Hc|]. now rewrite Hy.
  - intros [r [Hr [Hc Hy]]]. destruct (Year r) as [y|] eqn:Ey; [|congruence].
    destruct (long_row_exists df_detail r c y Hr Hc Ey) as [row [Hrow [Hn _]]].
    apply in_map_iff. exists row. split; [congruence|exact Hrow].
Qed.

Lemma long_years_In (df_detail : list RawPost) (y : Z) :
  In y (map LYear (df_long_of df_detail))
  <-> exists r, In r df_detail /\ Year r = Some y /\ COUNTRY r <> None.
Proof.
  split.
  - intros H. apply in_map_iff in H. destruct H as [row [E H]].
    assert (Hk : In (Name row, y) (map long_key (df_long_of df_detail))).
    { apply in_map_iff. exists row. split; [|exact H]. unfold long_key. now rewrite E. }
    apply long_key_In in Hk. destruct Hk as [r [Hr [Hc Hy]]]. exists r.
    split; [exact Hr|]. split; [exact Hy|]. now rewrite Hc.
  - intros [r [Hr [Hy Hc]]]. destruct (COUNTRY r) as [c|] eqn:Ec; [|congruence].
    destruct (long_row_exists df_detail r c y Hr Ec Hy) as [row [Hrow [_ Hl]]].
    apply in_map_iff. exists row. split; [congruence|exact Hrow].
Qed.

(** X1 -- the order of the long form.  [groupby] lists its groups by
    key: the rows of the long form are in strictly ascending order of
    country and, within a country, of year. *)
Theorem long_form_sorted (df_detail : list RawPost) :
  StronglySorted (fun a b => key_le a b /\ a <> b)
                 (map long_key (df_long_of df_detail)).
Proof.
  apply StronglySorted_strict; [|apply long_keys_NoDup].
  rewrite long_keys. apply StronglySorted_map. unfold groupby.
  apply (sort_by_sorted _ (fun g h : (string * Z) * list RawPost =>
                             key_le (fst g) (fst h))).
  - intros a b H. exact H.
  - intros a b H. now apply key_le_total.
  - intros a b c. apply key_le_trans.
Qed.

Section PivotShape.
Context {I C : Type}.
Context (ieqb ileb : I -> I -> bool) (ceqb cleb : C -> C -> bool).

Lemma pivot_row_labels (rows : list ((I * C) * Z)) :
  map fst (pivot_table ieqb ileb ceqb cleb rows)
  = sort_by ileb (unique ieqb (map (fun r => fst (fst r)) rows)).
Proof. unfold pivot_table. rewrite map_map. cbn [fst]. apply map_id. Qed.

Lemma pivot_column_labels (rows : list ((I * C) * Z))
  (row : I * list (C * option Q)) :
  In row (pivot_table ieqb ileb ceqb cleb rows) ->
  map fst (snd row)
  = sort_by cleb (unique ceqb (map (fun r => snd (fst r)) rows)).
Proof.
  unfold pivot_table. intros H. apply in_map_iff in H.
  destruct H as [i [E _]]. subst row. cbn [snd].
  rewrite map_map. cbn [fst]. apply map_id.
Qed.

End PivotShape.

(** X2 -- the shape of the wide pivot.  It has one row per country of
    the long form, the countries of the raw rows that have a country
    and a year, in strictly ascending order of name.  Every row has the
    same columns: the years of the long form, the years of the raw rows
    that have a year and a country, in strictly ascending order, each
    labelled with the [str] of the year as the column Year holds it. *)
Theorem wide_pivot_shape (df_detail : list RawPost) :
  let df_wide := df_wide_of (Year_dtype df_detail) (df_long_of df_detail) in
  StronglySorted (fun a b => string_le a b /\ a <> b) (map fst df_wide)
  /\ (forall c, In c (map fst df_wide)
                <-> exists r, In r df_detail /\ COUNTRY r = Some c
                              /\ Year r <> None)
  /\ exists years,
       StronglySorted Z.lt years
       /\ (forall y, In y years
                     <-> exists r, In r df_detail /\ Year r = Some y
                                   /\ COUNTRY r <> None)
       /\ (forall row, In row df_wide ->
             map fst (snd row) = map (str_label (Year_dtype df_detail)) years)
       /\ ((forall r, In r df_detail -> Year r <> None) ->
           forall row, In row df_wide -> map fst (snd row) = map str years).
Proof.
  intros df_wide. subst df_wide. unfold df_wide_of.
  set (d := Year_dtype df_detail).
  set (cells := map (fun r => (Name r, LYear r, Posts r)) (df_long_of df_detail)).
  assert (Hnames : map (fun r : string * Z * Z => fst (fst r)) cells
                   = map Name (df_long_of df_detail))
    by (unfold cells; now rewrite map_map).
  assert (Hyears : map (fun r : string * Z * Z => snd (fst r)) cells
                   = map LYear (df_long_of df_detail))
    by (unfold cells; now rewrite map_map).
  rewrite map_map. cbn [fst].
  change (map (fun x : string * list (Z * option Q) => fst x))
    with (map (@fst string (list (Z * option Q)))).
  rewrite pivot_row_labels, Hnames.
  destruct (names_sorted_spec (map Name (df_long_of df_detail))) as [Hs Hin].
  split; [exact Hs|]. split.
  - intros c. rewrite Hin. apply long_names_In.
  - exists (sort_by Z.leb (unique Z.eqb (map LYear (df_long_of df_detail)))).
    destruct (years_sorted_spec (map LYear (df_long_of df_detail))) as [Hys Hyin].
    assert (Hlabels : forall row,
              In row (map (fun row : string * list (Z * option Q) =>
                             (fst row,
                              map (fun cell => (str_label d (fst cell), snd cell))
                                  (snd row)))
                          (pivot_table String.eqb String.leb Z.eqb Z.leb cells)) ->
              map fst (snd row)
              = map (str_label d)
                    (sort_by Z.leb (unique Z.eqb (map LYear (df_long_of df_detail))))).
    { intros row Hrow. apply in_map_iff in Hrow.
      destruct Hrow as [prow [E Hprow]]. subst row. cbn [snd].
      rewrite map_map. cbn [fst].
      rewrite <- (map_map fst (str_label d)).
      now rewrite (pivot_column_labels _ _ _ _ _ _ Hprow), Hyears. }
    split; [exact Hys|]. split; [|split].
    + intros y. rewrite Hyin. apply long_years_In.
    + exact Hlabels.
    + intros Hfilled row Hrow. rewrite (Hlabels row Hrow).
      apply map_ext. intros y. now apply Year_dtype_filled.
Qed.

(** X3 -- the shape of the trend pivot.  Its rows are the years, in
    strictly ascending order, in which a selected country has a row
    that is not excluded; every row has the same columns, the selected
    countries that have such a row, in strictly ascending order of
    name. *)
Theorem trend_pivot_shape (df_long : list LongRow)
  (selected_countries_comp : list string) (excluded : list Z) :
  let trend := trend_pivot df_long selected_countries_comp excluded in
  StronglySorted Z.lt (map fst trend)
  /\ (forall y, In y (map fst trend)
                <-> exists r, In r df_long /\ LYear r = y
                              /\ In (Name r) selected_countries_comp
                              /\ ~ In y excluded)
  /\ exists countries,
       StronglySorted (fun a b => string_le a b /\ a <> b) countries
       /\ (forall c, In c countries
                     <-> exists r, In r df_long /\ Name r = c
                                   /\ In c selected_countries_comp
                                   /\ ~ In (LYear r) excluded)
       /\ forall row, In row trend -> map fst (snd row) = countries.
Proof.
  intros trend. subst trend. unfold trend_pivot.
  fold (trend_rows df_long selected_countries_comp excluded).
  set (rows := trend_rows df_long selected_countries_comp excluded).
  set (cells := map (fun r => (LYear r, Name r, Posts r)) rows).
  assert (Hyears : map (fun r : Z * string * Z => fst (fst r)) cells
                   = map LYear rows) by (unfold cells; now rewrite map_map).
  assert (Hnames : map (fun r : Z * string * Z => snd (fst r)) cells
                   = map Name rows) by (unfold cells; now rewrite map_map).
  rewrite pivot_row_labels, Hyears.
  destruct (years_sorted_spec (map LYear rows)) as [Hys Hyin].
  split; [exact Hys|]. split.
  - intros y. rewrite Hyin, in_map_iff. split.
    + intros [r [E Hr]]. apply trend_rows_In in Hr. exists r. subst y. tauto.
    + intros [r [Hr [E [Hs He]]]]. exists r. split; [exact E|].
      apply trend_rows_In. subst y. tauto.
  - exists (sort_by String.leb (unique String.eqb (map Name rows))).
    destruct (names_sorted_spec (map Name rows)) as [Hns Hnin].
    split; [exact Hns|]. split.
    + intros c. rewrite Hnin, in_map_iff. split.
      * intros [r [E Hr]]. apply trend_rows_In in Hr. exists r. subst c. tauto.
      * intros [r [Hr [E [Hs He]]]]. exists r. split; [exact E|].
        apply trend_rows_In. subst c. tauto.
    + intros row Hrow.
      now rewrite (pivot_column_labels _ _ _ _ _ _ Hrow), Hnames.
Qed.

(** ** Ranks within a year *)

Lemma count_greater_below_length (v : Z) (l : list Z) :
  In v l -> count_greater v l < Z.of_nat (List.length l).
Proof.
  induction l as [|x l IH]; [contradiction|].
  rewrite count_greater_cons. cbn [List.length]. rewrite Nat2Z.inj_succ.
  intros [->|Hin].
  - rewrite Z.ltb_irrefl.
    assert (count_greater v l <= Z.of_nat (List.length l)); [|lia].
    unfold count_greater. apply inj_le, filter_length_le.
  - specialize (IH Hin). destruct (v <? x); lia.
Qed.

Lemma greatest_exists (l : list Z) :
  l <> [] -> exists v, In v l /\ Forall (fun x => x <= v) l.
Proof.
  induction l as [|x l IH]; [congruence|]. intros _.
  destruct l as [|y l'].
  - exists x. split; [now left|]. repeat constructor. lia.
  - destruct IH as [v [Hin Hall]]; [discriminate|].
    destruct (Z_le_gt_dec x v) as [Hle|Hgt].
    + exists v. split; [now right|]. now constructor.
    + exists x. split; [now left|]. constructor; [lia|].
      eapply Forall_impl; [|exact Hall]. cbv beta. intros; lia.
Qed.

Lemma ranked_map (rows : list LongRow) :
  ranked rows
  = map (fun r => (r, 1 + count_greater (Posts r) (map Posts rows))) rows.
Proof.
  unfold ranked. rewrite rank_desc_min_spec, map_map.
  rewrite <- (map_id rows) at 1. apply combine_map_map.
Qed.

(** X4 -- competition ranking.  Within a year every rank lies between 1
    and the number of countries of the year; the countries with a
    strictly smaller rank than a country of rank [r] are exactly [r - 1]
    many, so the ranks after a tie skip; and when the year has a
    country, some country has rank 1. *)
Theorem rank_competition (df : list LongRow) (year : Z) :
  let rows := year_rows df year in
  (forall a ra, In (a, ra) (ranked rows) ->
      1 <= ra <= Z.of_nat (List.length rows)
      /\ Z.of_nat (List.length (filter (fun x => snd x <? ra) (ranked rows)))
         = ra - 1)
  /\ (rows <> [] -> exists a, In (a, 1) (ranked rows)).
Proof.
  intros rows. split.
  - intros a ra Ha. apply ranked_In in Ha. destruct Ha as [Ha ->].
    assert (Hin : In (Posts a) (map Posts rows)) by now apply in_map.
    split.
    + pose proof (count_greater_nonneg (Posts a) (map Posts rows)).
      pose proof (count_greater_below_length _ _ Hin) as Hlt.
      rewrite length_map in Hlt. lia.
    + rewrite ranked_map.
      replace (1 + count_greater (Posts a) (map Posts rows) - 1)
        with (count_greater (Posts a) (map Posts rows)) by lia.
      unfold count_greater at 3.
      set (posts := map Posts rows) in *.
      assert (Hsub : forall l, (forall r, In r l -> In (Posts r) posts) ->
                List.length (filter (fun x : LongRow * Z =>
                                       snd x <? 1 + count_greater (Posts a) posts)
                               (map (fun r => (r, 1 + count_greater (Posts r) posts)) l))
                = List.length (filter (fun x => Posts a <? x) (map Posts l))).
      { induction l as [|r l IH]; intros Hl; [reflexivity|].
        cbn [map filter snd].
        assert (Hr : In (Posts r) posts) by (apply Hl; now left).
        assert (E : (1 + count_greater (Posts r) posts
                     <? 1 + count_greater (Posts a) posts)
                    = (Posts a <? Posts r)).
        { destruct (Z.ltb_spec (Posts a) (Posts r)) as [Hlt|Hge].
          - apply Z.ltb_lt.
            pose proof (count_greater_strict _ _ posts Hlt Hr). lia.
          - apply Z.ltb_ge.
            pose proof (count_greater_mono _ _ posts Hge). lia. }
        rewrite E. destruct (Posts a <? Posts r); cbn [List.length];
          rewrite IH; auto; intros r' Hr'; apply Hl; now right. }
      f_equal. apply Hsub. intros r Hr. now apply in_map.
  - intros Hne.
    destruct (greatest_exists (map Posts rows)) as [v [Hin Hall]].
    { destruct rows; [congruence|discriminate]. }
    apply in_map_iff in Hin. destruct Hin as [a [E Ha]].
    exists a. apply ranked_In. split; [exact Ha|].
    subst v. rewrite (count_greater_none _ _ Hall). reflexivity.
Qed.

(** ** The rank-change table and its two top tens *)

Lemma name_rank_names (rows : list LongRow) :
  map fst (name_rank rows) = map Name rows.
Proof.
  unfold name_rank. rewrite ranked_map, !map_map. reflexivity.
Qed.

(** A join on a key that is distinct on both sides has distinct keys. *)
Lemma join_names_NoDup (left right : list (string * Z)) (sl sr : string) :
  NoDup (map fst left) -> NoDup (map fst right) ->
  NoDup (map (fun r => fst (fst r)) (rf_rows (merge_on_name left right sl sr))).
Proof.
  intros Hl Hr. cbn [rf_rows merge_on_name].
  induction left as [|[n a] left IH]; [constructor|].
  cbn [flat_map fst snd]. rewrite map_app.
  inversion Hl as [|? ? Hnotin Hl']; subst.
  apply NoDup_app.
  - destruct (in_dec string_dec n (map fst right)) as [Hin|Hout].
    + apply in_map_iff in Hin. destruct Hin as [[n' b] [E Hin]].
      cbn [fst] in E. subst n'.
      rewrite (filter_unique_key String.eqb String.eqb_eq right n b Hr Hin).
      cbn. repeat constructor. tauto.
    + rewrite (filter_key_none String.eqb String.eqb_eq right n Hout).
      constructor.
  - now apply IH.
  - intros x Hx Hx'.
    rewrite map_map in Hx. cbn [fst] in Hx. apply in_map_iff in Hx.
    destruct Hx as [_ [<- _]].
    apply Hnotin. apply in_map_iff in Hx'.
    destruct Hx' as [row [E H]]. apply in_flat_map in H.
    destruct H as [l [Hl'' H]]. apply in_map_iff in H.
    destruct H as [r [Er _]]. subst row. cbn [fst] in E.
    rewrite <- E. now apply in_map.
Qed.

(** X5 -- the inner join of the two years.  For two different years the
    table of rank changes has exactly one row for every country that
    the long form has in both years and no other row; the row holds the
    country's rank in either year and their difference, start minus
    end. *)
Theorem rank_change_inner_join (df_detail : list RawPost)
  (start_year end_year : Z) :
  start_year <> end_year ->
  let df := df_long_of df_detail in
  exists t,
    rank_change_table df start_year end_year = Ok t
    /\ NoDup (map cr_Name t)
    /\ (forall x, In x (map cr_Name t)
                  <-> (exists p, In {| Name := x; LYear := start_year; Posts := p |} df)
                      /\ (exists q, In {| Name := x; LYear := end_year; Posts := q |} df))
    /\ (forall r, In r t ->
          Rank_Change r = Rank_start r - Rank_end r
          /\ In (cr_Name r, Rank_start r) (name_rank (year_rows df start_year))
          /\ In (cr_Name r, Rank_end r) (name_rank (year_rows df end_year))).
Proof.
  intros Hne df. subst df.
  exists (map change_row (joined (df_long_of df_detail) start_year end_year)).
  split; [now apply rank_change_table_distinct|].
  assert (Hpresent : forall y x,
             (exists r, In (x, r) (name_rank (year_rows (df_long_of df_detail) y)))
             <-> exists p, In {| Name := x; LYear := y; Posts := p |}
                              (df_long_of df_detail)).
  { intros y x. split.
    - intros [r Hr]. apply name_rank_In in Hr. destruct Hr as [a [Ha [Hn _]]].
      apply filter_In in Ha. destruct Ha as [Ha Hy]. apply Z.eqb_eq in Hy.
      exists (Posts a). destruct a as [n l p]. cbn [Name LYear Posts] in *.
      now subst.
    - intros [p Hp]. now apply (year_rank_exists _ _ _ p). }
  split; [|split].
  - rewrite map_map. cbn [change_row cr_Name]. unfold joined.
    apply join_names_NoDup; rewrite name_rank_names; apply year_names_NoDup.
  - intros x. rewrite map_map. cbn [change_row cr_Name].
    rewrite <- !Hpresent. rewrite in_map_iff. split.
    + intros [[[n a] b] [E H]]. cbn [fst] in E. subst n.
      apply joined_In in H. split; [now exists a|now exists b].
    + intros [[a Ha] [b Hb]]. exists (x, a, b). split; [reflexivity|].
      apply joined_In. tauto.
  - intros r Hr. apply in_map_iff in Hr. destruct Hr as [[[n a] b] [<- H]].
    cbn [change_row cr_Name Rank_start Rank_end Rank_Change fst snd].
    apply joined_In in H. tauto.
Qed.

Lemma ordered_split {A : Type} (R : A -> A -> Prop) (l1 l2 : list A) :
  StronglySorted R (l1 ++ l2) ->
  StronglySorted R l1
  /\ forall a b, In a l1 -> In b l2 -> R a b.
Proof.
  induction l1 as [|x l1 IH]; cbn [app]; intros H.
  - split; [constructor|]. intros a b [].
  - inversion H as [|? ? Hs Hx]; subst. destruct (IH Hs) as [Hs1 Hab].
    apply Forall_app in Hx. destruct Hx as [Hx1 Hx2]. split.
    + now constructor.
    + intros a b [->|Ha] Hb.
      * rewrite Forall_forall in Hx2. now apply Hx2.
      * now apply Hab.
Qed.

Lemma year_rows_none (df : list LongRow) (y : Z) :
  (forall r, In r df -> LYear r <> y) -> year_rows df y = [].
Proof.
  intros Hy. unfold year_rows.
  induction df as [|r l IH]; [reflexivity|]. cbn [filter].
  destruct (Z.eqb_spec (LYear r) y) as [E|_].
  - exfalso. apply (Hy r); [now left|exact E].
  - apply IH. intros r' Hr'. apply Hy. now right.
Qed.

Section TopTen.
Variable sort_values : forall A : Type, (A -> Z) -> bool -> list A -> list A.
Hypothesis sort_values_perm :
  forall (A : Type) (key : A -> Z) (ascending : bool) (l : list A),
    Permutation l (sort_values A key ascending l).
Hypothesis sort_values_ordered :
  forall (A : Type) (key : A -> Z) (ascending : bool) (l : list A),
    ordered_by key ascending (sort_values A key ascending l).

(** The first [n] rows of a sorted table, against the rows left out. *)
Lemma head_of_sorted {A : Type} (key : A -> Z) (ascending : bool) (n : nat)
  (t : list A) :
  let top := firstn n (sort_values A key ascending t) in
  List.length top = Nat.min n (List.length t)
  /\ ordered_by key ascending top
  /\ exists rest,
       Permutation t (top ++ rest)
       /\ forall a b, In a top -> In b rest ->
            if ascending then key a <= key b else key b <= key a.
Proof.
  intros top. subst top.
  pose proof (sort_values_perm A key ascending t) as Hperm.
  pose proof (sort_values_ordered A key ascending t) as Hord.
  split; [|split].
  - rewrite length_firstn. now rewrite <- (Permutation_length Hperm).
  - unfold ordered_by in *.
    rewrite <- (firstn_skipn n (sort_values A key ascending t)) in Hord.
    now apply ordered_split in Hord.
  - exists (skipn n (sort_values A key ascending t)). split.
    + now rewrite firstn_skipn.
    + unfold ordered_by in Hord.
      rewrite <- (firstn_skipn n (sort_values A key ascending t)) in Hord.
      apply ordered_split in Hord. destruct Hord as [_ H]. exact H.
Qed.

(** X6 -- the two top tens.  For two different years the analysis
    returns.  Each of its two tables has ten rows of the table of rank
    changes, or all of them when there are fewer; the most improved are
    in descending order of rank change and no row left out has a
    greater change than a row listed; the biggest falls are in
    ascending order and no row left out has a smaller change than a row
    listed. *)
Theorem top_ten_of_rank_changes (df : list LongRow) (start_year end_year : Z) :
  start_year <> end_year ->
  exists t most_improved biggest_fall,
    rank_change_table df start_year end_year = Ok t
    /\ calculate_rank_analysis sort_values df start_year end_year
       = Ok (most_improved, biggest_fall)
    /\ List.length most_improved = Nat.min 10 (List.length t)
    /\ List.length biggest_fall = Nat.min 10 (List.length t)
    /\ ordered_by Rank_Change false most_improved
    /\ ordered_by Rank_Change true biggest_fall
    /\ (exists rest, Permutation t (most_improved ++ rest)
                     /\ forall a b, In a most_improved -> In b rest ->
                                    Rank_Change b <= Rank_Change a)
    /\ (exists rest, Permutation t (biggest_fall ++ rest)
                     /\ forall a b, In a biggest_fall -> In b rest ->
                                    Rank_Change a <= Rank_Change b).
Proof.
  intros Hne. unfold calculate_rank_analysis.
  rewrite (rank_change_table_distinct df start_year end_year Hne).
  cbn [bind].
  set (t := map change_row (joined df start_year end_year)).
  destruct (head_of_sorted Rank_Change false 10 t) as [L1 [O1 R1]].
  destruct (head_of_sorted Rank_Change true 10 t) as [L2 [O2 R2]].
  exists t, (firstn 10 (sort_values _ Rank_Change false t)),
         (firstn 10 (sort_values _ Rank_Change true t)).
  repeat split; try assumption; reflexivity.
Qed.

(** X7 -- a year without rows.  For two different years of which one
    has no row in the long form, the analysis returns two empty tables
    and raises nothing. *)
Theorem rank_analysis_of_missing_year (df : list LongRow)
  (start_year end_year : Z) :
  start_year <> end_year ->
  (forall r, In r df -> LYear r <> start_year)
  \/ (forall r, In r df -> LYear r <> end_year) ->
  calculate_rank_analysis sort_values df start_year end_year = Ok ([], []).
Proof.
  intros Hne Hmiss. unfold calculate_rank_analysis.
  rewrite (rank_change_table_distinct df start_year end_year Hne).
  pose proof (year_rows_none df) as Hnone.
  assert (E : joined df start_year end_year = []).
  { unfold joined. cbn [rf_rows merge_on_name].
    destruct Hmiss as [H|H]; rewrite (Hnone _ H).
    - reflexivity.
    - change (name_rank []) with (@nil (string * Z)). cbn [filter map].
      induction (name_rank (year_rows df start_year)) as [|x l IH];
        [reflexivity|exact IH]. }
  rewrite E. cbn [map bind].
  assert (Hnil : forall asc, sort_values _ Rank_Change asc [] = []).
  { intros asc. apply Permutation_nil, sort_values_perm. }
  now rewrite !Hnil.
Qed.

End TopTen.

(** ** The latest year and the choices offered *)

Lemma fold_max_spec (l : list Z) (x : Z) :
  let m := fold_left Z.max l x in
  (m = x \/ In m l) /\ x <= m /\ Forall (fun y => y <= m) l.
Proof.
  revert x. induction l as [|y l IH]; intros x; cbn [fold_left].
  - split; [now left|]. split; [lia|constructor].
  - destruct (IH (Z.max x y)) as [Hm [Hle Hall]]. split; [|split].
    + destruct Hm as [Hm|Hm]; [|right; now right].
      destruct (Z.max_spec x y) as [[_ E]|[_ E]]; rewrite E in *.
      * right. left. now symmetry.
      * now left.
    + lia.
    + constructor; [lia|exact Hall].
Qed.

Lemma series_max_spec (l : list Z) :
  match series_max l with
  | None => l = []
  | Some m => In m l /\ Forall (fun y => y <= m) l
  end.
Proof.
  destruct l as [|x l]; [reflexivity|]. cbn [series_max].
  destruct (fold_max_spec l x) as [Hm [Hle Hall]]. split.
  - destruct Hm as [->|Hm]; [now left|now right].
  - now constructor.
Qed.

(** The greatest value depends on the values only, not on their order
    or their repetitions. *)
Lemma series_max_ext (l l' : list Z) :
  (forall x, In x l <-> In x l') -> series_max l = series_max l'.
Proof.
  intros H. pose proof (series_max_spec l) as S. pose proof (series_max_spec l') as S'.
  destruct (series_max l) as [m|], (series_max l') as [m'|].
  - destruct S as [Hin Hall], S' as [Hin' Hall'].
    rewrite Forall_forall in Hall, Hall'. f_equal.
    apply Z.le_antisymm; [apply Hall', H, Hin|apply Hall, H, Hin'].
  - subst l'. destruct S as [Hin _]. apply H in Hin. contradiction.
  - subst l. destruct S' as [Hin _]. apply H in Hin. contradiction.
  - reflexivity.
Qed.

Lemma last_of_ascending (l : list Z) :
  StronglySorted Z.lt l ->
  match nth_error l (List.length l - 1) with
  | None => l = []
  | Some m => In m l /\ Forall (fun y => y <= m) l
  end.
Proof.
  induction 1 as [|x l Hs IH Hx]; [reflexivity|].
  replace (List.length (x :: l) - 1)%nat with (List.length l)
    by (cbn [List.length]; lia).
  destruct l as [|y l'].
  - cbn. split; [now left|]. repeat constructor. lia.
  - replace (List.length (y :: l') - 1)%nat with (List.length l') in IH
      by (cbn [List.length]; lia).
    cbn [List.length nth_error].
    destruct (nth_error (y :: l') (List.length l')) as [m|] eqn:E.
    + destruct IH as [Hin Hall]. split; [now right|].
      constructor; [|exact Hall].
      rewrite Forall_forall in Hx. specialize (Hx m Hin). lia.
    + discriminate IH.
Qed.

Lemma same_cell_iff {A : Type} (eqb : A -> A -> bool)
  (eqb_spec : forall a b, eqb a b = true <-> a = b) (a b : option A) :
  same_cell eqb a b = true <-> a = b.
Proof.
  destruct a as [x|], b as [y|]; cbn [same_cell];
    try (split; [discriminate|intros H; discriminate H]).
  - rewrite eqb_spec. split; [now intros ->|]. intros H. now inversion H.
  - split; reflexivity.
Qed.

(** Cells that all hold a value are the values they hold. *)
Lemma notna_all {A : Type} (l : list (option A)) :
  forallb notna l = true <-> l = map Some (dropna l).
Proof.
  induction l as [|[x|] l IH]; cbn [forallb notna dropna map andb].
  - split; reflexivity.
  - rewrite IH. split; [intros H; now f_equal|].
    intros H. injection H as H. exact H.
  - split; [discriminate|]. intros H. destruct (dropna l); discriminate H.
Qed.

Lemma notna_all_In {A : Type} (l : list (option A)) :
  forallb notna l = true <-> ~ In None l.
Proof.
  rewrite forallb_forall. split.
  - intros H Hin. specialize (H None Hin). discriminate H.
  - intros H [x|] Hx; [reflexivity|contradiction].
Qed.

Lemma nth_error_last_None {A : Type} (l : list A) :
  nth_error l (List.length l - 1) = None <-> l = [].
Proof.
  split; [|now intros ->]. intros H. apply nth_error_None in H.
  destruct l as [|x l]; [reflexivity|]. cbn [List.length] in H. lia.
Qed.

(** The last of a strictly ascending list is the greatest value. *)
Lemma last_is_max (L l : list Z) :
  StronglySorted Z.lt L -> (forall y, In y L <-> In y l) ->
  nth_error L (List.length L - 1) = series_max l.
Proof.
  intros Hs Hin.
  pose proof (last_of_ascending _ Hs) as HL.
  pose proof (series_max_spec l) as S.
  destruct (nth_error L _) as [m|], (series_max l) as [m'|].
  - destruct HL as [Lin Lall], S as [Sin Sall].
    rewrite Forall_forall in Lall, Sall. f_equal.
    apply Z.le_antisymm; [apply Sall, Hin, Lin|apply Lall, Hin, Sin].
  - rewrite S in Hin. destruct HL as [Lin _]. apply Hin in Lin. contradiction.
  - destruct S as [Sin _]. apply Hin in Sin. rewrite HL in Sin. contradiction.
  - reflexivity.
Qed.

(** The latest year of the sheet: the greatest year a cell holds. *)
Lemma map_year_spec (df_detail : list RawPost) (m : Z) :
  map_year_of df_detail = Some m ->
  (exists r, In r df_detail /\ Year r = Some m)
  /\ forall r y, In r df_detail -> Year r = Some y -> y <= m.
Proof.
  unfold map_year_of. intros E.
  pose proof (series_max_spec (dropna (map Year df_detail))) as S.
  rewrite E in S. destruct S as [Sin Sall]. split.
  - apply dropna_In, in_map_iff in Sin. destruct Sin as [r [Er Hr]]. now exists r.
  - intros r y Hr Hy. rewrite Forall_forall in Sall. apply Sall.
    apply dropna_In, in_map_iff. now exists r.
Qed.

(** The latest year of the long form is a year of the sheet. *)
Lemma latest_year_bound (df_detail : list RawPost) (y : Z) :
  series_max (map LYear (df_long_of df_detail)) = Some y ->
  (exists r, In r df_detail /\ Year r = Some y /\ COUNTRY r <> None)
  /\ (forall r z, In r df_detail -> Year r = Some z -> COUNTRY r <> None ->
        z <= y)
  /\ exists m, map_year_of df_detail = Some m /\ y <= m.
Proof.
  intros E.
  pose proof (series_max_spec (map LYear (df_long_of df_detail))) as S.
  rewrite E in S. destruct S as [Sin Sall].
  pose proof (proj1 (long_years_In df_detail y) Sin) as [r [Hr [Hy Hc]]].
  split; [now exists r|]. split.
  - intros r' z Hr' Hz Hc'. rewrite Forall_forall in Sall. apply Sall.
    apply long_years_In. now exists r'.
  - destruct (map_year_of df_detail) as [m|] eqn:Em.
    + exists m. split; [reflexivity|].
      now apply (proj2 (map_year_spec df_detail m Em) r y).
    + exfalso. unfold map_year_of in Em.
      pose proof (series_max_spec (dropna (map Year df_detail))) as S'.
      rewrite Em in S'.
      assert (Hin : In y (dropna (map Year df_detail))).
      { apply dropna_In, in_map_iff. now exists r. }
      rewrite S' in Hin. contradiction.
Qed.

Lemma insertion_sorted_perm (l : list (option Z)) :
  Permutation l (insertion_sorted l).
Proof. apply sort_by_perm. Qed.

Lemma insertion_sorted_values (l : list Z) :
  insertion_sorted (map Some l) = map Some (sort_by Z.leb l).
Proof.
  unfold insertion_sorted. induction l as [|x l IH]; [reflexivity|].
  cbn [map sort_by]. rewrite IH. clear IH.
  induction (sort_by Z.leb l) as [|y t IH]; [reflexivity|].
  cbn [map insert_by]. destruct (x <=? y); [reflexivity|].
  cbn [map]. now rewrite IH.
Qed.

Lemma insertion_sorted_ordered (l : list (option Z)) :
  forallb notna l = true -> ascending_cells (insertion_sorted l).
Proof.
  intros H. apply notna_all in H. rewrite H, insertion_sorted_values.
  unfold ascending_cells. apply StronglySorted_map.
  apply (sort_by_sorted Z.leb Z.le).
  - intros a b E. now apply Z.leb_le.
  - intros a b E. apply Z.leb_gt in E. lia.
  - intros a b c. lia.
Qed.

Lemma ascending_strict (l : list Z) :
  ascending_cells (map Some l) -> NoDup l -> StronglySorted Z.lt l.
Proof.
  unfold ascending_cells.
  induction l as [|x l IH]; cbn [map]; intros Hord Hnd; constructor.
  - apply IH; [now inversion Hord|now inversion Hnd].
  - inversion Hord as [|? ? _ Hx]; subst.
    inversion Hnd as [|? ? Hnotin _]; subst.
    rewrite Forall_forall in *. intros y Hy.
    assert (x <= y) by (apply (Hx (Some y)); now apply in_map).
    assert (x <> y) by (intros ->; contradiction). lia.
Qed.

Section YearChoiceFacts.
Variable sorted : list (option Z) -> list (option Z).
Hypothesis sorted_perm : forall l, Permutation l (sorted l).
Hypothesis sorted_ordered :
  forall l, forallb notna l = true -> ascending_cells (sorted l).

Lemma all_years_In (df_detail : list RawPost) (cell : option Z) :
  In cell (all_years sorted df_detail) <-> In cell (map Year df_detail).
Proof.
  unfold all_years, unique_years. split.
  - intros H. apply (Permutation_in _ (Permutation_sym (sorted_perm _))) in H.
    exact (proj1 (unique_In _ (same_cell_iff Z.eqb Z.eqb_eq) _ _) H).
  - intros H. apply (Permutation_in _ (sorted_perm _)).
    exact (proj2 (unique_In _ (same_cell_iff Z.eqb Z.eqb_eq) _ _) H).
Qed.

Lemma all_years_NoDup (df_detail : list RawPost) :
  NoDup (all_years sorted df_detail).
Proof.
  eapply Permutation_NoDup; [apply sorted_perm|].
  apply unique_NoDup, same_cell_iff, Z.eqb_eq.
Qed.

(** Without an empty Year cell the years offered are strictly
    ascending. *)
Lemma all_years_filled (df_detail : list RawPost) :
  (forall r, In r df_detail -> Year r <> None) ->
  all_years sorted df_detail = map Some (dropna (all_years sorted df_detail))
  /\ StronglySorted Z.lt (dropna (all_years sorted df_detail)).
Proof.
  intros Hfilled.
  assert (Hnone : ~ In None (all_years sorted df_detail)).
  { intros H. apply all_years_In, in_map_iff in H.
    destruct H as [r [E Hr]]. now apply (Hfilled r). }
  pose proof (proj2 (notna_all_In _) Hnone) as Hall.
  pose proof (proj1 (notna_all _) Hall) as Hvalues.
  split; [exact Hvalues|].
  assert (Hu : forallb notna (unique_years df_detail) = true).
  { apply notna_all_In. intros H. apply Hnone.
    apply (Permutation_in _ (sorted_perm _)). exact H. }
  pose proof (sorted_ordered _ Hu) as Hord.
  fold (all_years sorted df_detail) in Hord.
  pose proof (all_years_NoDup df_detail) as Hnd.
  rewrite Hvalues in Hord, Hnd.
  apply (NoDup_map_inv Some) in Hnd.
  now apply ascending_strict.
Qed.

(** X8 -- the year shown first.  The years offered are the distinct
    cells of the column Year, an empty cell (NaN) among them when the
    sheet has one; the tab offers no year only for a sheet without
    rows, and the year it shows first is one of those cells.  On a
    sheet without an empty Year cell the years offered are strictly
    ascending and the year shown first is the latest year of the sheet,
    the year of the map.  The key findings use the latest year of the
    long form instead: it is never later than the latest year of the
    sheet, and it is the same year exactly when some row of that year
    has a country. *)
Theorem default_year_is_latest (df_detail : list RawPost) :
  let offered := all_years sorted df_detail in
  let first_shown := year_to_display_default sorted df_detail in
  (forall cell, In cell offered <-> In cell (map Year df_detail))
  /\ NoDup offered
  /\ (first_shown = None <-> df_detail = [])
  /\ (forall cell, first_shown = Some cell -> In cell (map Year df_detail))
  /\ ((forall r, In r df_detail -> Year r <> None) ->
      offered = map Some (dropna offered)
      /\ StronglySorted Z.lt (dropna offered)
      /\ first_shown = option_map Some (map_year_of df_detail))
  /\ (forall m, map_year_of df_detail = Some m ->
        (exists r, In r df_detail /\ Year r = Some m)
        /\ forall r y, In r df_detail -> Year r = Some y -> y <= m)
  /\ (forall y, series_max (map LYear (df_long_of df_detail)) = Some y ->
        exists m, map_year_of df_detail = Some m /\ y <= m
                  /\ (y = m <-> exists r, In r df_detail /\ Year r = Some m
                                          /\ COUNTRY r <> None)).
Proof.
  intros offered first_shown. subst offered first_shown.
  split; [apply all_years_In|]. split; [apply all_years_NoDup|].
  unfold year_to_display_default, selectbox_default.
  split; [|split; [|split; [|split]]].
  - rewrite nth_error_last_None. split.
    + intros H. destruct df_detail as [|r l]; [reflexivity|]. exfalso.
      assert (Hin : In (Year r) (all_years sorted (r :: l)))
        by (apply all_years_In; now left).
      rewrite H in Hin. contradiction.
    + intros ->. unfold all_years, unique_years. cbn [map unique].
      apply Permutation_nil, sorted_perm.
  - intros cell H. apply nth_error_In in H. now apply all_years_In.
  - intros Hfilled. destruct (all_years_filled df_detail Hfilled) as [Hv Hs].
    split; [exact Hv|]. split; [exact Hs|].
    rewrite Hv at 1 2. rewrite length_map, nth_error_map. f_equal.
    apply last_is_max; [exact Hs|]. intros y.
    rewrite !dropna_In. apply all_years_In.
  - apply map_year_spec.
  - intros y E.
    destruct (latest_year_bound df_detail y E) as [[r [Hr [Hy Hc]]] [Hmax [m [Em Hle]]]].
    exists m. split; [exact Em|]. split; [exact Hle|]. split.
    + intros ->. now exists r.
    + intros [r' [Hr' [Hy' Hc']]]. specialize (Hmax r' m Hr' Hy' Hc'). lia.
Qed.

End YearChoiceFacts.

Lemma list_index_nth (x : string) (l : list string) :
  In x l ->
  nth_error (map Some l) (list_index x (map Some l)) = Some (Some x).
Proof.
  induction l as [|y l IH]; [contradiction|]. cbn [map list_index str_is].
  destruct (String.eqb_spec y x) as [->|Hne]; [reflexivity|].
  intros [E|H]; [congruence|]. now apply IH.
Qed.

Lemma head_of_ascending {A : Type} (R : A -> A -> Prop) (l : list A) :
  StronglySorted R l ->
  match nth_error l 0 with
  | None => l = []
  | Some m => In m l /\ forall y, In y l -> y = m \/ R m y
  end.
Proof.
  intros H. destruct l as [|x l]; [reflexivity|]. cbn [nth_error].
  split; [now left|]. intros y [->|Hy]; [now left|right].
  inversion H as [|? ? _ Hx]; subst. rewrite Forall_forall in Hx. now apply Hx.
Qed.

Lemma existsb_is_name (x : string) (l : list string) :
  existsb (fun c => str_is c x) (map Some l) = true <-> In x l.
Proof.
  rewrite existsb_exists. split.
  - intros [c [Hc E]]. apply str_is_true in E. subst c.
    apply in_map_iff in Hc. destruct Hc as [y [Ey Hy]]. now inversion Ey; subst.
  - intros H. exists (Some x). split; [now apply in_map|].
    now apply str_is_true.
Qed.

(** [sorted] on cells that all hold a name. *)
Lemma sorted_names_filled (cells : list (option string)) :
  forallb notna cells = true ->
  sorted_names cells = Ok (map Some (sort_by String.leb (dropna cells))).
Proof.
  intros H. unfold sorted_names. rewrite H.
  destruct (dropna cells) as [|x l] eqn:E; [|reflexivity].
  apply notna_all in H. rewrite E in H. now rewrite H.
Qed.

(** [sorted] on cells of which one is empty and one holds a name. *)
Lemma sorted_names_mixed (cells : list (option string)) (c : string) :
  In None cells -> In (Some c) cells -> sorted_names cells = Raise TypeError.
Proof.
  intros Hnone Hc. unfold sorted_names.
  destruct (dropna cells) as [|x l] eqn:E.
  - apply dropna_In in Hc. rewrite E in Hc. contradiction.
  - replace (forallb notna cells) with false; [reflexivity|].
    symmetry. apply not_true_iff_false. intros H.
    now apply notna_all_In in H.
Qed.

Lemma NoDup_constant {A : Type} (a : A) (l : list A) :
  NoDup l -> In a l -> (forall x, In x l -> x = a) -> l = [a].
Proof.
  intros Hnd Hin Hall. destruct l as [|x l]; [contradiction|].
  rewrite (Hall x) by now left. f_equal.
  destruct l as [|y l]; [reflexivity|]. exfalso.
  inversion Hnd as [|? ? Hnotin _]; subst. apply Hnotin.
  rewrite (Hall x), (Hall y); [now left|right; now left|now left].
Qed.

Lemma df_map_data_In (df_detail : list RawPost) (r : RawPost) :
  In r (df_map_data_of df_detail)
  <-> In r df_detail
      /\ exists m, map_year_of df_detail = Some m /\ Year r = Some m.
Proof.
  unfold df_map_data_of. rewrite filter_In. unfold year_is, is_year.
  split; intros [Hr H]; (split; [exact Hr|]).
  - destruct (Year r) as [y|]; [|discriminate H].
    destruct (map_year_of df_detail) as [m|]; [|discriminate H].
    apply Z.eqb_eq in H. subst. now exists m.
  - destruct H as [m [-> ->]]. apply Z.eqb_refl.
Qed.

(** X9 -- the home country shown first.  The countries offered are the
    distinct COUNTRY cells of the rows of the latest year of the sheet.
    When one of these rows has an empty country and another a name,
    [sorted] compares a name with NaN and the tab stops with a
    TypeError.  When all of them have an empty country, NaN is the one
    choice offered and shown.  When none has, the names are offered in
    strictly ascending order; the map shows China first whenever China
    is one of them, and otherwise the first of them in that order; it
    offers none only when the sheet has no year at all. *)
Theorem default_home_country (df_detail : list RawPost) :
  let latest := df_map_data_of df_detail in
  let present c := exists r, In r latest /\ COUNTRY r = Some c in
  let unnamed := exists r, In r latest /\ COUNTRY r = None in
  (forall r, In r latest
             <-> In r df_detail
                 /\ exists m, map_year_of df_detail = Some m /\ Year r = Some m)
  /\ (unnamed -> (exists c, present c) ->
      country_list_map_of df_detail = Raise TypeError
      /\ selected_country_map_default df_detail = Raise TypeError)
  /\ (unnamed -> (forall c, ~ present c) ->
      country_list_map_of df_detail = Ok [None]
      /\ selected_country_map_default df_detail = Ok (Some None))
  /\ (~ unnamed ->
      exists offered,
        country_list_map_of df_detail = Ok (map Some offered)
        /\ StronglySorted (fun a b => string_le a b /\ a <> b) offered
        /\ (forall c, In c offered <-> present c)
        /\ (present "China" ->
            selected_country_map_default df_detail = Ok (Some (Some "China")))
        /\ (~ present "China" ->
            exists first,
              selected_country_map_default df_detail
              = Ok (option_map Some first)
              /\ match first with
                 | None => map_year_of df_detail = None
                 | Some c => present c /\ forall c', present c' -> string_le c c'
                 end)).
Proof.
  intros latest present unnamed. subst latest.
  set (cells := unique (same_cell String.eqb)
                       (map COUNTRY (df_map_data_of df_detail))).
  assert (Hcells : forall cell,
            In cell cells
            <-> exists r, In r (df_map_data_of df_detail) /\ COUNTRY r = cell).
  { intros cell. unfold cells.
    rewrite (unique_In _ (same_cell_iff String.eqb String.eqb_eq)), in_map_iff.
    split; intros [r H]; exists r; tauto. }
  assert (Hnd : NoDup cells)
    by (apply unique_NoDup, same_cell_iff, String.eqb_eq).
  split; [apply df_map_data_In|]. split; [|split].
  - intros Hun [c Hc].
    assert (E : country_list_map_of df_detail = Raise TypeError).
    { apply (sorted_names_mixed _ c); now apply Hcells. }
    split; [exact E|]. unfold selected_country_map_default. now rewrite E.
  - intros Hun Hnone.
    assert (Ecells : cells = [None]).
    { apply NoDup_constant; [exact Hnd|now apply Hcells|].
      intros [c|] Hx; [|reflexivity]. apply Hcells in Hx.
      exfalso. now apply (Hnone c). }
    assert (E : country_list_map_of df_detail = Ok [None]).
    { unfold country_list_map_of. fold cells. now rewrite Ecells. }
    split; [exact E|]. unfold selected_country_map_default. now rewrite E.
  - intros Hnamed.
    assert (Hfilled : forallb notna cells = true).
    { apply notna_all_In. intros H. apply Hnamed. now apply Hcells. }
    exists (sort_by String.leb (dropna cells)).
    assert (E : country_list_map_of df_detail
                = Ok (map Some (sort_by String.leb (dropna cells))))
      by now apply sorted_names_filled.
    assert (Hs : StronglySorted (fun a b => string_le a b /\ a <> b)
                                (sort_by String.leb (dropna cells))).
    { apply StronglySorted_strict.
      - apply (sort_by_sorted String.leb string_le);
          [auto|apply string_le_total|apply string_le_trans].
      - eapply Permutation_NoDup; [apply sort_by_perm|].
        now apply dropna_NoDup. }
    assert (Hmem : forall c, In c (sort_by String.leb (dropna cells))
                             <-> present c).
    { intros c. rewrite sort_by_In, dropna_In. apply Hcells. }
    split; [exact E|]. split; [exact Hs|]. split; [exact Hmem|].
    unfold selected_country_map_default. rewrite E. cbn [bind].
    unfold selectbox_default. split.
    + intros Hc. apply Hmem in Hc.
      rewrite (proj2 (existsb_is_name "China" _) Hc).
      now rewrite list_index_nth.
    + intros Hc.
      assert (Ex : existsb (fun c => str_is c "China")
                     (map Some (sort_by String.leb (dropna cells))) = false).
      { apply not_true_iff_false. intros H. apply existsb_is_name in H.
        now apply Hc, Hmem. }
      rewrite Ex, nth_error_map.
      exists (nth_error (sort_by String.leb (dropna cells)) 0).
      split; [reflexivity|].
      pose proof (head_of_ascending _ _ Hs) as Hhead.
      destruct (nth_error (sort_by String.leb (dropna cells)) 0) as [c|].
      * destruct Hhead as [Hc0 Hleast]. split; [now apply Hmem|].
        intros c' Hc'. apply Hmem in Hc'.
        destruct (Hleast c' Hc') as [->|[Hle _]]; [|exact Hle].
        unfold string_le. destruct (String.leb_total c c); assumption.
      * destruct (map_year_of df_detail) as [m|] eqn:Em; [|reflexivity].
        exfalso. destruct (map_year_spec df_detail m Em) as [[r [Hr Hy]] _].
        assert (Hin : In r (df_map_data_of df_detail)).
        { apply df_map_data_In. split; [exact Hr|]. now exists m. }
        destruct (COUNTRY r) as [c|] eqn:Ec.
        -- assert (Hp : In c (sort_by String.leb (dropna cells))).
           { apply Hmem. now exists r. }
           rewrite Hhead in Hp. contradiction.
        -- apply Hnamed. now exists r.
Qed.

(** X10 -- the comparison shown first.  The countries selected at first
    are those of China, United States, Turkey, Japan, France and Russia
    that occur in the long form.  When none of them occurs nothing is
    drawn; otherwise the trend of those countries is drawn, without the
    year 2019, and it has no column for any other country. *)
Theorem default_comparison (df_long : list LongRow) :
  (forall c, In c (valid_defaults_comp df_long)
             <-> In c default_countries_comp /\ In c (map Name df_long))
  /\ (tab4_default df_long = None
      <-> forall c, In c default_countries_comp -> ~ In c (map Name df_long))
  /\ (forall trend, tab4_default df_long = Some trend ->
        trend = trend_pivot df_long (valid_defaults_comp df_long) [2019]
        /\ ~ In 2019 (map fst trend)
        /\ forall row c, In row trend -> In c (map fst (snd row)) ->
             In c default_countries_comp /\ In c (map Name df_long)).
Proof.
  assert (Hvalid : forall c, In c (valid_defaults_comp df_long)
             <-> In c default_countries_comp /\ In c (map Name df_long)).
  { intros c. unfold valid_defaults_comp. rewrite filter_In, existsb_eqb_In.
    unfold all_countries_list_comp.
    destruct (names_sorted_spec (map Name df_long)) as [_ Hin].
    now rewrite Hin. }
  split; [exact Hvalid|]. unfold tab4_default, tab4_trend. split.
  - destruct (valid_defaults_comp df_long) as [|c l] eqn:E.
    + split; [|reflexivity]. intros _ c Hc Hn.
      assert (H : In c []) by (apply Hvalid; tauto). contradiction.
    + split; [discriminate|]. intros H. exfalso.
      assert (Hc : In c (c :: l)) by now left.
      apply Hvalid in Hc. now apply (H c).
  - intros trend Ht.
    assert (E : trend = trend_pivot df_long (valid_defaults_comp df_long) [2019]).
    { destruct (valid_defaults_comp df_long); [discriminate|].
      now inversion Ht. }
    split; [exact E|]. subst trend.
    destruct (trend_pivot_shape df_long (valid_defaults_comp df_long) [2019])
      as [_ [Hyears [countries [_ [Hcs Hrows]]]]].
    split.
    + intros H. apply Hyears in H. destruct H as [r [_ [_ [_ Hn]]]].
      apply Hn. now left.
    + intros row c Hrow Hc. rewrite (Hrows row Hrow) in Hc.
      apply Hcs in Hc. destruct Hc as [r [_ [_ [Hsel _]]]].
      now apply Hvalid.
Qed.

(** ** More on the ranking table *)

Lemma recognized_indicator (t : option string) :
  Z.b2z (str_is t "Embassy") + Z.b2z (str_is t "High Commission")
  + (Z.b2z (str_is t "Consulate") + Z.b2z (str_is t "Consulate General"))
  = Z.b2z (recognized_title t).
Proof.
  destruct t as [t|]; [|reflexivity].
  unfold recognized_title, recognized. cbn [existsb str_is].
  destruct (String.eqb_spec t "Embassy") as [->|_]; [reflexivity|].
  destruct (String.eqb_spec t "High Commission") as [->|_]; [reflexivity|].
  destruct (String.eqb_spec t "Consulate") as [->|_]; [reflexivity|].
  destruct (String.eqb_spec t "Consulate General") as [->|_]; reflexivity.
Qed.

(** The posts of a country and a year that carry one of the four
    labels. *)
Lemma recognized_total (df_detail : list RawPost) (c : string) (y : Z) :
  labelled df_detail c y "Embassy" + labelled df_detail c y "High Commission"
  + (labelled df_detail c y "Consulate"
     + labelled df_detail c y "Consulate General")
  = Z.of_nat (List.length
                (filter (fun r => same_pair c y r
                                  && recognized_title (POST_TYPE_TITLE r))
                        df_detail)).
Proof.
  unfold labelled.
  induction df_detail as [|r rs IH]; [reflexivity|].
  cbn [filter].
  pose proof (recognized_indicator (POST_TYPE_TITLE r)) as Hi.
  destruct (same_pair c y r); cbn [andb]; [|exact IH].
  destruct (str_is (POST_TYPE_TITLE r) "Embassy"),
           (str_is (POST_TYPE_TITLE r) "High Commission"),
           (str_is (POST_TYPE_TITLE r) "Consulate"),
           (str_is (POST_TYPE_TITLE r) "Consulate General"),
           (recognized_title (POST_TYPE_TITLE r));
    cbn [Z.b2z List.length] in *; rewrite ?Nat2Z.inj_succ; lia.
Qed.

Lemma recognized_title_true (cell : option string) :
  recognized_title cell = true <-> exists l, cell = Some l /\ In l recognized.
Proof.
  destruct cell as [l|]; cbn [recognized_title].
  - rewrite existsb_exists. split.
    + intros [x [Hx E]]. apply String.eqb_eq in E. subst x. now exists l.
    + intros [x [E Hx]]. inversion E; subst x. exists l.
      split; [exact Hx|apply String.eqb_refl].
  - split; [discriminate|]. intros [l [E _]]. discriminate E.
Qed.

(** The first row of a country is the one that stays. *)
Lemma drop_duplicates_first (seen : list (option string)) (rows : list RawPost)
  (m : RawPost) :
  In m (drop_duplicates seen rows) ->
  exists pre post,
    rows = pre ++ m :: post
    /\ forall r, In r pre -> COUNTRY r <> COUNTRY m.
Proof.
  revert seen. induction rows as [|r rows IH]; intros seen; cbn [drop_duplicates].
  - contradiction.
  - destruct (existsb (same_cell String.eqb (COUNTRY r)) seen) eqn:E.
    + intros H. pose proof (drop_duplicates_In _ _ _ H) as [_ Hseen].
      destruct (IH _ H) as [pre [post [-> Hpre]]].
      exists (r :: pre), post. split; [reflexivity|].
      intros r' [<-|Hr']; [|now apply Hpre].
      intros Heq. apply Hseen. rewrite <- Heq. now apply existsb_same_cell.
    + intros [->|H].
      * exists [], rows. split; [reflexivity|]. intros r [].
      * pose proof (drop_duplicates_In _ _ _ H) as [_ Hseen].
        destruct (IH _ H) as [pre [post [-> Hpre]]].
        exists (r :: pre), post. split; [reflexivity|].
        intros r' [<-|Hr']; [|now apply Hpre].
        intros Heq. apply Hseen. left. exact Heq.
Qed.





Section RankingTableMore.
Variable sort_values : forall A : Type, (A -> Z) -> bool -> list A -> list A.
Hypothesis sort_values_perm :
  forall (A : Type) (key : A -> Z) (ascending : bool) (l : list A),
    Permutation l (sort_values A key ascending l).

(** X11 -- the breakdown stays within the total.  In every row of the
    ranking table either Embassies and Consulates are numbers that are
    not negative and together do not exceed the total posts, adding up
    to the total exactly when every post of the country in that year
    carries one of the four labels; or both cells are missing, and then
    no post of the country in that year has a post type. *)
Theorem breakdown_within_total (df_detail : list RawPost) (y : Z) :
  exists rows,
    ranking_table sort_values df_detail (df_long_of df_detail) y = Ok rows
    /\ forall row, In row rows ->
         (exists e c,
            Embassies row = Some e /\ Consulates row = Some c
            /\ 0 <= e /\ 0 <= c /\ e + c <= TOTAL_POSTS row
            /\ (e + c = TOTAL_POSTS row
                <-> forall r, In r df_detail -> COUNTRY r = Some (Country row) ->
                              Year r = Some y ->
                              exists l, POST_TYPE_TITLE r = Some l
                                        /\ In l recognized))
         \/ (Embassies row = None /\ Consulates row = None
             /\ forall r, In r df_detail -> COUNTRY r = Some (Country row) ->
                          Year r = Some y -> POST_TYPE_TITLE r = None).
Proof.
  destruct (ranking_table_rows sort_values sort_values_perm df_detail y)
    as [rows [Hok Hperm]].
  exists rows. split; [exact Hok|]. intros row Hrow.
  apply (Permutation_in _ (Permutation_sym Hperm)) in Hrow.
  apply in_map_iff in Hrow. destruct Hrow as [[c0 m] [<- Hm]].
  cbn [summary_row Embassies Consulates TOTAL_POSTS Country fst snd].
  unfold shown. destruct (titled df_detail c0 y) eqn:T.
  - left. do 2 eexists. split; [reflexivity|]. split; [reflexivity|].
    pose proof (recognized_total df_detail c0 y) as Htot.
    destruct (filter_and_length (same_pair c0 y)
                (fun r => recognized_title (POST_TYPE_TITLE r))
                df_detail) as [Hle Heq].
    split; [unfold labelled; lia|]. split; [unfold labelled; lia|].
    split; [unfold posts_in; lia|].
    unfold posts_in. rewrite Htot. rewrite Nat2Z.inj_iff, Heq. split.
    + intros H r Hr Hc Hy. apply recognized_title_true, (H r Hr).
      now apply same_pair_true.
    + intros H r Hr Hp. apply same_pair_true in Hp. destruct Hp as [Hc Hy].
      apply recognized_title_true. now apply H.
  - right. split; [reflexivity|]. split; [reflexivity|].
    intros r Hr Hc Hy. destruct (POST_TYPE_TITLE r) as [l|] eqn:El; [|reflexivity].
    exfalso. assert (titled df_detail c0 y = true); [|congruence].
    apply titled_true. exists r. rewrite El. repeat split; try assumption.
    discriminate.
Qed.

(** X12 -- the first row of a country gives its metadata.  The ranking
    table has one row per country, however many raw rows the country
    has in that year, and every row shows the cells of overall rank,
    population and GDP of the first raw row that the country has in
    that year, whatever the rows after it hold. *)
Theorem metadata_of_first_row (df_detail : list RawPost) (y : Z) :
  exists rows,
    ranking_table sort_values df_detail (df_long_of df_detail) y = Ok rows
    /\ NoDup (map Country rows)
    /\ forall row, In row rows ->
         exists pre m post,
           detail_of_year df_detail y = pre ++ m :: post
           /\ (forall r, In r pre -> COUNTRY r <> Some (Country row))
           /\ COUNTRY m = Some (Country row)
           /\ Rank row = OVERALL_RANK m
           /\ Population row = POPULATION m
           /\ Gdp row = GDP m.
Proof.
  destruct (ranking_table_rows sort_values sort_values_perm df_detail y)
    as [rows [Hok Hperm]].
  exists rows. split; [exact Hok|]. split.
  - eapply Permutation_NoDup; [apply (Permutation_map Country Hperm)|].
    rewrite map_map. cbn [summary_row Country].
    apply named_meta_NoDup.
  - intros row Hrow.
    apply (Permutation_in _ (Permutation_sym Hperm)) in Hrow.
    apply in_map_iff in Hrow. destruct Hrow as [[c m] [<- Hm]].
    apply with_key_In in Hm. destruct Hm as [Hm Hc].
    destruct (drop_duplicates_first _ _ _ Hm) as [pre [post [E Hpre]]].
    exists pre, m, post. cbn [summary_row Country Rank Population Gdp fst snd].
    rewrite <- Hc. repeat split; assumption.
Qed.


End RankingTableMore.

(** ** The order of the footprint *)

Section FootprintOrder.
Variable sort_values : forall A : Type, (A -> Z) -> bool -> list A -> list A.
Hypothesis sort_values_perm :
  forall (A : Type) (key : A -> Z) (ascending : bool) (l : list A),
    Permutation l (sort_values A key ascending l).
Hypothesis sort_values_ordered :
  forall (A : Type) (key : A -> Z) (ascending : bool) (l : list A),
    ordered_by key ascending (sort_values A key ascending l).

(** X14 -- the order of the footprint.  The host countries are listed
    in descending order of their number of posts; the countries listed
    are exactly those that host a post of the home country in that
    year, and every number listed is at least 1. *)
Theorem footprint_descending (df_detail : list RawPost) (home : string)
  (year : Z) :
  let footprint := post_locations_of sort_values df_detail year home in
  ordered_by snd false footprint
  /\ (forall host, In host (map fst footprint)
                   <-> exists r, In r df_detail /\ COUNTRY r = Some home
                                 /\ Year r = Some year
                                 /\ POST_COUNTRY r = Some host)
  /\ (forall host n, In (host, n) footprint -> 1 <= n).
Proof.
  intros footprint. subst footprint. unfold post_locations_of.
  rewrite country_posts_length.
  set (hosts := map POST_COUNTRY (filter (same_pair home year) df_detail)).
  pose proof (sort_values_perm _ snd false (value_counts hosts)) as Hperm.
  split; [apply sort_values_ordered|]. split.
  - intros host. split.
    + intros H.
      apply (Permutation_in _ (Permutation_sym (Permutation_map fst Hperm))) in H.
      apply (proj1 (value_counts_keys hosts host)) in H. unfold hosts in H.
      apply in_map_iff in H. destruct H as [r [E Hr]].
      apply filter_In in Hr. destruct Hr as [Hr Hs].
      apply same_pair_true in Hs. exists r. tauto.
    + intros [r [Hr [Hc [Hy E]]]].
      apply (Permutation_in _ (Permutation_map fst Hperm)).
      apply (proj2 (value_counts_keys hosts host)). unfold hosts.
      apply in_map_iff.
      exists r. split; [exact E|]. apply filter_In. split; [exact Hr|].
      now apply same_pair_true.
  - intros host n H.
    apply (Permutation_in _ (Permutation_sym Hperm)) in H.
    apply value_counts_In in H. lia.
Qed.

End FootprintOrder.

(** ** The key findings *)

Lemma iloc_At {A : Type} (l : list A) (n : nat) (a : A) :
  iloc l n = At a <-> nth_error l n = Some a.
Proof.
  unfold iloc. destruct (nth_error l n); split; intros H;
    inversion H; reflexivity.
Qed.

Lemma iloc_IndexError {A : Type} (l : list A) (n : nat) :
  iloc l n = IndexError <-> (List.length l <= n)%nat.
Proof.
  unfold iloc. rewrite <- nth_error_None.
  destruct (nth_error l n); split; intros H; try discriminate; reflexivity.
Qed.

Lemma long_form_NoDup (df_detail : list RawPost) : NoDup (df_long_of df_detail).
Proof. apply (NoDup_map_inv long_key), long_keys_NoDup. Qed.

(** Every country of the latest year has its detail row. *)
Lemma country_details_found (df_detail : list RawPost) (row : LongRow) :
  In row (df_long_latest_of (df_long_of df_detail)) ->
  exists m,
    country_details_of (df_long_of df_detail) df_detail (Name row) = At m
    /\ COUNTRY m = Some (Name row) /\ In m df_detail
    /\ Year m = Some (LYear row).
Proof.
  unfold df_long_latest_of, country_details_of, df_detail_latest_of.
  intros H. apply filter_In in H. destruct H as [Hrow Hy].
  destruct (series_max (map LYear (df_long_of df_detail))) as [y|];
    [|discriminate]. cbn [is_year] in Hy. apply Z.eqb_eq in Hy.
  assert (Hk : In (Name row, LYear row) (map long_key (df_long_of df_detail))).
  { apply in_map_iff. now exists row. }
  apply long_key_In in Hk. destruct Hk as [r [Hr [Hc Hyr]]].
  set (found := filter (fun r0 => str_is (COUNTRY r0) (Name row))
                       (filter (fun r0 => year_is (Some y) (Year r0)) df_detail)).
  assert (Hyear : forall r0, year_is (Some y) (Year r0) = true
                             <-> Year r0 = Some y).
  { intros r0. unfold year_is, is_year. destruct (Year r0) as [z|].
    - rewrite Z.eqb_eq. split; [now intros ->|]. intros E. now inversion E.
    - split; discriminate. }
  assert (Hin : In r found).
  { apply filter_In. split.
    - apply filter_In. split; [exact Hr|]. apply Hyear. congruence.
    - now apply str_is_true. }
  destruct found as [|m l] eqn:E; [contradiction|].
  exists m. split; [reflexivity|].
  assert (Hm : In m found) by (rewrite E; now left).
  unfold found in Hm. apply filter_In in Hm. destruct Hm as [Hm Hcm].
  apply filter_In in Hm. destruct Hm as [Hm Hym].
  apply str_is_true in Hcm. apply Hyear in Hym.
  split; [exact Hcm|]. split; [exact Hm|]. congruence.
Qed.

Section KeyFindingsFacts.
Variable sort_values : forall A : Type, (A -> Z) -> bool -> list A -> list A.
Hypothesis sort_values_perm :
  forall (A : Type) (key : A -> Z) (ascending : bool) (l : list A),
    Permutation l (sort_values A key ascending l).

Lemma top_performers_perm (df_long : list LongRow) :
  Permutation (df_long_latest_of df_long) (top_performers_of sort_values df_long).
Proof. apply sort_values_perm. Qed.

(** The key findings, once the two leading rows are there. *)
Lemma key_findings_of_two (df_detail : list RawPost) (top second : LongRow)
  (rest : list LongRow) :
  top_performers_of sort_values (df_long_of df_detail) = top :: second :: rest ->
  exists td sd,
    key_findings sort_values (df_long_of df_detail) df_detail
    = At {| kf_latest_year := series_max (map LYear (df_long_of df_detail));
            top_country := Some (Name top);
            top_rank := OVERALL_RANK td;
            top_country_posts := Posts top;
            second_country := Some (Name second);
            second_rank := OVERALL_RANK sd;
            second_country_posts := Posts second |}
    /\ In td df_detail /\ COUNTRY td = Some (Name top)
    /\ Year td = Some (LYear top)
    /\ In sd df_detail /\ COUNTRY sd = Some (Name second)
    /\ Year sd = Some (LYear second).
Proof.
  intros Es.
  pose proof (top_performers_perm (df_long_of df_detail)) as Hperm.
  rewrite Es in Hperm.
  assert (Ht : In top (df_long_latest_of (df_long_of df_detail)))
    by (apply (Permutation_in _ (Permutation_sym Hperm)); now left).
  assert (Hs : In second (df_long_latest_of (df_long_of df_detail)))
    by (apply (Permutation_in _ (Permutation_sym Hperm)); right; now left).
  destruct (country_details_found df_detail top Ht) as [td [Etd [Ctd [Itd Ytd]]]].
  destruct (country_details_found df_detail second Hs) as [sd [Esd [Csd [Isd Ysd]]]].
  exists td, sd. unfold key_findings. rewrite Es.
  cbn [iloc nth_error]. rewrite Etd, Esd, Ctd, Csd.
  repeat split; assumption.
Qed.

(** X15 -- when the key findings fail.  They need two countries: they
    raise an IndexError exactly when the long form has fewer than two
    rows for the latest year, which includes the sheet without rows;
    with two or more they are computed. *)
Theorem key_findings_need_two_countries (df_detail : list RawPost) :
  key_findings sort_values (df_long_of df_detail) df_detail = IndexError
  <-> (List.length (df_long_latest_of (df_long_of df_detail)) < 2)%nat.
Proof.
  pose proof (top_performers_perm (df_long_of df_detail)) as Hperm.
  rewrite (Permutation_length Hperm).
  destruct (top_performers_of sort_values (df_long_of df_detail))
    as [|top [|second rest]] eqn:Es.
  - split; [cbn; lia|]. intros _. unfold key_findings. now rewrite Es.
  - split; [cbn; lia|]. intros _. unfold key_findings. now rewrite Es.
  - destruct (key_findings_of_two df_detail top second rest Es)
      as [td [sd [E _]]].
    rewrite E. split; [discriminate|]. cbn [List.length]. lia.
Qed.

Hypothesis sort_values_ordered :
  forall (A : Type) (key : A -> Z) (ascending : bool) (l : list A),
    ordered_by key ascending (sort_values A key ascending l).

(** X16 -- what the key findings show.  When they are computed, the
    year shown is the latest year of the long form: the latest year in
    which a raw row has a country, which rows without a country may
    exceed.  The top country and the runner-up are two different
    countries of that year, shown with their posts of that year; no
    country of that year has more posts than the top country, and none
    but the top country has more than the runner-up; the rank shown for
    either is the overall-rank cell of a raw row of that country and
    year. *)
Theorem key_findings_show_the_leaders (df_detail : list RawPost)
  (k : KeyFindings) :
  key_findings sort_values (df_long_of df_detail) df_detail = At k ->
  let df_long := df_long_of df_detail in
  exists y top second,
    kf_latest_year k = Some y
    /\ series_max (map LYear df_long) = Some y
    /\ (exists r, In r df_detail /\ Year r = Some y /\ COUNTRY r <> None)
    /\ (forall r z, In r df_detail -> Year r = Some z -> COUNTRY r <> None ->
          z <= y)
    /\ top_country k = Some top /\ second_country k = Some second
    /\ In {| Name := top; LYear := y; Posts := top_country_posts k |} df_long
    /\ In {| Name := second; LYear := y; Posts := second_country_posts k |}
          df_long
    /\ top <> second
    /\ (forall c p, In {| Name := c; LYear := y; Posts := p |} df_long ->
          p <= top_country_posts k
          /\ (c <> top -> p <= second_country_posts k))
    /\ (exists m, In m df_detail /\ COUNTRY m = Some top /\ Year m = Some y
                  /\ OVERALL_RANK m = top_rank k)
    /\ (exists m, In m df_detail /\ COUNTRY m = Some second /\ Year m = Some y
                  /\ OVERALL_RANK m = second_rank k).
Proof.
  intros Hk df_long. subst df_long.
  pose proof (top_performers_perm (df_long_of df_detail)) as Hperm.
  pose proof (sort_values_ordered _ Posts false
                (df_long_latest_of (df_long_of df_detail))) as Hord.
  fold (top_performers_of sort_values (df_long_of df_detail)) in Hord.
  destruct (top_performers_of sort_values (df_long_of df_detail))
    as [|top [|second rest]] eqn:Es.
  - unfold key_findings in Hk. rewrite Es in Hk. discriminate.
  - unfold key_findings in Hk. rewrite Es in Hk. discriminate.
  - destruct (key_findings_of_two df_detail top second rest Es)
      as [td [sd [E [Itd [Ctd [Ytd [Isd [Csd Ysd]]]]]]]].
    rewrite E in Hk. inversion Hk; subst k. clear Hk E.
    cbn [kf_latest_year top_country top_rank top_country_posts
         second_country second_rank second_country_posts].
    assert (Hlatest : forall r,
              In r (df_long_latest_of (df_long_of df_detail))
              <-> In r (df_long_of df_detail)
                  /\ is_year (series_max (map LYear (df_long_of df_detail)))
                             (LYear r) = true)
      by (intros r; apply filter_In).
    assert (Ht : In top (df_long_latest_of (df_long_of df_detail)))
      by (apply (Permutation_in _ (Permutation_sym Hperm)); now left).
    assert (Hs : In second (df_long_latest_of (df_long_of df_detail)))
      by (apply (Permutation_in _ (Permutation_sym Hperm)); right; now left).
    apply Hlatest in Ht. apply Hlatest in Hs.
    destruct Ht as [Ht Yt], Hs as [Hs Ys].
    destruct (series_max (map LYear (df_long_of df_detail))) as [y|] eqn:Ey;
      [|discriminate].
    cbn [is_year] in *. apply Z.eqb_eq in Yt, Ys.
    assert (Hnd : NoDup (top :: second :: rest)).
    { eapply Permutation_NoDup; [exact Hperm|].
      apply NoDup_filter, long_form_NoDup. }
    inversion Hnd as [|? ? Hnt Hnd']; subst.
    unfold ordered_by in Hord.
    inversion Hord as [|? ? Hord' Htop]; subst.
    inversion Hord' as [|? ? _ Hsecond]; subst.
    rewrite Forall_forall in Htop, Hsecond.
    destruct (latest_year_bound df_detail (LYear top) Ey) as [Hex [Hmax _]].
    exists (LYear top), (Name top), (Name second).
    split; [reflexivity|]. split; [reflexivity|].
    split; [exact Hex|]. split; [exact Hmax|].
    split; [reflexivity|]. split; [reflexivity|].
    split; [destruct top; exact Ht|].
    split; [replace (LYear top) with (LYear second) by congruence;
            destruct second; exact Hs|].
    split.
    + intros Heq. apply Hnt. left.
      apply (long_row_unique df_detail); congruence.
    + split; [|split].
      * intros c p Hr.
        assert (Hin : In {| Name := c; LYear := LYear top; Posts := p |}
                         (top :: second :: rest)).
        { apply (Permutation_in _ Hperm). apply Hlatest. split; [exact Hr|].
          cbn [LYear is_year]. apply Z.eqb_refl. }
        split.
        -- destruct Hin as [E|Hin].
           ++ apply (f_equal Posts) in E. cbn [Posts] in E. lia.
           ++ specialize (Htop _ Hin). cbn [Posts] in Htop. exact Htop.
        -- intros Hc. destruct Hin as [E|[E|Hin]].
           ++ apply (f_equal Name) in E. cbn [Name] in E. congruence.
           ++ apply (f_equal Posts) in E. cbn [Posts] in E. lia.
           ++ specialize (Hsecond _ Hin). cbn [Posts] in Hsecond. exact Hsecond.
      * exists td. repeat split; assumption.
      * exists sd. repeat split; try assumption. congruence.
Qed.

End KeyFindingsFacts.

(** * The further facts at the sample sheets *)

Example key_findings_two_countries :
  key_findings insertion_sort_values (df_long_of two_countries) two_countries
  = At {| kf_latest_year := Some 2021;
          top_country := Some "B"; top_rank := Some 2; top_country_posts := 6;
          second_country := Some "A"; second_rank := Some 1;
          second_country_posts := 3 |}.
Proof. vm_compute. reflexivity. Qed.

Example choices_with_china :
  year_to_display_default insertion_sorted with_china = Some (Some 2021)
  /\ country_list_map_of with_china
     = Ok [Some "Brazil"; Some "China"; Some "France"]
  /\ selected_country_map_default with_china = Ok (Some (Some "China"))
  /\ selected_country_map_default two_countries = Ok (Some (Some "A"))
  /\ valid_defaults_comp (df_long_of with_china) = ["China"; "France"].
Proof. repeat split; vm_compute; reflexivity. Qed.

(** The latest year of [latest_unnamed], 2022, has no row with a
    country: the ranking tab and the map show 2022, the key findings
    2020, and the one home country offered is NaN. *)
Example choices_latest_unnamed :
  year_to_display_default insertion_sorted latest_unnamed = Some (Some 2022)
  /\ map_year_of latest_unnamed = Some 2022
  /\ series_max (map LYear (df_long_of latest_unnamed)) = Some 2020
  /\ selected_country_map_default latest_unnamed = Ok (Some None).
Proof. repeat split; vm_compute; reflexivity. Qed.

(** In the latest year of [latest_without_country] one row has a
    country and one has none: the map tab stops. *)
Example choices_latest_without_country :
  country_list_map_of latest_without_country = Raise TypeError
  /\ selected_country_map_default latest_without_country = Raise TypeError.
Proof. split; vm_compute; reflexivity. Qed.

(** The wide pivot of [no_country] has a row for country A. *)
Lemma wide_pivot_shape_witness :
  In "A" (map fst (df_wide_of (Year_dtype no_country) (df_long_of no_country))).
Proof.
  apply (proj2 (proj1 (proj2 (wide_pivot_shape no_country)) "A")).
  exists (post "A" 2020 "Embassy" "X" 1).
  split; [left; reflexivity|]. split; [reflexivity|discriminate].
Defined.

(** The trend of A and B over [four_years] has a row for 2020. *)
Lemma trend_pivot_shape_witness :
  In 2020 (map fst (trend_pivot (df_long_of four_years) ["A"; "B"] [2019])).
Proof.
  apply (proj2 (proj1 (proj2 (trend_pivot_shape (df_long_of four_years)
                                ["A"; "B"] [2019])) 2020)).
  exists {| Name := "A"; LYear := 2020; Posts := 1 |}.
  split; [vm_compute; right; right; left; reflexivity|].
  split; [reflexivity|]. split; [left; reflexivity|].
  intros [H|[]]. discriminate H.
Defined.

(** Some country of [two_countries] has rank 1 in 2020. *)
Lemma rank_competition_witness :
  exists a, In (a, 1) (ranked (year_rows (df_long_of two_countries) 2020)).
Proof.
  apply (proj2 (rank_competition (df_long_of two_countries) 2020)).
  vm_compute. discriminate.
Defined.

(** The rank changes of [two_countries] from 2020 to 2021. *)
Lemma rank_change_inner_join_witness :
  exists t,
    rank_change_table (df_long_of two_countries) 2020 2021 = Ok t
    /\ NoDup (map cr_Name t).
Proof.
  destruct (rank_change_inner_join two_countries 2020 2021) as [t [H1 [H2 _]]].
  - discriminate.
  - exists t. split; assumption.
Defined.

(** The two top tens of [two_countries] from 2020 to 2021. *)
Lemma top_ten_of_rank_changes_witness :
  exists most_improved biggest_fall,
    calculate_rank_analysis insertion_sort_values (df_long_of two_countries)
      2020 2021
    = Ok (most_improved, biggest_fall)
    /\ ordered_by Rank_Change false most_improved
    /\ ordered_by Rank_Change true biggest_fall.
Proof.
  destruct (top_ten_of_rank_changes insertion_sort_values
              insertion_sort_values_perm insertion_sort_values_ordered
              (df_long_of two_countries) 2020 2021)
    as [t [mi [bf [_ [H [_ [_ [O1 [O2 _]]]]]]]]].
  - discriminate.
  - exists mi, bf. repeat split; assumption.
Defined.

(** [two_countries] has no row of the year 1999. *)
Lemma rank_analysis_of_missing_year_witness :
  calculate_rank_analysis insertion_sort_values (df_long_of two_countries)
    2020 1999
  = Ok ([], []).
Proof.
  apply (rank_analysis_of_missing_year insertion_sort_values
           insertion_sort_values_perm).
  - discriminate.
  - right. intros r Hr E. vm_compute in Hr.
    repeat (destruct Hr as [Hr|Hr]; [rewrite <- Hr in E; discriminate E|]).
    exact Hr.
Defined.

(** [latest_without_country] has no empty Year cell: the year shown
    first is its latest year, 2021. *)
Lemma default_year_is_latest_witness :
  year_to_display_default insertion_sorted latest_without_country
  = option_map Some (map_year_of latest_without_country).
Proof.
  apply (proj1 (proj2 (proj2 (proj2 (proj2
           (default_year_is_latest insertion_sorted insertion_sorted_perm
              insertion_sorted_ordered latest_without_country)))))).
  unfold latest_without_country. each_row r Hr.
Defined.

(** [with_china] has China in its latest year. *)
Lemma default_home_country_witness :
  selected_country_map_default with_china = Ok (Some (Some "China")).
Proof.
  destruct (proj2 (proj2 (proj2 (default_home_country with_china))))
    as [offered [_ [_ [_ [H _]]]]].
  - intros [r [Hr Hc]]. vm_compute in Hr.
    repeat (destruct Hr as [Hr|Hr]; [rewrite <- Hr in Hc; discriminate Hc|]).
    exact Hr.
  - apply H. exists (post "China" 2021 "Embassy" "Y" 1).
    split; [vm_compute; left; reflexivity|reflexivity].
Defined.

(** China is selected at first for the long form of [with_china]. *)
Lemma default_comparison_witness :
  In "China" (valid_defaults_comp (df_long_of with_china)).
Proof.
  apply (proj2 (proj1 (default_comparison (df_long_of with_china)) "China")).
  split; [left; reflexivity|]. vm_compute. right. left. reflexivity.
Defined.

(** The ranking table of [no_label] for 2020. *)
Lemma breakdown_within_total_witness :
  exists rows,
    ranking_table insertion_sort_values no_label (df_long_of no_label) 2020
    = Ok rows
    /\ forall row, In row rows ->
         (exists e c, Embassies row = Some e /\ Consulates row = Some c
                      /\ e + c <= TOTAL_POSTS row)
         \/ (Embassies row = None /\ Consulates row = None).
Proof.
  destruct (breakdown_within_total insertion_sort_values
              insertion_sort_values_perm no_label 2020) as [rows [H1 H2]].
  exists rows. split; [exact H1|]. intros row Hrow.
  destruct (H2 row Hrow) as [[e [c [He [Hc [_ [_ [Hle _]]]]]]]|[He [Hc _]]].
  - left. exists e, c. repeat split; assumption.
  - right. split; assumption.
Defined.

(** The table of [shared_rank] for 2020 lists no country twice, and its
    rows carry the rank of a raw row of their country. *)
Lemma metadata_of_first_row_witness :
  exists rows,
    ranking_table insertion_sort_values shared_rank (df_long_of shared_rank) 2020
    = Ok rows
    /\ NoDup (map Country rows)
    /\ forall row, In row rows ->
         exists m, In m shared_rank /\ COUNTRY m = Some (Country row)
                   /\ Rank row = OVERALL_RANK m.
Proof.
  destruct (metadata_of_first_row insertion_sort_values
              insertion_sort_values_perm shared_rank 2020) as [rows [H1 [Hnd H2]]].
  exists rows. split; [exact H1|]. split; [exact Hnd|]. intros row Hrow.
  destruct (H2 row Hrow) as [pre [m [post [E [_ [Hc [Hr _]]]]]]].
  exists m. split; [|split; assumption].
  assert (Hm : In m (detail_of_year shared_rank 2020))
    by (rewrite E; apply in_elt).
  apply filter_In in Hm. tauto.
Defined.


(** The footprint of country A in 2020 of [two_countries]. *)
Lemma footprint_descending_witness :
  ordered_by snd false
    (post_locations_of insertion_sort_values two_countries 2020 "A").
Proof.
  exact (proj1 (footprint_descending insertion_sort_values
                  insertion_sort_values_perm insertion_sort_values_ordered
                  two_countries "A" 2020)).
Defined.

(** [lone_country] has one country in its latest year. *)
Lemma key_findings_need_two_countries_witness :
  key_findings insertion_sort_values (df_long_of lone_country) lone_country
  = IndexError.
Proof.
  apply (proj2 (key_findings_need_two_countries insertion_sort_values
                  insertion_sort_values_perm lone_country)).
  vm_compute. lia.
Defined.

(** The key findings of [latest_unnamed] are those of 2020, the latest
    year in which a row has a country, and its leaders are two
    different countries. *)
Lemma key_findings_show_the_leaders_witness :
  exists k y top second,
    key_findings insertion_sort_values (df_long_of latest_unnamed)
      latest_unnamed
    = At k
    /\ kf_latest_year k = Some y
    /\ top_country k = Some top /\ second_country k = Some second
    /\ top <> second.
Proof.
  assert (Hk : key_findings insertion_sort_values (df_long_of latest_unnamed)
                 latest_unnamed
               = At {| kf_latest_year := Some 2020;
                       top_country := Some "A"; top_rank := Some 1;
                       top_country_posts := 1;
                       second_country := Some "B"; second_rank := Some 2;
                       second_country_posts := 1 |})
    by (vm_compute; reflexivity).
  destruct (key_findings_show_the_leaders insertion_sort_values
              insertion_sort_values_perm insertion_sort_values_ordered
              latest_unnamed _ Hk)
    as [y [top [second [Hy [_ [_ [_ [Ht [Hs [_ [_ [Hne _]]]]]]]]]]]].
  eexists. exists y, top, second. split; [exact Hk|].
  repeat split; assumption.
Defined.
